(** * soranks: the rank filter, the pagination driver and the JSON report

    A shallow embedding of [main.go] (the single-file program at the root of
    the repository) and of the command [main] that calls the same functions
    through the [lib] package.  Go's [int] is the 64-bit two's complement
    integer, strings are sequences of bytes, a [*SOUsers] that may be [nil]
    is an [option], and the effects of the driver (key lookup, HTTP
    requests, files, console, [os.Exit], panics) are threaded explicitly
    through a state and a trace of events. *)

From Stdlib Require Import ZArith List String Ascii Bool Lia.
From Stdlib Require Import DecimalString DecimalPos DecimalZ.
Import ListNotations.
Local Open Scope string_scope.
Local Open Scope list_scope.
Local Open Scope Z_scope.

Set Implicit Arguments.

(** [length] and [concat] are those of lists throughout; the length of a
    string is written [String.length]. *)
#[local] Abbreviation length := List.length.
#[local] Abbreviation concat := List.concat.

(** ** Go's [int] *)

Module GoInt.

Definition int_min : Z := - 2 ^ 63.
Definition int_max : Z := 2 ^ 63 - 1.

(** Two's complement wrap-around of a mathematical integer into [int]. *)
Definition wrap (z : Z) : Z := (z + 2 ^ 63) mod 2 ^ 64 - 2 ^ 63.

(** [x += y] on [int]. *)
Definition add (x y : Z) : Z := wrap (x + y).

Definition in_range (z : Z) : Prop := int_min <= z <= int_max.

End GoInt.

(** ** Data model ([main.go], types [SOUsers], [SOUserRank], [Ranks]) *)

Module Badges.
Record t : Type := mk { Bronze : Z; Silver : Z; Gold : Z }.
End Badges.

(** One element of [SOUsers.Items]. *)
Module Item.
Record t : Type := mk {
  BadgeCounts : Badges.t;
  AccountID : Z;
  IsEmployee : bool;
  LastModifiedDate : Z;
  LastAccessDate : Z;
  Age : Z;
  ReputationChangeYear : Z;
  ReputationChangeQuarter : Z;
  ReputationChangeMonth : Z;
  ReputationChangeWeek : Z;
  ReputationChangeDay : Z;
  Reputation : Z;
  CreationDate : Z;
  UserType : string;
  UserID : Z;
  AcceptRate : Z;
  Location : string;
  WebsiteURL : string;
  Link : string;
  ProfileImage : string;
  DisplayName : string
}.
End Item.

Module SOUsers.
Record t : Type := mk {
  Items : list Item.t;
  HasMore : bool;
  QuotaMax : Z;
  QuotaRemaining : Z
}.
End SOUsers.

Module SOUserRank.
Record t : Type := mk {
  Rank : Z;
  AccountID : Z;
  DisplayName : string;
  Reputation : Z;
  Location : string;
  WebsiteURL : string;
  Link : string;
  ProfileImage : string
}.
End SOUserRank.

Definition Ranks : Type := list SOUserRank.t.

(** ** UTF-8

    Go's strings are bytes; [regexp] and [encoding/json] read them rune by
    rune, a byte that starts no well-formed UTF-8 sequence being the rune
    U+FFFD of width one. *)

Module UTF8.

Definition RuneError : N := 65533.

Definition byte (c : ascii) : N := N_of_ascii c.

Definition between (lo hi b : N) : bool := ((lo <=? b) && (b <=? hi))%N.

(** A continuation byte, 0x80 to 0xBF. *)
Definition cont (b : N) : bool := between 128 191 b.

(** The bytes that may follow the first byte [b0] of a sequence of three
    or four bytes (no overlong forms, no surrogates, nothing above
    U+10FFFF). *)
Definition second_ok (b0 b1 : N) : bool :=
  (if b0 =? 224 then between 160 191 b1
   else if b0 =? 237 then between 128 159 b1
   else if b0 =? 240 then between 144 191 b1
   else if b0 =? 244 then between 128 143 b1
   else cont b1)%N.

(** The length of the sequence that the byte [b0] starts; 0 for a byte
    that starts none. *)
Definition width (b0 : N) : nat :=
  if (b0 <? 128)%N then 1%nat
  else if between 194 223 b0 then 2%nat
  else if between 224 239 b0 then 3%nat
  else if between 240 244 b0 then 4%nat
  else 0%nat.

Definition rune2 (b0 b1 : N) : N := ((b0 - 192) * 64 + (b1 - 128))%N.

Definition rune3 (b0 b1 b2 : N) : N :=
  ((b0 - 224) * 4096 + (b1 - 128) * 64 + (b2 - 128))%N.

Definition rune4 (b0 b1 b2 b3 : N) : N :=
  ((b0 - 240) * 262144 + (b1 - 128) * 4096 + (b2 - 128) * 64
   + (b3 - 128))%N.

(** The runes of a string, as [utf8.DecodeRuneInString] steps through
    it. *)
Fixpoint runes (s : string) : list N :=
  match s with
  | EmptyString => []
  | String c0 s1 =>
      let b0 := byte c0 in
      match width b0, s1 with
      | 1%nat, _ => b0 :: runes s1
      | 2%nat, String c1 s2 =>
          if second_ok b0 (byte c1)
          then rune2 b0 (byte c1) :: runes s2
          else RuneError :: runes s1
      | 3%nat, String c1 (String c2 s3) =>
          if (second_ok b0 (byte c1) && cont (byte c2))%bool
          then rune3 b0 (byte c1) (byte c2) :: runes s3
          else RuneError :: runes s1
      | 4%nat, String c1 (String c2 (String c3 s4)) =>
          if (second_ok b0 (byte c1) && cont (byte c2)
              && cont (byte c3))%bool
          then rune4 b0 (byte c1) (byte c2) (byte c3) :: runes s4
          else RuneError :: runes s1
      | _, _ => RuneError :: runes s1
      end
  end.

Definition char (b : N) : ascii := ascii_of_N b.

(** The bytes of a rune ([utf8.EncodeRune]). *)
Definition encode (r : N) : string :=
  (if r <? 128 then String (char r) EmptyString
   else if r <? 2048 then
     String (char (192 + r / 64))
       (String (char (128 + r mod 64)) EmptyString)
   else if r <? 65536 then
     String (char (224 + r / 4096))
       (String (char (128 + (r / 64) mod 64))
          (String (char (128 + r mod 64)) EmptyString))
   else
     String (char (240 + r / 262144))
       (String (char (128 + (r / 4096) mod 64))
          (String (char (128 + (r / 64) mod 64))
             (String (char (128 + r mod 64)) EmptyString))))%N.

(** The string with each byte that is not part of a well-formed sequence
    replaced by U+FFFD, which is how [encoding/json] writes a string. *)
Definition coerce (s : string) : string :=
  String.concat EmptyString (map encode (runes s)).

Definition well_formed (s : string) : Prop := coerce s = s.

End UTF8.

(** ** Regular expressions ([regexp.MustCompile], [MatchString])

    The patterns computed here are a fragment of the RE2 syntax: ASCII
    literals and [.], each with at most one of the postfix operators [*],
    [+], [?], after the [(?i)] prefix that [main] puts in front of the
    location flag.  The input is read rune by rune.  [.] is compiled
    without the [s] flag and matches every rune but the newline; under
    [(?i)] a letter matches its simple case folding orbit.  A pattern
    outside the fragment is what the library makes of it: rejected, or
    [Other f] with [f] telling the strings it is found in. *)

Module Regexp.
Import UTF8.

Inductive t : Type :=
| Fail                       (* matches nothing; only arises in derivatives *)
| Empty                      (* the empty pattern *)
| Lit (fold : bool) (c : N)  (* an ASCII literal *)
| AnyNotNL                   (* [.] *)
| Cat (r1 r2 : t)
| Alt (r1 r2 : t)
| Star (r : t)
| Other (found_in : string -> bool).   (* a whole pattern, never a part *)

Definition newline : N := 10.

(** The runes an ASCII literal matches under [(?i)]: both cases of a
    letter, with the Kelvin sign for [k] and the long s for [s]. *)
Definition fold_class (c : N) : list N :=
  (let u := if between 97 122 c then c - 32 else c in
   if between 65 90 u then
     u :: u + 32
       :: (if u =? 75 then [8490] else if u =? 83 then [383] else [])
   else [c])%N.

Definition lit_matches (fold : bool) (c x : N) : bool :=
  if fold then existsb (N.eqb x) (fold_class c) else N.eqb c x.

Fixpoint nullable (r : t) : bool :=
  match r with
  | Fail => false
  | Empty => true
  | Lit _ _ => false
  | AnyNotNL => false
  | Cat r1 r2 => nullable r1 && nullable r2
  | Alt r1 r2 => nullable r1 || nullable r2
  | Star _ => true
  | Other _ => false
  end.

(** Brzozowski derivative: what is left of [r] after reading the rune
    [x]. *)
Fixpoint deriv (x : N) (r : t) : t :=
  match r with
  | Fail => Fail
  | Empty => Fail
  | Lit fold c => if lit_matches fold c x then Empty else Fail
  | AnyNotNL => if N.eqb x newline then Fail else Empty
  | Cat r1 r2 =>
      if nullable r1 then Alt (Cat (deriv x r1) r2) (deriv x r2)
      else Cat (deriv x r1) r2
  | Alt r1 r2 => Alt (deriv x r1) (deriv x r2)
  | Star r1 => Cat (deriv x r1) (Star r1)
  | Other _ => Fail
  end.

(** Some prefix of [w] matches [r]. *)
Fixpoint match_prefix (r : t) (w : list N) : bool :=
  nullable r ||
  match w with
  | [] => false
  | x :: w' => match_prefix (deriv x r) w'
  end.

(** Some part of [w] matches [r]. *)
Fixpoint search (r : t) (w : list N) : bool :=
  match_prefix r w ||
  match w with
  | [] => false
  | _ :: w' => search r w'
  end.

(** [re.MatchString(s)]: [s] contains a match of [re] (the search is not
    anchored). *)
Definition MatchString (r : t) (s : string) : bool :=
  match r with
  | Other found_in => found_in s
  | _ => search r (runes s)
  end.

Definition is_meta (c : ascii) : bool :=
  existsb (Ascii.eqb c)
    (list_ascii_of_string "\.+*?()|[]{}^$").

Definition atom (fold : bool) (c : ascii) : option t :=
  if Ascii.eqb c "."%char then Some AnyNotNL
  else if (is_meta c || negb (byte c <? 128)%N)%bool then None
  else Some (Lit fold (byte c)).

Definition postfix (op : ascii) (a : t) : option t :=
  if Ascii.eqb op "*"%char then Some (Star a)
  else if Ascii.eqb op "+"%char then Some (Cat a (Star a))
  else if Ascii.eqb op "?"%char then Some (Alt a Empty)
  else None.

Definition cat_opt (a : t) (rest : option t) : option t :=
  match rest with
  | Some r => Some (Cat a r)
  | None => None
  end.

(** A sequence of atoms, each with at most one postfix operator; [None]
    for a pattern outside the fragment. *)
Fixpoint parse (fold : bool) (s : string) : option t :=
  match s with
  | EmptyString => Some Empty
  | String c rest =>
      match atom fold c with
      | None => None
      | Some a =>
          match rest with
          | EmptyString => Some a
          | String op rest' =>
              match postfix op a with
              | Some ra =>
                  match rest' with
                  | EmptyString => Some ra
                  | String _ _ => cat_opt ra (parse fold rest')
                  end
              | None => cat_opt a (parse fold rest)
              end
          end
      end
  end.

Definition strip_prefix (p s : string) : option string :=
  if String.prefix p s
  then Some (substring (String.length p) (String.length s - String.length p) s)
  else None.

Definition in_fragment (pattern : string) : option t :=
  match strip_prefix "(?i)" pattern with
  | Some body => parse true body
  | None => parse false pattern
  end.

(** [regexp.MustCompile(pattern)]; [None] is the panic.  [library] is
    what the package makes of the patterns outside the fragment. *)
Definition MustCompile (library : string -> option (string -> bool))
    (pattern : string) : option t :=
  match in_fragment pattern with
  | Some r => Some r
  | None =>
      match library pattern with
      | Some found_in => Some (Other found_in)
      | None => None
      end
  end.

End Regexp.

(** ** Console

    What the [Info], [Warning] and [Error] loggers print, one constructor
    per call site shape; the arguments of a formatted line are kept as
    they are passed to [Printf] (the rendering, [html.UnescapeString]
    included, is the logger's).  [Trace] writes to [ioutil.Discard] and
    leaves nothing. *)

Module Console.

Inductive line : Type :=
| Info (msg : string)
| Warning (msg : string)
| Error (msg : string)
| UserHeader                                   (* "Rank", "Name", "Rep", "Location" *)
| UserRow (rank : Z) (name : string) (rep : Z) (loc : string)
| PagesRequested (n : Z)
| UsersFound (n : Z).

End Console.

(** ** Rank filter ([GetUserInfo])

    [main.go] compares with its constant [MinReputation]; the command
    passes its own constant as the second argument of [lib.GetUserInfo].
    The threshold is an argument here and each program supplies its
    constant.  What the pointers [counter] and [ranks] point to goes in
    and comes out as a [Filter.state]; the lines printed come out with
    it. *)

Module Filter.

Record state : Type := mk {
  counter : Z;
  ranks : Ranks
}.

Definition rank_of (c : Z) (user : Item.t) : SOUserRank.t :=
  {| SOUserRank.Rank := c;
     SOUserRank.AccountID := Item.AccountID user;
     SOUserRank.DisplayName := Item.DisplayName user;
     SOUserRank.Reputation := Item.Reputation user;
     SOUserRank.Location := Item.Location user;
     SOUserRank.WebsiteURL := Item.WebsiteURL user;
     SOUserRank.Link := Item.Link user;
     SOUserRank.ProfileImage := Item.ProfileImage user |}.

(** The body of [if location.MatchString(user.Location)] up to the limit
    test: the state once the record is accepted, and what was printed. *)
Definition accept (term : bool) (user : Item.t) (st : state)
    : state * list Console.line :=
  let c := GoInt.add (counter st) 1 in
  ({| counter := c; ranks := ranks st ++ [rank_of c user] |},
   (if ((c =? 1) && term)%bool
    then [Console.Info "User data:"; Console.UserHeader] else [])
   ++
   (if term
    then [Console.UserRow c (Item.DisplayName user) (Item.Reputation user)
            (Item.Location user)]
    else [])).

(** [for _, user := range users.Items]. *)
Fixpoint scan (items : list Item.t) (MinReputation : Z) (location : Regexp.t)
    (limit : Z) (term : bool) (st : state)
    : bool * state * list Console.line :=
  match items with
  | [] => (true, st, [])
  | user :: rest =>
      if Item.Reputation user <? MinReputation then (false, st, [])
      else if Regexp.MatchString location (Item.Location user) then
        let '(st1, out) := accept term user st in
        if ((counter st1 >=? limit) && negb (limit =? 0))%bool
        then (false, st1, out)
        else
          let '(rep, st2, out') :=
            scan rest MinReputation location limit term st1 in
          (rep, st2, out ++ out')
      else scan rest MinReputation location limit term st
  end.

End Filter.

Definition GetUserInfo (users : SOUsers.t) (MinReputation : Z)
    (location : Regexp.t) (limit : Z) (term : bool) (st : Filter.state)
    : bool * Filter.state * list Console.line :=
  Filter.scan (SOUsers.Items users) MinReputation location limit term st.

(** ** The world outside the process

    What the functions that do I/O return.  An HTTP request is answered by
    [http], which sees how many requests were made before it, the page and
    the key; a request or a file that cannot be decoded is [Failed] (a
    non-nil [err]), with what the decoder had filled in. *)

Module World.

Inductive response : Type :=
| Failed (partial : SOUsers.t)
| Page (users : SOUsers.t).

(** What the decoder left in the [SOUsers] it was given. *)
Definition decoded (r : response) : SOUsers.t :=
  match r with
  | Failed partial => partial
  | Page users => users
  end.

(** What [os.Stat] and [ioutil.ReadFile] make of the key file. *)
Inductive key_read : Type :=
| NoFile
| Unreadable
| Content (bytes : string).

Record t : Type := mk {
  key_file : string -> key_read;
  http : nat -> Z -> string -> response;
  json_file : string -> response;
  creatable : string -> bool;           (* [os.Create] succeeds *)
  regexp : string -> option (string -> bool)
}.

End World.

(** Command line flags, with the defaults of the [flag] declarations. *)
Module Flags.

Record t : Type := mk {
  location : string;
  jsonfile : string;
  jsonrsp : string;
  mdrsp : string;
  limit : Z;
  term : bool;
  publish : string          (* the command only *)
}.

Definition default : t :=
  {| location := "."; jsonfile := EmptyString; jsonrsp := EmptyString;
     mdrsp := EmptyString; limit := 20; term := false;
     publish := EmptyString |}.

End Flags.

(** ** Driver state, events and outcomes *)

Module Driver.

Inductive event : Type :=
| GetKey (path : string)
| StreamHTTP (page : Z) (key : string) (r : World.response)
| StreamFile (path : string) (r : World.response)
| DumpJson (path : string) (ranks : Ranks)
| DumpMarkdown (path : string) (ranks : Ranks) (location : string)
| GitHubConnector (publish mdrsp : string).

(** The local variables of [main] that live across iterations, followed
    by the history of the run: the number of HTTP requests made, the
    trace of I/O, the console, and the pages handed to the rank filter. *)
Record state : Type := mk {
  stop : bool;
  streamErrors : Z;
  currentPage : Z;
  lastPage : Z;
  counter : Z;
  users : option SOUsers.t;             (* [nil] is [None] *)
  ranks : Ranks;
  key : string;
  requests : nat;
  trace : list event;
  console : list Console.line;
  filtered : list SOUsers.t
}.

Inductive step : Type :=
| Continue (st : state)                 (* next iteration of [for] *)
| Break (st : state)
| Exited (code : Z) (st : state)        (* [os.Exit(code)] *)
| Panicked (st : state).

Inductive outcome : Type :=
| Exit (code : Z)
| Panic
| Return.                               (* [main] returns: exit code 0 *)

Definition state_of (s : step) : state :=
  match s with
  | Continue st | Break st | Exited _ st | Panicked st => st
  end.

Definition say (l : Console.line) (st : state) : state :=
  {| stop := stop st; streamErrors := streamErrors st;
     currentPage := currentPage st; lastPage := lastPage st;
     counter := counter st; users := users st; ranks := ranks st;
     key := key st; requests := requests st; trace := trace st;
     console := console st ++ [l]; filtered := filtered st |}.

Definition emit (e : event) (st : state) : state :=
  {| stop := stop st; streamErrors := streamErrors st;
     currentPage := currentPage st; lastPage := lastPage st;
     counter := counter st; users := users st; ranks := ranks st;
     key := key st; requests := requests st; trace := trace st ++ [e];
     console := console st; filtered := filtered st |}.

Definition set_key (k : string) (st : state) : state :=
  {| stop := stop st; streamErrors := streamErrors st;
     currentPage := currentPage st; lastPage := lastPage st;
     counter := counter st; users := users st; ranks := ranks st;
     key := k; requests := requests st; trace := trace st;
     console := console st; filtered := filtered st |}.

Definition set_users (u : option SOUsers.t) (st : state) : state :=
  {| stop := stop st; streamErrors := streamErrors st;
     currentPage := currentPage st; lastPage := lastPage st;
     counter := counter st; users := u; ranks := ranks st;
     key := key st; requests := requests st; trace := trace st;
     console := console st; filtered := filtered st |}.

Definition set_stop (b : bool) (st : state) : state :=
  {| stop := b; streamErrors := streamErrors st;
     currentPage := currentPage st; lastPage := lastPage st;
     counter := counter st; users := users st; ranks := ranks st;
     key := key st; requests := requests st; trace := trace st;
     console := console st; filtered := filtered st |}.

(** The state after [GetUserInfo(users, ..., &counter, ..., &ranks, ...)]
    on the page [u]. *)
Definition filter_done (u : SOUsers.t) (a : Filter.state)
    (out : list Console.line) (st : state) : state :=
  {| stop := stop st; streamErrors := streamErrors st;
     currentPage := currentPage st; lastPage := lastPage st;
     counter := Filter.counter a; users := users st;
     ranks := Filter.ranks a;
     key := key st; requests := requests st; trace := trace st;
     console := console st ++ out; filtered := filtered st ++ [u] |}.

(** [streamErrors += 1]. *)
Definition count_error (st : state) : state :=
  {| stop := stop st; streamErrors := GoInt.add (streamErrors st) 1;
     currentPage := currentPage st; lastPage := lastPage st;
     counter := counter st; users := users st; ranks := ranks st;
     key := key st; requests := requests st; trace := trace st;
     console := console st; filtered := filtered st |}.

(** [lastPage = currentPage; currentPage += 1]. *)
Definition advance (st : state) : state :=
  {| stop := stop st; streamErrors := streamErrors st;
     currentPage := GoInt.add (currentPage st) 1; lastPage := currentPage st;
     counter := counter st; users := users st; ranks := ranks st;
     key := key st; requests := requests st; trace := trace st;
     console := console st; filtered := filtered st |}.

(** One more request has been answered. *)
Definition answered (st : state) : state :=
  {| stop := stop st; streamErrors := streamErrors st;
     currentPage := currentPage st; lastPage := lastPage st;
     counter := counter st; users := users st; ranks := ranks st;
     key := key st; requests := S (requests st); trace := trace st;
     console := console st; filtered := filtered st |}.

(** The declarations before [for]. *)
Definition init : state :=
  {| stop := false; streamErrors := 0; currentPage := 1; lastPage := 1;
     counter := 0; users := None; ranks := []; key := EmptyString;
     requests := 0; trace := []; console := []; filtered := [] |}.

(** [strings.TrimRight(s, "\n")]. *)
Fixpoint TrimRight_nl (s : string) : string :=
  match s with
  | EmptyString => EmptyString
  | String c s' =>
      match TrimRight_nl s' with
      | EmptyString =>
          if Ascii.eqb c "010"%char then EmptyString
          else String c EmptyString
      | t => String c t
      end
  end.

(** [err != nil || len(users.Items) == 0]. *)
Definition fetch_failed (r : World.response) : bool :=
  match r with
  | World.Failed _ => true
  | World.Page u =>
      match SOUsers.Items u with
      | [] => true
      | _ :: _ => false
      end
  end.

Definition is_write (e : event) : bool :=
  match e with
  | DumpJson _ _ | DumpMarkdown _ _ _ | GitHubConnector _ _ => true
  | _ => false
  end.

Definition is_GetKey (e : event) : bool :=
  match e with
  | GetKey _ => true
  | _ => false
  end.

(** An HTTP request that was answered with an error or an empty page. *)
Definition is_failure (e : event) : bool :=
  match e with
  | StreamHTTP _ _ r => fetch_failed r
  | _ => false
  end.

Definition is_request_of (page : Z) (e : event) : bool :=
  match e with
  | StreamHTTP p _ _ => p =? page
  | _ => false
  end.

(** The pages the driver asked for, in order. *)
Fixpoint pages_requested (t : list event) : list Z :=
  match t with
  | [] => []
  | StreamHTTP p _ _ :: t' => p :: pages_requested t'
  | _ :: t' => pages_requested t'
  end.

End Driver.

(** ** The part of the loop body both programs share

    From [repLimit := GetUserInfo(...)] to the end of the body of [for]
    ([main.go] and the command differ there in their constants only),
    the branch of a failed fetch, and the branch that reads a file. *)

Module Body.
Import Driver.

Section Constants.

Variable MaxPages : Z.
Variable MinReputation : Z.
Variable MaxErrors : Z.

(** [(currentPage >= MaxPages && MaxPages != 0) || !users.HasMore || stop],
    evaluated after [currentPage += 1]. *)
Definition last_page (u : SOUsers.t) (st : state) : bool :=
  ((currentPage st >=? MaxPages) && negb (MaxPages =? 0))
  || negb (SOUsers.HasMore u) || stop st.

Definition filter_and_advance (fl : Flags.t) (re : Regexp.t) (st : state)
    : step :=
  match users st with
  | None => Panicked st               (* [users.Items] through a nil pointer *)
  | Some u =>
      let '(repLimit, a, out) :=
        GetUserInfo u MinReputation re (Flags.limit fl) (Flags.term fl)
          {| Filter.counter := counter st; Filter.ranks := ranks st |} in
      let st1 := filter_done u a out st in
      if negb repLimit then Break st1
      else
        let st2 := advance st1 in
        if last_page u st2 then Break st2 else Continue st2
  end.

(** The branch taken when [err != nil || len(users.Items) == 0]. *)
Definition retry (st : state) : step :=
  let st1 := count_error (say (Console.Warning "Can't stream data.") st) in
  if streamErrors st1 >=? MaxErrors
  then Exited 5 (say (Console.Error "Max retry number reached") st1)
  else Continue st1.

(** The [else] branch of the test on [*jsonfile]. *)
Definition from_file (fl : Flags.t) (w : World.t) (re : Regexp.t)
    (st : state) : step :=
  let r := World.json_file w (Flags.jsonfile fl) in
  let st1 :=
    set_users (Some (World.decoded r))
      (emit (StreamFile (Flags.jsonfile fl) r)
         (say (Console.Info "Extracting from source JSON file.") st)) in
  match r with
  | World.Failed _ =>
      Exited 5 (say (Console.Error "Can't decode json file.") st1)
  | World.Page _ => filter_and_advance fl re (set_stop true st1)
  end.

End Constants.

(** [for { ... }], with fuel for the iterations. *)
Fixpoint loop (iteration : state -> step) (fuel : nat) (st : state)
    : option step :=
  match fuel with
  | O => None
  | S fuel' =>
      match iteration st with
      | Continue st' => loop iteration fuel' st'
      | s => Some s
      end
  end.

End Body.

(** ** [main.go] *)

Module MainGo.
Import Driver.

Definition MaxErrors : Z := 3.
Definition MaxPages : Z := 1.
Definition MinReputation : Z := 400.
Definition APIKeyPath : string := "./_secret/api.key".

(** [GetKey()]: the key as a query parameter, or the empty string. *)
Definition GetKey (w : World.t) (st : state) : string * state :=
  let st1 := emit (Driver.GetKey APIKeyPath) st in
  match World.key_file w APIKeyPath with
  | World.NoFile =>
      (EmptyString, say (Console.Warning "Can't find API key") st1)
  | World.Unreadable =>
      (EmptyString, say (Console.Warning "Can't load API key") st1)
  | World.Content strkey => ("&key=" ++ TrimRight_nl strkey, st1)
  end%string.

(** One pass through the body of [for].  In the HTTP branch
    [users, err := StreamHTTP(currentPage, key)] declares a [users] of the
    branch: the [users] of [main], read after the branch, is not
    assigned.  [key] is declared in the branch, too, and starts empty. *)
Definition iteration (fl : Flags.t) (w : World.t) (re : Regexp.t)
    (st : state) : step :=
  if (Flags.jsonfile fl =? EmptyString)%string then
    let '(key, st1) :=
      if lastPage st =? currentPage st
      then GetKey w (say (Console.Info "Trying to extract API key.") st)
      else (EmptyString, st) in
    let r := World.http w (requests st1) (currentPage st1) key in
    let st2 := answered (emit (StreamHTTP (currentPage st1) key r) st1) in
    if fetch_failed r then Body.retry MaxErrors st2
    else Body.filter_and_advance MaxPages MinReputation fl re st2
  else Body.from_file MaxPages MinReputation fl w re st.

Definition DumpMarkdown (fl : Flags.t) (w : World.t) (st : state)
    : option state :=
  if World.creatable w (Flags.mdrsp fl)
  then Some (emit (Driver.DumpMarkdown (Flags.mdrsp fl) (ranks st)
                     (Flags.location fl)) st)
  else None.

Definition DumpJson (fl : Flags.t) (w : World.t) (st : state)
    : option state :=
  if World.creatable w (Flags.jsonrsp fl)
  then Some (emit (Driver.DumpJson (Flags.jsonrsp fl) (ranks st)) st)
  else None.

(** After the loop. *)
Definition report (fl : Flags.t) (w : World.t) (st : state)
    : outcome * state :=
  if counter st =? 0
  then (Exit 0, say (Console.Warning "No results found.") st)
  else
    match (if (Flags.mdrsp fl =? EmptyString)%string then Some st
           else DumpMarkdown fl w st) with
    | None => (Panic, st)
    | Some st1 =>
        match (if (Flags.jsonrsp fl =? EmptyString)%string then Some st1
               else DumpJson fl w st1) with
        | None => (Panic, st1)
        | Some st2 =>
            (Return,
             say (Console.UsersFound (counter st2))
               (say (Console.PagesRequested (lastPage st2)) st2))
        end
    end.

Definition finish (fl : Flags.t) (w : World.t) (s : step)
    : outcome * state :=
  match s with
  | Exited c st => (Exit c, st)
  | Panicked st => (Panic, st)
  | Break st | Continue st => report fl w st
  end.

Definition main (fuel : nat) (fl : Flags.t) (w : World.t)
    : option (outcome * state) :=
  match Regexp.MustCompile (World.regexp w)
          ("(?i)" ++ Flags.location fl)%string with
  | None => Some (Panic, init)
  | Some re =>
      match Body.loop (iteration fl w re) fuel init with
      | None => None
      | Some s => Some (finish fl w s)
      end
  end.

End MainGo.

(** ** The command ([main] over the [lib] package) *)

Module Command.
Import Driver.

Definition MaxErrors : Z := 3.
Definition MaxPages : Z := 1100.
Definition MinReputation : Z := 500.
Definition APIKeyPath : string := "../_secret/api.key".

(** Modelled from the spec: [lib.GetKey], whose source is not among the
    files of the repository at hand.  The Key Loader reads an optional
    key from a file, strips the trailing newline, and treats a file that
    is absent or unreadable as no key, with a warning. *)
Definition lib_GetKey (path : string) (w : World.t) (st : state)
    : string * state :=
  let st1 := emit (Driver.GetKey path) st in
  match World.key_file w path with
  | World.NoFile =>
      (EmptyString, say (Console.Warning "Can't find API key") st1)
  | World.Unreadable =>
      (EmptyString, say (Console.Warning "Can't load API key") st1)
  | World.Content strkey => (TrimRight_nl strkey, st1)
  end.

(** Modelled from the spec: [lib.GetUserInfo], whose source is not among
    the files of the repository at hand.  The Rank Filter scans the
    records of the page in order, stops at the first one under the
    minimum reputation, accepts the ones whose location matches with the
    next rank, and stops at the limit: the loop of [GetUserInfo] in
    [main.go], with the threshold as its second argument.  The shared
    body of the loop calls it under the name [GetUserInfo]. *)
Definition lib_GetUserInfo :
    SOUsers.t -> Z -> Regexp.t -> Z -> bool -> Filter.state ->
    bool * Filter.state * list Console.line :=
  GetUserInfo.

(** One pass through the body of [for].  [key] and [users] are variables
    of [main]; [users = new(lib.SOUsers)] is filled by
    [lib.StreamHTTP]. *)
Definition iteration (fl : Flags.t) (w : World.t) (re : Regexp.t)
    (st : state) : step :=
  if (Flags.jsonfile fl =? EmptyString)%string then
    let st1 :=
      if lastPage st =? currentPage st
      then
        let '(k, st') :=
          lib_GetKey APIKeyPath w
            (say (Console.Info "Trying to extract API key.") st) in
        set_key ("&key=" ++ k)%string st'
      else st in
    let r := World.http w (requests st1) (currentPage st1) (key st1) in
    let st2 :=
      set_users (Some (World.decoded r))
        (answered (emit (StreamHTTP (currentPage st1) (key st1) r) st1)) in
    if fetch_failed r then Body.retry MaxErrors st2
    else Body.filter_and_advance MaxPages MinReputation fl re st2
  else Body.from_file MaxPages MinReputation fl w re st.

(** Modelled from the spec: [lib.DumpJson] and [lib.DumpMarkdown], whose
    sources are not at hand.  Each writer creates its target and writes
    the whole Result List; a write failure is fatal. *)
Definition lib_DumpJson (fl : Flags.t) (w : World.t) (st : state)
    : option state :=
  if World.creatable w (Flags.jsonrsp fl)
  then Some (emit (Driver.DumpJson (Flags.jsonrsp fl) (ranks st)) st)
  else None.

Definition lib_DumpMarkdown (fl : Flags.t) (w : World.t) (st : state)
    : option state :=
  if World.creatable w (Flags.mdrsp fl)
  then Some (emit (Driver.DumpMarkdown (Flags.mdrsp fl) (ranks st)
                     (Flags.location fl)) st)
  else None.

(** After the loop; the result of [lib.GitHubConnector] is dropped. *)
Definition report (fl : Flags.t) (w : World.t) (st : state)
    : outcome * state :=
  if counter st =? 0
  then (Exit 0, say (Console.Warning "No results found.") st)
  else
    match (if (Flags.jsonrsp fl =? EmptyString)%string then Some st
           else lib_DumpJson fl w st) with
    | None => (Panic, st)
    | Some st1 =>
        match (if (Flags.mdrsp fl =? EmptyString)%string then Some st1
               else
                 match lib_DumpMarkdown fl w st1 with
                 | None => None
                 | Some st' =>
                     if (Flags.publish fl =? EmptyString)%string
                     then Some st'
                     else Some (emit (GitHubConnector (Flags.publish fl)
                                        (Flags.mdrsp fl)) st')
                 end) with
        | None => (Panic, st1)
        | Some st2 =>
            (Return,
             say (Console.UsersFound (counter st2))
               (say (Console.PagesRequested (lastPage st2)) st2))
        end
    end.

Definition finish (fl : Flags.t) (w : World.t) (s : step)
    : outcome * state :=
  match s with
  | Exited c st => (Exit c, st)
  | Panicked st => (Panic, st)
  | Break st | Continue st => report fl w st
  end.

Definition main (fuel : nat) (fl : Flags.t) (w : World.t)
    : option (outcome * state) :=
  if (negb (Flags.publish fl =? EmptyString)
      && (Flags.mdrsp fl =? EmptyString))%string
  then Some (Exit 5, say (Console.Error "Publish requires mdrsp!!") init)
  else
    match Regexp.MustCompile (World.regexp w)
          ("(?i)" ++ Flags.location fl)%string with
    | None => Some (Panic, init)
    | Some re =>
        match Body.loop (iteration fl w re) fuel init with
        | None => None
        | Some s => Some (finish fl w s)
        end
    end.

End Command.

(** ** The JSON report ([DumpJson], [json.MarshalIndent] on [Ranks])

    [encoding/json] is entered at the level of the JSON document: what
    [Marshal] builds from the struct tags of [SOUserRank], and what
    [Unmarshal] stores into a fresh [Ranks] from a document.  The text of
    the document (indentation, escapes) is the library's and is the same
    document read back. *)

Module JSON.

#[local] Unset Elimination Schemes.

Inductive value : Type :=
| Null
| Bool (b : bool)
| Int (z : Z)                       (* a number literal that is an integer *)
| Fraction                          (* any other number literal *)
| Str (s : string)
| Arr (elems : list value)
| Obj (members : list (string * value)).

End JSON.

Module Codec.
Import JSON.

(** A member with the [omitempty] option is left out when the string is
    empty.  A string goes into the document as [encoding/json] writes
    it, with U+FFFD for each byte that is not well-formed UTF-8. *)
Definition omitempty (name s : string) : list (string * value) :=
  if (s =? EmptyString)%string then [] else [(name, Str (UTF8.coerce s))].

(** The members of one [SOUserRank], in the order of the fields. *)
Definition marshal_rank (r : SOUserRank.t) : value :=
  Obj ([("rank", Int (SOUserRank.Rank r));
        ("account_id", Int (SOUserRank.AccountID r));
        ("display_name", Str (UTF8.coerce (SOUserRank.DisplayName r)));
        ("reputation", Int (SOUserRank.Reputation r))]
       ++ omitempty "location" (SOUserRank.Location r)
       ++ omitempty "website_url" (SOUserRank.WebsiteURL r)
       ++ [("link", Str (UTF8.coerce (SOUserRank.Link r)));
           ("profile_image",
            Str (UTF8.coerce (SOUserRank.ProfileImage r)))]).

(** [json.MarshalIndent] of the Result List.  [ranks] is declared without
    a value and only grows by [append], so the empty list is the nil
    slice, which is encoded as [null]. *)
Definition Marshal (ranks : Ranks) : value :=
  match ranks with
  | [] => Null
  | _ :: _ => Arr (map marshal_rank ranks)
  end.

Inductive field : Type :=
| FRank | FAccountID | FDisplayName | FReputation
| FLocation | FWebsiteURL | FLink | FProfileImage.

Definition fields : list field :=
  [FRank; FAccountID; FDisplayName; FReputation;
   FLocation; FWebsiteURL; FLink; FProfileImage].

(** The name in the [json:"..."] tag. *)
Definition tag (f : field) : string :=
  match f with
  | FRank => "rank"
  | FAccountID => "account_id"
  | FDisplayName => "display_name"
  | FReputation => "reputation"
  | FLocation => "location"
  | FWebsiteURL => "website_url"
  | FLink => "link"
  | FProfileImage => "profile_image"
  end.

Definition to_lower (c : ascii) : ascii :=
  let n := nat_of_ascii c in
  if (Nat.leb 65 n && Nat.leb n 90)%bool then ascii_of_nat (n + 32) else c.

Fixpoint lower (s : string) : string :=
  match s with
  | EmptyString => EmptyString
  | String c s' => String (to_lower c) (lower s')
  end.

(** The field a member name selects: an exact match of the tag first, a
    match that ignores case otherwise; [None] for a name that is dropped. *)
Definition field_of (name : string) : option field :=
  match find (fun f => (tag f =? name)%string) fields with
  | Some f => Some f
  | None => find (fun f => (lower (tag f) =? lower name)%string) fields
  end.

Definition zero : SOUserRank.t :=
  SOUserRank.mk 0 0 EmptyString 0 EmptyString EmptyString EmptyString EmptyString.

Definition in_int (z : Z) : bool :=
  (GoInt.int_min <=? z) && (z <=? GoInt.int_max).

Definition set_int (f : field) (z : Z) (r : SOUserRank.t)
    : option SOUserRank.t :=
  match r with
  | SOUserRank.mk rk ac dn rp lo wu li pi =>
      match f with
      | FRank => Some (SOUserRank.mk z ac dn rp lo wu li pi)
      | FAccountID => Some (SOUserRank.mk rk z dn rp lo wu li pi)
      | FReputation => Some (SOUserRank.mk rk ac dn z lo wu li pi)
      | _ => None
      end
  end.

Definition set_string (f : field) (s : string) (r : SOUserRank.t)
    : option SOUserRank.t :=
  match r with
  | SOUserRank.mk rk ac dn rp lo wu li pi =>
      match f with
      | FDisplayName => Some (SOUserRank.mk rk ac s rp lo wu li pi)
      | FLocation => Some (SOUserRank.mk rk ac dn rp s wu li pi)
      | FWebsiteURL => Some (SOUserRank.mk rk ac dn rp lo s li pi)
      | FLink => Some (SOUserRank.mk rk ac dn rp lo wu s pi)
      | FProfileImage => Some (SOUserRank.mk rk ac dn rp lo wu li s)
      | _ => None
      end
  end.

(** Storing one member's value in its field; [None] is an
    [UnmarshalTypeError] (a value of the wrong kind, or an integer that
    does not fit an [int]).  [null] leaves the field as it is. *)
Definition store (f : field) (v : value) (r : SOUserRank.t)
    : option SOUserRank.t :=
  match v with
  | Null => Some r
  | Int z => if in_int z then set_int f z r else None
  | Str s => set_string f s r
  | Bool _ | Fraction | Arr _ | Obj _ => None
  end.

(** The members of an object, in order, into [r]; a name that selects no
    field is skipped. *)
Fixpoint unmarshal_members (ms : list (string * value)) (r : SOUserRank.t)
    : option SOUserRank.t :=
  match ms with
  | [] => Some r
  | (name, v) :: ms' =>
      match field_of name with
      | None => unmarshal_members ms' r
      | Some f =>
          match store f v r with
          | None => None
          | Some r' => unmarshal_members ms' r'
          end
      end
  end.

Definition unmarshal_rank (v : value) : option SOUserRank.t :=
  match v with
  | Null => Some zero
  | Obj ms => unmarshal_members ms zero
  | _ => None
  end.

Fixpoint unmarshal_elems (vs : list value) : option Ranks :=
  match vs with
  | [] => Some []
  | v :: vs' =>
      match unmarshal_rank v, unmarshal_elems vs' with
      | Some r, Some rs => Some (r :: rs)
      | _, _ => None
      end
  end.

(** [json.Unmarshal(data, &ranks)] with [var ranks Ranks]; [None] is a
    non-nil error. *)
Definition Unmarshal (v : value) : option Ranks :=
  match v with
  | Null => Some []
  | Arr vs => unmarshal_elems vs
  | _ => None
  end.

(** An entry as the program builds it from a decoded page: the integer
    fields hold values of Go's [int], and the strings are well-formed
    UTF-8, as every string that [encoding/json] has decoded. *)
Definition rank_ok (r : SOUserRank.t) : Prop :=
  GoInt.in_range (SOUserRank.Rank r) /\
  GoInt.in_range (SOUserRank.AccountID r) /\
  GoInt.in_range (SOUserRank.Reputation r) /\
  UTF8.well_formed (SOUserRank.DisplayName r) /\
  UTF8.well_formed (SOUserRank.Location r) /\
  UTF8.well_formed (SOUserRank.WebsiteURL r) /\
  UTF8.well_formed (SOUserRank.Link r) /\
  UTF8.well_formed (SOUserRank.ProfileImage r).

End Codec.

(** ** Numbers in text ([fmt], [text/template]) *)

(** The verb [%d] of [fmt] and the action [{{.Rank}}] of [text/template]
    on an [int]: the decimal digits, after [-] for a negative number. *)
Definition decimal (z : Z) : string := NilZero.string_of_int (Z.to_int z).

(** ** The URL of a request

    [StreamHTTP] of [main.go] builds the URL from the page and the key
    parameter; the command builds it in [main] and hands it to
    [lib.StreamHTTP].  It is the URL of the request that the event
    [Driver.StreamHTTP page key r] stands for. *)

Module Url.

Definition ApiURL : string :=
  "https://api.stackexchange.com/2.2/users?page=".
Definition CQuery : string :=
  "pagesize=100&order=desc&sort=reputation&site=stackoverflow".

(** [fmt.Sprintf("%s%d&%s%s", ApiURL, page, CQuery, key)]. *)
Definition main_go (page : Z) (key : string) : string :=
  (ApiURL ++ decimal page ++ "&" ++ CQuery ++ key)%string.

Definition SOApiURL : string := "https://api.stackexchange.com/2.2".

(** [fmt.Sprintf(SOUsersQuery, currentPage)]. *)
Definition SOUsersQuery (currentPage : Z) : string :=
  ("users?page=" ++ decimal currentPage
   ++ "&pagesize=100&order=desc&sort=reputation&site=stackoverflow")%string.

(** [fmt.Sprintf("%s/%s%s", SOApiURL,
    fmt.Sprintf(SOUsersQuery, currentPage), key)]. *)
Definition command (currentPage : Z) (key : string) : string :=
  (SOApiURL ++ "/" ++ SOUsersQuery currentPage ++ key)%string.

End Url.

(** ** The Markdown report ([DumpMarkdown] of [main.go])

    The text the file holds once the header and the rows are written,
    for the event [Driver.DumpMarkdown path ranks location]: [head] with
    the area in the place of [%s], then [userfmt] executed on each
    entry, where [text/template] writes an [int] in decimal and a string
    as it is. *)

Module Markdown.

Definition nl : string := String "010"%char EmptyString.

Definition head (fmtLocation : string) : string :=
  ("# soranks" ++ nl ++ nl
   ++ "[Stackoverflow](http://stackoverflow.com/) rankings by **location**."
   ++ nl ++ nl
   ++ "### Area" ++ fmtLocation ++ nl ++ nl ++ nl
   ++ "Rank|Name|Rep|Location|Web|Avatar" ++ nl
   ++ "----|----|---|--------|---|------" ++ nl)%string.

Definition fmtLocation (location : string) : string :=
  if (location =? ".")%string then ": WorldWide"
  else (" *pattern*: " ++ location)%string.

(** One row of the table, without the newline that ends it. *)
Definition row (r : SOUserRank.t) : string :=
  (decimal (SOUserRank.Rank r) ++ "|[" ++ SOUserRank.DisplayName r
   ++ "](" ++ SOUserRank.Link r ++ ")|"
   ++ decimal (SOUserRank.Reputation r) ++ "|"
   ++ SOUserRank.Location r ++ "|" ++ SOUserRank.WebsiteURL r
   ++ "|![Avatar](" ++ SOUserRank.ProfileImage r ++ ")")%string.

(** [userfmt] executed on an entry. *)
Definition userfmt (r : SOUserRank.t) : string := (row r ++ nl)%string.

(** [for _, userRank := range ranks], each row written after the one
    before. *)
Fixpoint rows (ranks : Ranks) : string :=
  match ranks with
  | [] => EmptyString
  | r :: rest => (userfmt r ++ rows rest)%string
  end.

Definition text (location : string) (ranks : Ranks) : string :=
  (head (fmtLocation location) ++ rows ranks)%string.

End Markdown.

(** ** What the rank filter is expected to compute

    The records of a page that qualify, and the Rank Entries of a list of
    records numbered from a counter on. *)

Module Expected.

(** The records in front of the first one under the threshold. *)
Fixpoint before_threshold (MinReputation : Z) (items : list Item.t)
    : list Item.t :=
  match items with
  | [] => []
  | u :: rest =>
      if Item.Reputation u <? MinReputation then []
      else u :: before_threshold MinReputation rest
  end.

Definition under_threshold (MinReputation : Z) (items : list Item.t) : bool :=
  existsb (fun u => Item.Reputation u <? MinReputation) items.

(** Qualifying records: at or above the threshold, in front of every
    record under it, with a location the pattern is found in. *)
Definition qualifying (MinReputation : Z) (location : Regexp.t)
    (items : list Item.t) : list Item.t :=
  filter (fun u => Regexp.MatchString location (Item.Location u))
    (before_threshold MinReputation items).

(** The entries of [l] with the ranks [c + 1], [c + 2], ... *)
Fixpoint numbered (c : Z) (l : list Item.t) : Ranks :=
  match l with
  | [] => []
  | u :: l' => Filter.rank_of (c + 1) u :: numbered (c + 1) l'
  end.

(** The ranks of a Result List, in order. *)
Definition rank_values (ranks : Ranks) : list Z :=
  map SOUserRank.Rank ranks.

(** The ranks are 1, 2, ..., up to the length of the list, and the counter
    is that length. *)
Definition ranked (st : Filter.state) : Prop :=
  Filter.counter st = Z.of_nat (length (Filter.ranks st)) /\
  rank_values (Filter.ranks st)
  = map Z.of_nat (seq 1 (length (Filter.ranks st))).

(** The records of a sequence of pages, in the order they are scanned. *)
Definition records (pages : list SOUsers.t) : list Item.t :=
  concat (map SOUsers.Items pages).

End Expected.

(** * Vocabulary of the properties *)

(** A string has a byte that is not the newline. *)
Fixpoint has_non_newline (s : string) : bool :=
  match s with
  | EmptyString => false
  | String c s' => negb (Ascii.eqb c "010"%char) || has_non_newline s'
  end.

(** How many more entries a scan accepts from the counter [c], under the
    limit. *)
Definition room (MinReputation : Z) (location : Regexp.t) (limit : Z)
    (c : Z) (items : list Item.t) : nat :=
  Nat.min (Z.to_nat (limit - c))
    (length (Expected.qualifying MinReputation location items)).

Import Driver.

Section View.

Variable MinReputation : Z.
Variable fl : Flags.t.
Variable re : Regexp.t.

(** What one scan of all the records handed to the filter so far gives,
    from an empty Result List. *)
Definition view (st : state) : bool * Filter.state :=
  fst (Filter.scan (Expected.records (filtered st)) MinReputation re
         (Flags.limit fl) (Flags.term fl)
         {| Filter.counter := 0; Filter.ranks := [] |}).

Definition current (st : state) : Filter.state :=
  {| Filter.counter := counter st; Filter.ranks := ranks st |}.

(** While the loop goes on, every call of the filter asked to continue
    and [counter] and [ranks] are what the single scan gives. *)
Definition in_step (st : state) : Prop := view st = (true, current st).

Definition at_end (s : step) : Prop :=
  match s with
  | Continue st => in_step st
  | Break st | Exited _ st | Panicked st =>
      exists rep, view st = (rep, current st)
  end.

End View.

(** The number of requests in a trace that were answered with an error or
    an empty page. *)
Definition failures (t : list event) : nat := length (filter is_failure t).

(** The number of key lookups in a trace. *)
Definition key_lookups (t : list event) : nat :=
  length (filter is_GetKey t).

Definition no_write (t : list event) : Prop :=
  forallb (fun e => negb (is_write e)) t = true.

Definition failed (kr : string * World.response) : Prop :=
  fetch_failed (snd kr) = true.

(** An event that is neither a key lookup nor a request for page 1. *)
Definition past_first_page (e : event) : Prop :=
  is_GetKey e = false /\ is_request_of 1 e = false.

Section Pass.

Variable MaxPages : Z.
Variable MaxErrors : Z.
Variable APIKeyPath : string.

(** The key is looked up when [lastPage == currentPage]. *)
Definition key_events (st : state) : list event :=
  if lastPage st =? currentPage st then [GetKey APIKeyPath] else [].

Definition same_page (st st' : state) : Prop :=
  lastPage st' = lastPage st /\ currentPage st' = currentPage st.

Definition next_page (st st' : state) : Prop :=
  lastPage st' = currentPage st /\
  currentPage st' = GoInt.add (currentPage st) 1.

Definition http_step (st : state) (s : step) : Prop :=
  exists k r,
    trace (state_of s)
    = trace st ++ key_events st ++ [StreamHTTP (currentPage st) k r] /\
    stop (state_of s) = stop st /\
    if fetch_failed r then
      streamErrors (state_of s) = GoInt.add (streamErrors st) 1 /\
      same_page st (state_of s) /\
      counter (state_of s) = counter st /\
      s = (if streamErrors (state_of s) >=? MaxErrors
           then Exited 5 (state_of s) else Continue (state_of s))
    else
      streamErrors (state_of s) = streamErrors st /\
      match s with
      | Continue st' =>
          next_page st st' /\
          ((currentPage st' >=? MaxPages) && negb (MaxPages =? 0))%bool
          = false /\ stop st = false
      | Break st' => same_page st st' \/ next_page st st'
      | Panicked st' => same_page st st'
      | Exited _ _ => False
      end.

(** One attempt at page 1: the key lookup and the request. *)
Definition attempt (kr : string * World.response) : list event :=
  [GetKey APIKeyPath; StreamHTTP 1 (fst kr) (snd kr)].

(** A trace that is attempts at page 1, all failed but possibly the
    last, followed by events past the first page. *)
Definition keyed (t : list event) (atts : list (string * World.response))
    (rest : list event) : Prop :=
  t = flat_map attempt atts ++ rest /\
  Forall failed (removelast atts) /\
  Forall past_first_page rest.

Definition top : Z := Z.max 1 (MaxPages - 1).

(** What holds of the state each time the body is entered. *)
Record http_inv (st : state) : Prop := {
  inv_errors : streamErrors st = Z.of_nat (failures (trace st));
  inv_errors_lt : 0 <= streamErrors st < MaxErrors;
  inv_no_write : no_write (trace st);
  inv_page : 1 <= currentPage st <= top;
  inv_stop : stop st = false;
  inv_key :
    (lastPage st = currentPage st /\ currentPage st = 1 /\
     exists atts,
       keyed (trace st) atts [] /\ Forall failed atts /\
       Z.of_nat (length atts) = streamErrors st)
    \/
    (lastPage st = currentPage st - 1 /\ 2 <= currentPage st /\
     exists atts rest,
       keyed (trace st) atts rest /\
       1 <= Z.of_nat (length atts) <= streamErrors st + 1)
}.

(** What holds of the state when the loop is left. *)
Record http_post (s : step) : Prop := {
  post_errors :
    streamErrors (state_of s) = Z.of_nat (failures (trace (state_of s)));
  post_exit :
    match s with
    | Exited c st => c = 5 /\ streamErrors st = MaxErrors
    | Break st | Panicked st => 0 <= streamErrors st < MaxErrors
    | Continue _ => False
    end;
  post_no_write : no_write (trace (state_of s));
  post_page : 1 <= currentPage (state_of s) <= top + 1;
  post_last : 1 <= lastPage (state_of s) <= top;
  post_key :
    exists atts rest,
      keyed (trace (state_of s)) atts rest /\
      1 <= Z.of_nat (length atts) <= MaxErrors
}.

End Pass.

Definition writes_only (ws : list event) : Prop :=
  Forall (fun e => is_write e = true) ws.

(** What [main] adds to the trace after the loop is writes, and only a
    loop left by [os.Exit(5)] ends the process with the code 5. *)
Definition finished (s : step) (o : outcome) (st : state) : Prop :=
  exists ws,
    trace st = trace (state_of s) ++ ws /\ writes_only ws /\
    match s with
    | Exited c _ => o = Exit c /\ ws = []
    | Panicked _ => o = Panic /\ ws = []
    | Break _ | Continue _ => o <> Exit 5
    end.

(** The key each program sends with the request of a pass, and the answer
    it gets. *)
Definition Command_key_sent (w : World.t) (st : state) : string :=
  if lastPage st =? currentPage st
  then ("&key=" ++ fst (Command.lib_GetKey Command.APIKeyPath w st))%string
  else key st.

Definition Command_answer (w : World.t) (st : state) : World.response :=
  World.http w (requests st) (currentPage st) (Command_key_sent w st).

Definition MainGo_key_sent (w : World.t) (st : state) : string :=
  if lastPage st =? currentPage st then fst (MainGo.GetKey w st)
  else EmptyString.

Definition MainGo_answer (w : World.t) (st : state) : World.response :=
  World.http w (requests st) (currentPage st) (MainGo_key_sent w st).

Definition writes (t : list event) : list event := filter is_write t.

(** What a pass with a failed fetch does to the state: one more error,
    one more request, for the page the cursor stays on, and no write;
    [os.Exit(5)] when the errors have reached [MaxErrors], the next pass
    otherwise. *)
Definition retried (MaxErrors : Z) (st : state) (s : step) : Prop :=
  s = (if streamErrors st + 1 >=? MaxErrors
       then Exited 5 (state_of s) else Continue (state_of s)) /\
  streamErrors (state_of s) = streamErrors st + 1 /\
  currentPage (state_of s) = currentPage st /\
  lastPage (state_of s) = lastPage st /\
  requests (state_of s) = S (requests st) /\
  pages_requested (trace (state_of s))
  = pages_requested (trace st) ++ [currentPage st] /\
  writes (trace (state_of s)) = writes (trace st) /\
  counter (state_of s) = counter st /\ ranks (state_of s) = ranks st.

(** The requests of a trace: the page asked for and whether the fetch
    failed. *)
Fixpoint fetches (t : list event) : list (Z * bool) :=
  match t with
  | [] => []
  | StreamHTTP p _ r :: t' => (p, fetch_failed r) :: fetches t'
  | _ :: t' => fetches t'
  end.

(** What holds at the end of a run in HTTP mode that entered the loop. *)
Definition errors_counted (MaxErrors : Z) (o : outcome) (st : state) : Prop :=
  streamErrors st = Z.of_nat (failures (trace st)) /\
  Z.of_nat (failures (trace st)) <= MaxErrors /\
  (Z.of_nat (failures (trace st)) = MaxErrors <-> o = Exit 5) /\
  (o = Exit 5 -> writes (trace st) = []).

(** What holds of the trace at the end of a run in HTTP mode that entered
    the loop: it starts with the attempts at page 1, each a key lookup
    followed by the request, all failed but possibly the last, and goes on
    without a key lookup and without a request for page 1. *)
Definition key_per_attempt (path : string) (st : state) : Prop :=
  exists atts rest,
    trace st = flat_map (attempt path) atts ++ rest /\
    Forall failed (removelast atts) /\
    Forall past_first_page rest /\
    (1 <= length atts <= 3)%nat /\
    key_lookups (trace st) = length atts.

(** ** Vocabulary: the filter case by case, whole runs, text *)


(** A record at or above the threshold whose location the pattern is
    found in. *)
Definition wanted (MinReputation : Z) (location : Regexp.t) (u : Item.t)
    : bool :=
  (MinReputation <=? Item.Reputation u)
  && Regexp.MatchString location (Item.Location u).

(** The reputations of a page do not go up. *)
Fixpoint non_increasing (items : list Item.t) : bool :=
  match items with
  | [] => true
  | u :: rest =>
      match rest with
      | [] => true
      | v :: _ =>
          (Item.Reputation v <=? Item.Reputation u) && non_increasing rest
      end
  end.


(** The entry [r] is the projection of a wanted record of [items]. *)
Definition taken_from (MinReputation : Z) (location : Regexp.t)
    (items : list Item.t) (r : SOUserRank.t) : Prop :=
  exists u,
    In u items /\ r = Filter.rank_of (SOUserRank.Rank r) u /\
    wanted MinReputation location u = true.

(** The writes the command makes after the loop, in its order: the JSON
    report, the Markdown report, and the publication of the Markdown
    report. *)
Definition Command_reports (fl : Flags.t) (rs : Ranks) : list event :=
  (if (Flags.jsonrsp fl =? EmptyString)%string then []
   else [DumpJson (Flags.jsonrsp fl) rs])
  ++ (if (Flags.mdrsp fl =? EmptyString)%string then []
      else
        DumpMarkdown (Flags.mdrsp fl) rs (Flags.location fl)
        :: (if (Flags.publish fl =? EmptyString)%string then []
            else [GitHubConnector (Flags.publish fl) (Flags.mdrsp fl)])).

(** The writes [main.go] makes after the loop, in its order: the Markdown
    report, then the JSON report. *)
Definition MainGo_reports (fl : Flags.t) (rs : Ranks) : list event :=
  (if (Flags.mdrsp fl =? EmptyString)%string then []
   else [DumpMarkdown (Flags.mdrsp fl) rs (Flags.location fl)])
  ++ (if (Flags.jsonrsp fl =? EmptyString)%string then []
      else [DumpJson (Flags.jsonrsp fl) rs]).

(** The requests [l] ask for the page [p], then for the same page after
    a failed fetch and for the next one after a fetch that succeeded. *)
Fixpoint in_order (p : Z) (l : list (Z * bool)) : bool :=
  match l with
  | [] => true
  | (q, failed) :: l' =>
      (q =? p) && in_order (if failed then p else p + 1) l'
  end.

(** The number of requests in a trace that were answered with a page that
    has items. *)
Definition successes (t : list event) : nat :=
  length (filter (fun f => negb (snd f)) (fetches t)).

(** A request carries the key parameter [k]. *)
Definition carries (k : string) (e : event) : Prop :=
  match e with
  | StreamHTTP _ k' _ => k' = k
  | _ => True
  end.

(** The key parameter the command sends in the world [w]. *)
Definition Command_key (w : World.t) : string :=
  ("&key=" ++ fst (Command.lib_GetKey Command.APIKeyPath w init))%string.

(** How a run ends, given the writes [reports] the program makes after
    the loop for a Result List: what was written is the front part of
    them, with the final list; a run that returns has written all of
    them, for a counter that is not 0, and ends with the two lines of the
    summary; a run that ends with the exit code 0 has a counter of 0, has
    written nothing, and ends with the warning. *)
Definition reported (reports : Ranks -> list event) (o : outcome)
    (st : state) : Prop :=
  exists more,
    reports (ranks st) = writes (trace st) ++ more /\
    (o = Return ->
     more = [] /\ counter st <> 0 /\
     exists c,
       console st
       = c ++ [Console.PagesRequested (lastPage st);
               Console.UsersFound (counter st)]) /\
    (o = Exit 0 ->
     counter st = 0 /\ writes (trace st) = [] /\
     exists c, console st = c ++ [Console.Warning "No results found."]).

(** How a run that reads the source file ends: the trace is the one read
    of the file followed by writes, the summary counts one page, a file
    that cannot be decoded ends the run with the exit code 5 before the
    filter is called, and a decoded file is the only page the filter is
    called on, from the empty Result List. *)
Definition read_once (MinReputation : Z) (fl : Flags.t) (w : World.t)
    (re : Regexp.t) (o : outcome) (st : state) : Prop :=
  exists ws,
    trace st
    = StreamFile (Flags.jsonfile fl) (World.json_file w (Flags.jsonfile fl))
      :: ws /\
    writes_only ws /\ lastPage st = 1 /\
    match World.json_file w (Flags.jsonfile fl) with
    | World.Failed _ => o = Exit 5 /\ ws = [] /\ filtered st = []
    | World.Page u =>
        filtered st = [u] /\ o <> Exit 5 /\
        current st
        = snd (fst (GetUserInfo u MinReputation re (Flags.limit fl)
                      (Flags.term fl)
                      {| Filter.counter := 0; Filter.ranks := [] |}))
    end.

Section Pages.

Variable MaxPages : Z.
Variable MaxErrors : Z.
Variable APIKeyPath : string.

(** What holds of the pages each time the body is entered in HTTP mode:
    the requests so far are in order, [currentPage] is one more than the
    number of fetches that succeeded, and [lastPage] is that number, or 1
    before the first of them. *)
Record pages_inv (st : state) : Prop := {
  pages_http : http_inv MaxPages MaxErrors APIKeyPath st;
  pages_order : in_order 1 (fetches (trace st)) = true;
  pages_current : currentPage st = 1 + Z.of_nat (successes (trace st));
  pages_last : lastPage st = Z.max 1 (Z.of_nat (successes (trace st)))
}.

(** What holds of the pages when the loop is left. *)
Record pages_post (t : list event) (last : Z) : Prop := {
  post_order : in_order 1 (fetches t) = true;
  post_successes : Z.of_nat (successes t) <= top MaxPages;
  post_total : Z.of_nat (length (fetches t)) <= top MaxPages + MaxErrors - 1;
  post_counted :
    Z.max 1 (Z.of_nat (successes t) - 1) <= last
    <= Z.max 1 (Z.of_nat (successes t))
}.

End Pages.

(** What holds of the key each time the body of the command's loop is
    entered: the requests made carried the key parameter, and in HTTP
    mode the variable [key] holds it unless the next pass looks the key
    up. *)
Definition keyed_requests (fl : Flags.t) (w : World.t) (st : state)
    : Prop :=
  Forall (carries (Command_key w)) (trace st) /\
  (Flags.jsonfile fl = EmptyString ->
   lastPage st = currentPage st \/ key st = Command_key w).

(** [n] newlines. *)
Fixpoint newlines (n : nat) : string :=
  match n with
  | O => EmptyString
  | S n' => String "010"%char (newlines n')
  end.

(** The last byte of a string is the newline. *)
Fixpoint ends_with_newline (s : string) : bool :=
  match s with
  | EmptyString => false
  | String c s' =>
      match s' with
      | EmptyString => Ascii.eqb c "010"%char
      | String _ _ => ends_with_newline s'
      end
  end.

(** The byte [c] occurs in the string. *)
Fixpoint has_char (c : ascii) (s : string) : bool :=
  match s with
  | EmptyString => false
  | String a s' => Ascii.eqb a c || has_char c s'
  end.

(** A byte that a decimal number may hold. *)
Definition numeric (c : ascii) : bool :=
  existsb (fun a => Ascii.eqb a c) (list_ascii_of_string "-0123456789").

(** The lines of a text, each without the newline that ends it. *)
Fixpoint lines (s : string) : list string :=
  match s with
  | EmptyString => []
  | String c s' =>
      if Ascii.eqb c "010"%char then EmptyString :: lines s'
      else
        match lines s' with
        | [] => [String c EmptyString]
        | l :: ls => String c l :: ls
        end
  end.

(** An entry whose strings hold no newline. *)
Definition one_line (r : SOUserRank.t) : Prop :=
  has_char "010" (SOUserRank.DisplayName r) = false /\
  has_char "010" (SOUserRank.Link r) = false /\
  has_char "010" (SOUserRank.Location r) = false /\
  has_char "010" (SOUserRank.WebsiteURL r) = false /\
  has_char "010" (SOUserRank.ProfileImage r) = false.

(** The rune with an ASCII small letter turned into its capital. *)
Definition upper_rune (x : N) : N :=
  if UTF8.between 97 122 x then (x - 32)%N else x.

Definition upper_byte (c : ascii) : ascii :=
  UTF8.char (upper_rune (UTF8.byte c)).

(** The string with its ASCII small letters turned into capitals, byte
    by byte. *)
Fixpoint ascii_upper (s : string) : string :=
  match s with
  | EmptyString => EmptyString
  | String c s' => String (upper_byte c) (ascii_upper s')
  end.

(** A pattern of the fragment compiled under [(?i)]: every literal
    folds case. *)
Fixpoint case_blind (r : Regexp.t) : bool :=
  match r with
  | Regexp.Fail | Regexp.Empty | Regexp.AnyNotNL => true
  | Regexp.Lit fold _ => fold
  | Regexp.Cat r1 r2 | Regexp.Alt r1 r2 => case_blind r1 && case_blind r2
  | Regexp.Star r1 => case_blind r1
  | Regexp.Other _ => false
  end.

(** ** Sample inputs and runs *)

(** A page with the reputations 900, 700 and 300 and the locations
    "Madrid", the empty string and "Lima". *)
Definition sample_user (rep : Z) (loc : string) : Item.t :=
  {| Item.BadgeCounts := Badges.mk 0 0 0; Item.AccountID := rep;
     Item.IsEmployee := false; Item.LastModifiedDate := 0;
     Item.LastAccessDate := 0; Item.Age := 0;
     Item.ReputationChangeYear := 0; Item.ReputationChangeQuarter := 0;
     Item.ReputationChangeMonth := 0; Item.ReputationChangeWeek := 0;
     Item.ReputationChangeDay := 0; Item.Reputation := rep;
     Item.CreationDate := 0; Item.UserType := "registered";
     Item.UserID := rep; Item.AcceptRate := 0; Item.Location := loc;
     Item.WebsiteURL := EmptyString; Item.Link := "https://example.org/u";
     Item.ProfileImage := "https://example.org/i";
     Item.DisplayName := "n" |}.

Definition sample_page : SOUsers.t :=
  SOUsers.mk
    [sample_user 900 "Madrid"; sample_user 700 EmptyString;
     sample_user 300 "Lima"]
    true 0 0.

Definition no_users : SOUsers.t := SOUsers.mk [] false 0 0.

(** A world where no key file exists, every request fails and no file
    can be read. *)
Definition failing_world : World.t :=
  World.mk (fun _ => World.NoFile) (fun _ _ _ => World.Failed no_users)
    (fun _ => World.Failed no_users) (fun _ => true) (fun _ => None).

Definition three_users : SOUsers.t :=
  SOUsers.mk
    [sample_user 900 "Madrid"; sample_user 800 "Lima"; sample_user 700 "Rome"]
    true 0 0.

(** A world where the key file exists and every request is answered with
    the same three users. *)
Definition serving_world : World.t :=
  World.mk (fun _ => World.Content "k") (fun _ _ _ => World.Page three_users)
    (fun _ => World.Failed no_users) (fun _ => true) (fun _ => None).

Definition limit_two : Flags.t :=
  {| Flags.location := "."; Flags.jsonfile := EmptyString;
     Flags.jsonrsp := "ranks.json"; Flags.mdrsp := EmptyString;
     Flags.limit := 2; Flags.term := false; Flags.publish := EmptyString |}.

(** A world where the source file holds the three users. *)
Definition file_world : World.t :=
  World.mk (fun _ => World.NoFile) (fun _ _ _ => World.Failed no_users)
    (fun _ => World.Page three_users) (fun _ => true) (fun _ => None).

Definition from_file_limit_two : Flags.t :=
  {| Flags.location := "."; Flags.jsonfile := "users.json";
     Flags.jsonrsp := "ranks.json"; Flags.mdrsp := "ranks.md";
     Flags.limit := 2; Flags.term := true; Flags.publish := EmptyString |}.

Definition file_run : outcome * state :=
  Eval vm_compute in
    match MainGo.main 3 from_file_limit_two file_world with
    | Some r => r
    | None => (Panic, init)
    end.

Definition failed_command_run : outcome * state :=
  Eval vm_compute in
    match Command.main 3 Flags.default failing_world with
    | Some r => r
    | None => (Panic, init)
    end.

Definition failed_run : outcome * state :=
  Eval vm_compute in
    match MainGo.main 3 Flags.default failing_world with
    | Some r => r
    | None => (Panic, init)
    end.

Definition served_run : outcome * state :=
  Eval vm_compute in
    match MainGo.main 3 Flags.default serving_world with
    | Some r => r
    | None => (Panic, init)
    end.

Definition limited_run : outcome * state :=
  Eval vm_compute in
    match Command.main 5 limit_two serving_world with
    | Some r => r
    | None => (Panic, init)
    end.

(** A world where the requests number 0, 2 and 4 fail (the last with an
    empty page) and the others are answered with three users. *)
Definition flaky_world : World.t :=
  World.mk (fun _ => World.Content "k")
    (fun n _ _ =>
       match n with
       | 0%nat | 2%nat => World.Failed no_users
       | 4%nat => World.Page no_users
       | _ => World.Page three_users
       end)
    (fun _ => World.Failed no_users) (fun _ => true) (fun _ => None).

Definition location_nowhere : Flags.t :=
  {| Flags.location := "zzz"; Flags.jsonfile := EmptyString;
     Flags.jsonrsp := "ranks.json"; Flags.mdrsp := "ranks.md";
     Flags.limit := 20; Flags.term := false; Flags.publish := EmptyString |}.

(** A world where the first request fails and the later ones are
    answered with three users. *)
Definition retry_world : World.t :=
  World.mk (fun _ => World.Content "k")
    (fun n _ _ =>
       match n with
       | 0%nat => World.Failed no_users
       | _ => World.Page three_users
       end)
    (fun _ => World.Failed no_users) (fun _ => true) (fun _ => None).

Definition retried_run : outcome * state :=
  Eval vm_compute in
    match Command.main 10 Flags.default retry_world with
    | Some r => r
    | None => (Panic, init)
    end.

Definition one_user : SOUsers.t :=
  SOUsers.mk [sample_user 900 "Madrid"] true 0 0.

(** A world where every request is answered with one user above the
    threshold and the announcement of more pages. *)
Definition endless_world : World.t :=
  World.mk (fun _ => World.Content "k") (fun _ _ _ => World.Page one_user)
    (fun _ => World.Failed no_users) (fun _ => true) (fun _ => None).

Definition no_limit : Flags.t :=
  {| Flags.location := "."; Flags.jsonfile := EmptyString;
     Flags.jsonrsp := EmptyString; Flags.mdrsp := EmptyString;
     Flags.limit := 0; Flags.term := false; Flags.publish := EmptyString |}.

Definition endless_run : outcome * state :=
  Eval vm_compute in
    match Command.main 1101 no_limit endless_world with
    | Some r => r
    | None => (Panic, init)
    end.

Definition nameless_page : SOUsers.t :=
  SOUsers.mk [sample_user 900 EmptyString] true 0 0.

Definition sample_ranks : Ranks :=
  [SOUserRank.mk 1 11 "Ann &amp; Bob" 900 "Madrid" "https://example.org"
     "https://example.org/u/11" "https://example.org/i/11";
   SOUserRank.mk 2 22
     ("Jos" ++ String "195"%char (String "169"%char EmptyString))%string
     700 EmptyString EmptyString
     "https://example.org/u/22" "https://example.org/i/22"].

(** The flags of a run that reads the source file and looks for a
    location that no record has. *)
Definition nowhere_from_file : Flags.t :=
  {| Flags.location := "zzz"; Flags.jsonfile := "users.json";
     Flags.jsonrsp := "ranks.json"; Flags.mdrsp := "ranks.md";
     Flags.limit := 20; Flags.term := false; Flags.publish := EmptyString |}.

Definition empty_run : outcome * state :=
  Eval vm_compute in
    match Command.main 1 nowhere_from_file file_world with
    | Some r => r
    | None => (Panic, init)
    end.

(** The flags of a run of the command that reads the source file, writes
    both reports and publishes the Markdown report. *)
Definition publishing : Flags.t :=
  {| Flags.location := "."; Flags.jsonfile := "users.json";
     Flags.jsonrsp := "ranks.json"; Flags.mdrsp := "ranks.md";
     Flags.limit := 2; Flags.term := false; Flags.publish := "README.md" |}.

Definition published_run : outcome * state :=
  Eval vm_compute in
    match Command.main 1 publishing file_world with
    | Some r => r
    | None => (Panic, init)
    end.

Definition limit_five : Flags.t :=
  {| Flags.location := "."; Flags.jsonfile := EmptyString;
     Flags.jsonrsp := "ranks.json"; Flags.mdrsp := EmptyString;
     Flags.limit := 5; Flags.term := false; Flags.publish := EmptyString |}.

(** A run of the command that reaches its limit on the second page. *)
Definition two_page_run : outcome * state :=
  Eval vm_compute in
    match Command.main 5 limit_five serving_world with
    | Some r => r
    | None => (Panic, init)
    end.

(** A world where the source file holds the three users and no file can
    be created. *)
Definition read_only_world : World.t :=
  World.mk (fun _ => World.NoFile) (fun _ _ _ => World.Failed no_users)
    (fun _ => World.Page three_users) (fun _ => false) (fun _ => None).

Definition read_only_run : outcome * state :=
  Eval vm_compute in
    match Command.main 1 publishing read_only_world with
    | Some r => r
    | None => (Panic, init)
    end.

(** * Properties *)

(** ** Go's [int] *)

Lemma add_no_wrap (x y : Z) :
  GoInt.int_min <= x + y <= GoInt.int_max -> GoInt.add x y = x + y.
Proof.
  unfold GoInt.add, GoInt.wrap, GoInt.int_min, GoInt.int_max. intros H.
  rewrite Z.mod_small; lia.
Qed.

Lemma succ_no_wrap (x : Z) :
  0 <= x < GoInt.int_max -> GoInt.add x 1 = x + 1.
Proof.
  intros H. apply add_no_wrap. unfold GoInt.int_min, GoInt.int_max in *. lia.
Qed.

(** ** Regular expressions *)

Lemma nullable_match_prefix (r : Regexp.t) (w : list N) :
  Regexp.nullable r = true -> Regexp.match_prefix r w = true.
Proof. intros H. destruct w; simpl; rewrite H; reflexivity. Qed.

Lemma match_prefix_search (r : Regexp.t) (w : list N) :
  Regexp.match_prefix r w = true -> Regexp.search r w = true.
Proof. intros H. destruct w; simpl in *; rewrite H; reflexivity. Qed.

(** A pattern that matches the empty string is found in every string. *)
Lemma nullable_MatchString (r : Regexp.t) (s : string) :
  Regexp.nullable r = true -> Regexp.MatchString r s = true.
Proof.
  intros H.
  assert (Hs : Regexp.search r (UTF8.runes s) = true)
    by (apply match_prefix_search, nullable_match_prefix, H).
  destruct r; try exact Hs. discriminate.
Qed.

Lemma match_prefix_Fail (w : list N) :
  Regexp.match_prefix Regexp.Fail w = false.
Proof. induction w; simpl; auto. Qed.

(** [.] is found exactly in the words that have a rune other than the
    newline. *)
Lemma search_dot (w : list N) :
  Regexp.search Regexp.AnyNotNL w
  = existsb (fun x => negb (x =? Regexp.newline)%N) w.
Proof.
  induction w as [|x w IH]; simpl; [reflexivity|].
  rewrite IH. destruct (x =? Regexp.newline)%N; simpl.
  - rewrite match_prefix_Fail. reflexivity.
  - rewrite nullable_match_prefix; reflexivity.
Qed.

Lemma byte_newline (c : ascii) :
  (UTF8.byte c =? Regexp.newline)%N = Ascii.eqb c "010"%char.
Proof.
  unfold UTF8.byte, Regexp.newline.
  destruct (Ascii.eqb_spec c "010"%char) as [->|Hne]; [reflexivity|].
  apply N.eqb_neq. intros Heq. apply Hne.
  rewrite <- (ascii_N_embedding c), Heq. reflexivity.
Qed.

Ltac bounds :=
  repeat match goal with
    | H : (_ && _)%bool = true |- _ =>
        apply andb_true_iff in H; destruct H
    | H : UTF8.between _ _ _ = true |- _ => unfold UTF8.between in H
    | H : UTF8.cont _ = true |- _ => unfold UTF8.cont in H
    | H : (_ <=? _)%N = true |- _ => apply N.leb_le in H
    | H : (_ <? _)%N = false |- _ => apply N.ltb_ge in H
    | H : (_ =? _)%N = true |- _ => apply N.eqb_eq in H
    | H : (_ =? _)%N = false |- _ => apply N.eqb_neq in H
    end.

(** A byte that is not ASCII starts a rune that is not the newline. *)
Lemma runes_head (c0 : ascii) (s1 : string) :
  (UTF8.byte c0 <? 128)%N = false ->
  exists x w,
    UTF8.runes (String c0 s1) = x :: w /\ (x =? Regexp.newline)%N = false.
Proof.
  intros Hb. cbn [UTF8.runes]. unfold UTF8.width. rewrite Hb.
  set (b0 := UTF8.byte c0) in *.
  assert (Herr : forall w, exists x w',
             UTF8.RuneError :: w = x :: w' /\
             (x =? Regexp.newline)%N = false).
  { intros w. exists UTF8.RuneError, w. split; reflexivity. }
  destruct (UTF8.between 194 223 b0) eqn:H2.
  { destruct s1 as [|c1 s2]; [apply Herr|].
    destruct (UTF8.second_ok b0 (UTF8.byte c1)) eqn:Hs; [|apply Herr].
    eexists; eexists. split; [reflexivity|].
    apply N.eqb_neq. unfold UTF8.rune2, Regexp.newline. bounds. lia. }
  destruct (UTF8.between 224 239 b0) eqn:H3.
  { destruct s1 as [|c1 [|c2 s3]]; try apply Herr.
    destruct (UTF8.second_ok b0 (UTF8.byte c1)
              && UTF8.cont (UTF8.byte c2))%bool eqn:Hs; [|apply Herr].
    eexists; eexists. split; [reflexivity|].
    apply N.eqb_neq. unfold UTF8.rune3, Regexp.newline.
    unfold UTF8.second_ok in Hs.
    destruct (b0 =? 224)%N eqn:E; bounds; [subst b0|].
    - rewrite E in *. lia.
    - lia. }
  destruct (UTF8.between 240 244 b0) eqn:H4; [|apply Herr].
  destruct s1 as [|c1 [|c2 [|c3 s4]]]; try apply Herr.
  destruct (UTF8.second_ok b0 (UTF8.byte c1)
            && UTF8.cont (UTF8.byte c2)
            && UTF8.cont (UTF8.byte c3))%bool eqn:Hs; [|apply Herr].
  eexists; eexists. split; [reflexivity|].
  apply N.eqb_neq. unfold UTF8.rune4, Regexp.newline.
  unfold UTF8.second_ok in Hs.
  destruct (b0 =? 224)%N eqn:E1; [bounds; lia|].
  destruct (b0 =? 237)%N eqn:E2; [bounds; lia|].
  destruct (b0 =? 240)%N eqn:E3; bounds; lia.
Qed.

Lemma runes_non_newline (s : string) :
  existsb (fun x => negb (x =? Regexp.newline)%N) (UTF8.runes s)
  = has_non_newline s.
Proof.
  induction s as [|c0 s1 IH]; [reflexivity|].
  cbn [has_non_newline]. rewrite <- byte_newline.
  destruct (UTF8.byte c0 <? 128)%N eqn:Hb.
  - cbn [UTF8.runes]. unfold UTF8.width. rewrite Hb.
    cbn [existsb]. rewrite IH. reflexivity.
  - destruct (runes_head c0 s1 Hb) as (x & w & -> & Hx).
    cbn [existsb]. rewrite Hx.
    replace (UTF8.byte c0 =? Regexp.newline)%N with false; [reflexivity|].
    symmetry. apply N.eqb_neq. unfold Regexp.newline. bounds. lia.
Qed.

(** [.] is found exactly in the strings that have a byte other than the
    newline. *)
Lemma MatchString_dot (s : string) :
  Regexp.MatchString Regexp.AnyNotNL s = has_non_newline s.
Proof.
  unfold Regexp.MatchString. rewrite search_dot. apply runes_non_newline.
Qed.

(** ** The rank filter *)

Section FilterFacts.

Variable MinReputation : Z.
Variable location : Regexp.t.
Variable limit : Z.

#[local] Arguments Filter.accept : simpl never.

#[local] Abbreviation scan items term st :=
  (Filter.scan items MinReputation location limit term st).

(** The equation of [scan] at a record. *)
Lemma scan_cons (u : Item.t) (rest : list Item.t) (term : bool)
    (st : Filter.state) :
  scan (u :: rest) term st =
  if Item.Reputation u <? MinReputation then (false, st, [])
  else if Regexp.MatchString location (Item.Location u) then
    if ((Filter.counter (fst (Filter.accept term u st)) >=? limit)
        && negb (limit =? 0))%bool
    then (false, fst (Filter.accept term u st),
          snd (Filter.accept term u st))
    else
      let '(rep, st2, out') := scan rest term (fst (Filter.accept term u st)) in
      (rep, st2, snd (Filter.accept term u st) ++ out')
  else scan rest term st.
Proof. reflexivity. Qed.

(** Scanning a page in two parts: the second part is only looked at when
    the first asked to continue. *)
Lemma scan_app (a b : list Item.t) (term : bool) (st : Filter.state) :
  scan (a ++ b) term st =
  let '(rep, st1, out) := scan a term st in
  if rep
  then let '(rep', st2, out') := scan b term st1 in (rep', st2, out ++ out')
  else (false, st1, out).
Proof.
  revert st. induction a as [|u a IH]; intros st.
  - simpl. destruct (scan b term st) as [[r s] o]. reflexivity.
  - rewrite <- app_comm_cons, !scan_cons.
    destruct (Item.Reputation u <? MinReputation); [reflexivity|].
    destruct (Regexp.MatchString location (Item.Location u)); [|apply IH].
    destruct (Filter.accept term u st) as [st1 out]; cbn [fst snd].
    destruct ((Filter.counter st1 >=? limit) && negb (limit =? 0))%bool;
      [reflexivity|].
    rewrite IH.
    destruct (scan a term st1) as [[r s] o]. destruct r; [|reflexivity].
    destruct (scan b term s) as [[r' s'] o'].
    rewrite app_assoc. reflexivity.
Qed.

(** A record under the threshold ends the scan where it stands. *)
Lemma scan_under_threshold (u : Item.t) (post : list Item.t) (term : bool)
    (st : Filter.state) :
  Item.Reputation u < MinReputation ->
  scan (u :: post) term st = (false, st, []).
Proof.
  intros H. rewrite scan_cons. apply Z.ltb_lt in H. rewrite H. reflexivity.
Qed.

(** The flag [term] changes what is printed and nothing else. *)
Lemma scan_term_irrelevant (items : list Item.t) (st : Filter.state) :
  fst (scan items true st) = fst (scan items false st) /\
  snd (scan items false st) = [].
Proof.
  revert st. induction items as [|u items IH]; intros st.
  - split; reflexivity.
  - rewrite !scan_cons.
    destruct (Item.Reputation u <? MinReputation); [split; reflexivity|].
    destruct (Regexp.MatchString location (Item.Location u)); [|apply IH].
    assert (Hfst : fst (Filter.accept true u st)
                   = fst (Filter.accept false u st)) by reflexivity.
    assert (Hsnd : snd (Filter.accept false u st) = []).
    { unfold Filter.accept. cbn [snd]. rewrite andb_false_r. reflexivity. }
    rewrite Hfst, Hsnd.
    destruct ((Filter.counter (fst (Filter.accept false u st)) >=? limit)
              && negb (limit =? 0))%bool; [split; reflexivity|].
    specialize (IH (fst (Filter.accept false u st))). destruct IH as [IH1 IH2].
    destruct (scan items true _) as [[r1 s1] o1].
    destruct (scan items false _) as [[r2 s2] o2].
    cbn [fst snd] in *. inversion IH1; subst. split; reflexivity.
Qed.

End FilterFacts.

(** ** The Result List *)

Lemma numbered_length (c : Z) (l : list Item.t) :
  length (Expected.numbered c l) = length l.
Proof. revert c. induction l; intros c; simpl; auto. Qed.

Lemma numbered_app (c : Z) (l1 l2 : list Item.t) :
  Expected.numbered c (l1 ++ l2)
  = Expected.numbered c l1
    ++ Expected.numbered (c + Z.of_nat (length l1)) l2.
Proof.
  revert c. induction l1 as [|u l1 IH]; intros c; simpl.
  - f_equal. lia.
  - rewrite IH. do 3 f_equal. lia.
Qed.

Lemma numbered_rank_values (c : Z) (l : list Item.t) :
  Expected.rank_values (Expected.numbered c l)
  = map (fun i => c + Z.of_nat i) (seq 1 (length l)).
Proof.
  revert c. induction l as [|u l IH]; intros c; simpl; [reflexivity|].
  f_equal. unfold Expected.rank_values in IH. rewrite IH.
  rewrite <- (seq_shift (length l) 1), map_map. apply map_ext. intros i. lia.
Qed.

Lemma numbered_last (c : Z) (l : list Item.t) (d : Z) :
  l <> [] ->
  last (Expected.rank_values (Expected.numbered c l)) d
  = c + Z.of_nat (length l).
Proof.
  intros Hl. destruct (exists_last Hl) as [l' [u ->]].
  rewrite numbered_app. unfold Expected.rank_values.
  rewrite map_app. simpl. rewrite last_last, length_app. simpl. lia.
Qed.

Section ResultList.

Variable MinReputation : Z.
Variable location : Regexp.t.
Variable limit : Z.
Variable term : bool.

#[local] Arguments Filter.accept : simpl never.

#[local] Abbreviation scan items st :=
  (Filter.scan items MinReputation location limit term st).

#[local] Abbreviation qualifying items :=
  (Expected.qualifying MinReputation location items).

(** The Result List only grows, at its end. *)
Lemma scan_appends (items : list Item.t) (st : Filter.state) :
  exists new,
    Filter.ranks (snd (fst (scan items st))) = Filter.ranks st ++ new.
Proof.
  revert st. induction items as [|u items IH]; intros st.
  - exists []. simpl. rewrite app_nil_r. reflexivity.
  - rewrite scan_cons.
    destruct (Item.Reputation u <? MinReputation).
    { exists []. simpl. rewrite app_nil_r. reflexivity. }
    destruct (Regexp.MatchString location (Item.Location u)); [|apply IH].
    destruct ((Filter.counter (fst (Filter.accept term u st)) >=? limit)
              && negb (limit =? 0))%bool.
    { eexists. reflexivity. }
    destruct (IH (fst (Filter.accept term u st))) as [new Hnew].
    destruct (scan items _) as [[r s] o]. cbn [fst snd] in *.
    rewrite Hnew. unfold Filter.accept; cbn [fst Filter.ranks].
    rewrite <- app_assoc. eexists. reflexivity.
Qed.

(** One call keeps the ranks 1, 2, ... without a gap, as long as the list
    that comes out has a length that is an [int], as every slice has. *)
Lemma scan_ranked (items : list Item.t) (st : Filter.state) :
  Expected.ranked st ->
  Z.of_nat (length (Filter.ranks (snd (fst (scan items st)))))
    <= GoInt.int_max ->
  Expected.ranked (snd (fst (scan items st))).
Proof.
  revert st. induction items as [|u items IH]; intros st Hr Hlen.
  - exact Hr.
  - rewrite scan_cons in *.
    destruct (Item.Reputation u <? MinReputation); [exact Hr|].
    destruct (Regexp.MatchString location (Item.Location u));
      [|apply IH; assumption].
    assert (Hacc : Z.of_nat (length (Filter.ranks st)) < GoInt.int_max ->
                   Expected.ranked (fst (Filter.accept term u st))).
    { intros Hlt. destruct Hr as [Hc Hv].
      unfold Expected.ranked, Filter.accept; cbn [fst Filter.counter Filter.ranks].
      rewrite Hc, succ_no_wrap by lia.
      rewrite length_app. simpl length. split; [lia|].
      unfold Expected.rank_values in *. rewrite map_app, Hv.
      replace (length (Filter.ranks st) + 1)%nat
        with (S (length (Filter.ranks st))) by lia.
      rewrite seq_S, map_app. simpl. do 2 f_equal. lia. }
    assert (Hlen1 : (length (Filter.ranks (fst (Filter.accept term u st)))
                     = S (length (Filter.ranks st)))%nat).
    { unfold Filter.accept; cbn [fst Filter.ranks].
      rewrite length_app. simpl. lia. }
    destruct ((Filter.counter (fst (Filter.accept term u st)) >=? limit)
              && negb (limit =? 0))%bool.
    { cbn [fst snd] in *. apply Hacc. lia. }
    pose proof (scan_appends items (fst (Filter.accept term u st)))
      as [new Hnew].
    specialize (IH (fst (Filter.accept term u st))).
    destruct (scan items _) as [[r s] o]. cbn [fst snd] in *.
    assert (Z.of_nat (length (Filter.ranks st)) < GoInt.int_max).
    { rewrite Hnew, length_app, Hlen1 in Hlen. lia. }
    apply IH; auto.
Qed.

End ResultList.

Section Limit.

Variable MinReputation : Z.
Variable location : Regexp.t.
Variable limit : Z.
Variable term : bool.

Hypothesis limit_pos : 0 < limit.
Hypothesis limit_int : limit <= GoInt.int_max.

#[local] Arguments Filter.accept : simpl never.

#[local] Abbreviation scan items st :=
  (Filter.scan items MinReputation location limit term st).

#[local] Abbreviation qualifying items :=
  (Expected.qualifying MinReputation location items).

(** With a limit, the scan accepts the qualifying records in order until
    the counter is the limit, and asks to continue when neither the limit
    nor a record under the threshold was met. *)
Lemma scan_limited (items : list Item.t) (st : Filter.state) :
  0 <= Filter.counter st < limit ->
  fst (scan items st)
  = (negb ((limit <=? Filter.counter st
                       + Z.of_nat (length (qualifying items)))
           || Expected.under_threshold MinReputation items),
     {| Filter.counter :=
          Filter.counter st + Z.of_nat (room MinReputation location limit (Filter.counter st) items);
        Filter.ranks :=
          Filter.ranks st
          ++ Expected.numbered (Filter.counter st)
               (firstn (room MinReputation location limit (Filter.counter st) items)
                  (qualifying items)) |}).
Proof.
  revert st. induction items as [|u items IH]; intros [c rs] Hc;
    cbn [Filter.counter Filter.ranks] in *.
  - unfold room. simpl. rewrite Nat.min_0_r. simpl.
    rewrite !Z.add_0_r, app_nil_r.
    replace (limit <=? c) with false by (symmetry; apply Z.leb_gt; lia).
    reflexivity.
  - rewrite scan_cons. unfold room, Expected.qualifying in *.
    simpl Expected.before_threshold. simpl Expected.under_threshold.
    destruct (Item.Reputation u <? MinReputation) eqn:Hu.
    { simpl. rewrite Nat.min_0_r. simpl.
      rewrite !Z.add_0_r, app_nil_r, orb_true_r. reflexivity. }
    simpl filter.
    destruct (Regexp.MatchString location (Item.Location u)) eqn:Hm.
    + unfold Filter.accept; cbn [fst snd Filter.counter Filter.ranks].
      rewrite succ_no_wrap by lia.
      replace (negb (limit =? 0)) with true
        by (symmetry; apply negb_true_iff, Z.eqb_neq; lia).
      rewrite andb_true_r.
      destruct (c + 1 >=? limit) eqn:Hlim.
      * apply Z.geb_le in Hlim. assert (limit = c + 1) by lia. subst limit.
        replace (Z.to_nat (c + 1 - c)) with 1%nat by lia.
        simpl length. rewrite Nat.min_l by lia. simpl.
        replace (c + 1 <=? c + Z.pos _) with true
          by (symmetry; apply Z.leb_le; lia).
        reflexivity.
      * rewrite Z.geb_leb in Hlim. apply Z.leb_gt in Hlim.
        specialize (IH {| Filter.counter := c + 1;
                          Filter.ranks :=
                            rs ++ [Filter.rank_of (c + 1) u] |}).
        cbn [Filter.counter Filter.ranks] in IH.
        destruct (scan items _) as [[r s] o]. cbn [fst snd] in *.
        rewrite IH by lia. clear IH. simpl length.
        set (q := filter _ (Expected.before_threshold MinReputation items)).
        replace (Nat.min (Z.to_nat (limit - c)) (S (length q)))
          with (S (Nat.min (Z.to_nat (limit - (c + 1))) (length q))) by lia.
        simpl firstn. simpl Expected.numbered. rewrite <- app_assoc. simpl.
        f_equal; [|f_equal; lia].
        do 3 f_equal. lia.
    + apply IH. assumption.
Qed.

End Limit.

Section NoLimit.

Variable MinReputation : Z.
Variable location : Regexp.t.
Variable term : bool.

#[local] Arguments Filter.accept : simpl never.

(** Without a limit, the scan accepts every qualifying record. *)
Lemma scan_unlimited (items : list Item.t) (st : Filter.state) :
  0 <= Filter.counter st ->
  Filter.counter st
  + Z.of_nat (length (Expected.qualifying MinReputation location items))
    <= GoInt.int_max ->
  fst (Filter.scan items MinReputation location 0 term st)
  = (negb (Expected.under_threshold MinReputation items),
     {| Filter.counter :=
          Filter.counter st
          + Z.of_nat
              (length (Expected.qualifying MinReputation location items));
        Filter.ranks :=
          Filter.ranks st
          ++ Expected.numbered (Filter.counter st)
               (Expected.qualifying MinReputation location items) |}).
Proof.
  revert st. induction items as [|u items IH]; intros [c rs] Hc Hmax;
    cbn [Filter.counter Filter.ranks] in *.
  - simpl. rewrite Z.add_0_r, app_nil_r. reflexivity.
  - rewrite scan_cons. unfold Expected.qualifying in *.
    simpl Expected.before_threshold in *. simpl Expected.under_threshold.
    destruct (Item.Reputation u <? MinReputation) eqn:Hu.
    { simpl. rewrite Z.add_0_r, app_nil_r. reflexivity. }
    simpl filter in *.
    destruct (Regexp.MatchString location (Item.Location u)) eqn:Hm.
    + unfold Filter.accept; cbn [fst snd Filter.counter Filter.ranks].
      simpl length in Hmax.
      rewrite succ_no_wrap by lia.
      rewrite andb_false_r.
      specialize (IH {| Filter.counter := c + 1;
                        Filter.ranks := rs ++ [Filter.rank_of (c + 1) u] |}).
      cbn [Filter.counter Filter.ranks] in IH.
      destruct (Filter.scan items _ _ _ _ _) as [[r s] o]. cbn [fst snd] in *.
      rewrite IH by lia. simpl. rewrite <- app_assoc. simpl.
      f_equal. f_equal. lia.
    + apply IH; assumption.
Qed.

End NoLimit.

(** ** The loop of the driver *)

Ltac simpl_state :=
  cbn [stop streamErrors currentPage lastPage counter users ranks key
       requests trace console filtered state_of
       say emit set_key set_users set_stop filter_done count_error advance
       answered init] in *.

(** A property that each pass through the body keeps holds when the loop
    is left. *)
Lemma loop_invariant (iteration : state -> step) (Inv : state -> Prop)
    (Post : step -> Prop) :
  (forall st, Inv st ->
     match iteration st with
     | Continue st' => Inv st'
     | s => Post s
     end) ->
  forall fuel st s,
    Inv st -> Body.loop iteration fuel st = Some s -> Post s.
Proof.
  intros Hstep fuel. induction fuel as [|fuel IH]; intros st s Hinv Hloop.
  - discriminate.
  - simpl in Hloop. specialize (Hstep st Hinv).
    destruct (iteration st) as [st'| | |] eqn:Hit;
      try (inversion Hloop; subst; assumption).
    exact (IH st' s Hstep Hloop).
Qed.

(** The loop is left by [break], [os.Exit] or a panic. *)
Lemma loop_ends (iteration : state -> step) (fuel : nat) (st : state)
    (s : step) :
  Body.loop iteration fuel st = Some s ->
  match s with Continue _ => False | _ => True end.
Proof.
  revert st. induction fuel as [|fuel IH]; intros st Hloop; [discriminate|].
  simpl in Hloop. destruct (iteration st) eqn:Hit;
    try (inversion Hloop; subst; exact I).
  eapply IH; eassumption.
Qed.

(** More fuel does not change a result. *)
Lemma loop_more_fuel (iteration : state -> step) (fuel fuel' : nat)
    (st : state) (s : step) :
  Body.loop iteration fuel st = Some s -> (fuel <= fuel')%nat ->
  Body.loop iteration fuel' st = Some s.
Proof.
  revert fuel' st. induction fuel as [|fuel IH]; intros fuel' st Hloop Hle;
    [discriminate|].
  destruct fuel' as [|fuel']; [lia|]. simpl in *.
  destruct (iteration st); try assumption. apply IH; [assumption|lia].
Qed.

Section FilterView.

Variable MaxPages : Z.
Variable MinReputation : Z.
Variable MaxErrors : Z.
Variable fl : Flags.t.
Variable re : Regexp.t.

Lemma filter_and_advance_view (st : state) :
  in_step MinReputation fl re st ->
  at_end MinReputation fl re (Body.filter_and_advance MaxPages MinReputation fl re st).
Proof.
  unfold in_step, Body.filter_and_advance. intros Hv.
  destruct (users st) as [u|]; [|exists true; exact Hv].
  unfold GetUserInfo.
  assert (Hview : forall a out,
            Filter.scan (SOUsers.Items u) MinReputation re (Flags.limit fl)
              (Flags.term fl) (current st) = a ->
            view MinReputation fl re (filter_done u (snd (fst a)) out st)
            = (fst (fst a), snd (fst a))).
  { intros a out Ha. unfold view in *. simpl_state.
    unfold Expected.records in *. rewrite map_app, concat_app. simpl.
    rewrite app_nil_r, scan_app.
    destruct (Filter.scan (concat _) _ _ _ _ _) as [[r0 s0] o0].
    cbn [fst] in Hv. inversion Hv; subst r0 s0.
    rewrite Ha. destruct a as [[r1 s1] o1]. reflexivity. }
  fold (current st).
  destruct (Filter.scan (SOUsers.Items u) _ _ _ _ (current st))
    as [[rep a] out] eqn:Hscan.
  specialize (Hview _ out eq_refl). cbn [fst snd] in Hview.
  destruct a as [c rs]. destruct rep; cbn [negb].
  - destruct (Body.last_page MaxPages u _); cbn [at_end].
    + exists true. exact Hview.
    + exact Hview.
  - exists false. exact Hview.
Qed.

Lemma retry_view (st : state) :
  in_step MinReputation fl re st -> at_end MinReputation fl re (Body.retry MaxErrors st).
Proof.
  unfold Body.retry. intros Hv.
  destruct (_ >=? MaxErrors); cbn [at_end]; [exists true|]; exact Hv.
Qed.

Lemma from_file_view (w : World.t) (st : state) :
  in_step MinReputation fl re st -> at_end MinReputation fl re (Body.from_file MaxPages MinReputation fl w re st).
Proof.
  unfold Body.from_file. intros Hv.
  destruct (World.json_file w (Flags.jsonfile fl)).
  - exists true. exact Hv.
  - apply filter_and_advance_view. exact Hv.
Qed.

End FilterView.

Lemma init_view (MinReputation : Z) (fl : Flags.t) (re : Regexp.t) :
  in_step MinReputation fl re init.
Proof. reflexivity. Qed.

Lemma Command_iteration_view (fl : Flags.t) (w : World.t) (re : Regexp.t)
    (st : state) :
  in_step Command.MinReputation fl re st ->
  at_end Command.MinReputation fl re (Command.iteration fl w re st).
Proof.
  intros Hv. unfold Command.iteration.
  destruct (Flags.jsonfile fl =? EmptyString)%string;
    [|apply from_file_view; exact Hv].
  match goal with
  | |- context [if fetch_failed ?r then _ else _] =>
      destruct (fetch_failed r)
  end; [apply retry_view|apply filter_and_advance_view];
    unfold Command.lib_GetKey;
    destruct (lastPage st =? currentPage st);
    try destruct (World.key_file w Command.APIKeyPath); exact Hv.
Qed.

Lemma MainGo_iteration_view (fl : Flags.t) (w : World.t) (re : Regexp.t)
    (st : state) :
  in_step MainGo.MinReputation fl re st ->
  at_end MainGo.MinReputation fl re (MainGo.iteration fl w re st).
Proof.
  intros Hv. unfold MainGo.iteration.
  destruct (Flags.jsonfile fl =? EmptyString)%string;
    [|apply from_file_view; exact Hv].
  unfold MainGo.GetKey.
  destruct (lastPage st =? currentPage st);
    try destruct (World.key_file w MainGo.APIKeyPath);
    match goal with
    | |- context [if fetch_failed ?r then _ else _] =>
        destruct (fetch_failed r)
    end; (apply retry_view || apply filter_and_advance_view); exact Hv.
Qed.

Lemma Command_report_keeps (fl : Flags.t) (w : World.t) (s : step)
    (o : outcome) (st : state) :
  Command.finish fl w s = (o, st) ->
  counter st = counter (state_of s) /\ ranks st = ranks (state_of s) /\
  filtered st = filtered (state_of s) /\
  streamErrors st = streamErrors (state_of s) /\
  lastPage st = lastPage (state_of s) /\
  currentPage st = currentPage (state_of s).
Proof.
  unfold Command.finish, Command.report, Command.lib_DumpJson,
    Command.lib_DumpMarkdown.
  intros H.
  destruct s as [st0|st0|c st0|st0]; cbn [state_of];
    try (inversion H; subst; repeat split; fail);
    destruct (counter st0 =? 0);
    try (inversion H; subst; repeat split; fail);
    destruct (Flags.jsonrsp fl =? EmptyString)%string;
    destruct (Flags.mdrsp fl =? EmptyString)%string;
    destruct (Flags.publish fl =? EmptyString)%string;
    destruct (World.creatable w (Flags.jsonrsp fl));
    destruct (World.creatable w (Flags.mdrsp fl));
    inversion H; subst; repeat split.
Qed.

Lemma MainGo_report_keeps (fl : Flags.t) (w : World.t) (s : step)
    (o : outcome) (st : state) :
  MainGo.finish fl w s = (o, st) ->
  counter st = counter (state_of s) /\ ranks st = ranks (state_of s) /\
  filtered st = filtered (state_of s) /\
  streamErrors st = streamErrors (state_of s) /\
  lastPage st = lastPage (state_of s) /\
  currentPage st = currentPage (state_of s).
Proof.
  unfold MainGo.finish, MainGo.report, MainGo.DumpJson, MainGo.DumpMarkdown.
  intros H.
  destruct s as [st0|st0|c st0|st0]; cbn [state_of];
    try (inversion H; subst; repeat split; fail);
    destruct (counter st0 =? 0);
    try (inversion H; subst; repeat split; fail);
    destruct (Flags.jsonrsp fl =? EmptyString)%string;
    destruct (Flags.mdrsp fl =? EmptyString)%string;
    destruct (World.creatable w (Flags.jsonrsp fl));
    destruct (World.creatable w (Flags.mdrsp fl));
    inversion H; subst; repeat split.
Qed.

(** At the end of a run of the command, [counter] and [ranks] are what
    one scan of the records of all filtered pages gives. *)
Lemma Command_main_view (fuel : nat) (fl : Flags.t) (w : World.t)
    (re : Regexp.t) (o : outcome) (st : state) :
  Regexp.MustCompile (World.regexp w)
        ("(?i)" ++ Flags.location fl)%string = Some re ->
  Command.main fuel fl w = Some (o, st) ->
  exists rep, view Command.MinReputation fl re st = (rep, current st).
Proof.
  intros Hre Hmain. unfold Command.main in Hmain.
  destruct (negb _ && _)%bool.
  { inversion Hmain; subst. exists true. reflexivity. }
  rewrite Hre in Hmain.
  destruct (Body.loop _ fuel init) as [s|] eqn:Hloop; [|discriminate].
  inversion Hmain as [Hfin]; clear Hmain.
  assert (Hend : at_end Command.MinReputation fl re s).
  { eapply loop_invariant with
      (Inv := in_step Command.MinReputation fl re); [| |exact Hloop].
    - intros st0 H0. pose proof (Command_iteration_view w H0) as H1.
      destruct (Command.iteration fl w re st0); exact H1.
    - apply init_view. }
  destruct (Command_report_keeps _ _ _ Hfin) as (Hc & Hr & Hf & _).
  assert (Hs : exists rep, view Command.MinReputation fl re (state_of s)
                           = (rep, current (state_of s))).
  { destruct s; cbn [at_end state_of] in *; eauto. }
  destruct Hs as [rep Hs]. exists rep.
  unfold view, current in *. rewrite Hc, Hr, Hf. exact Hs.
Qed.

Lemma MainGo_main_view (fuel : nat) (fl : Flags.t) (w : World.t)
    (re : Regexp.t) (o : outcome) (st : state) :
  Regexp.MustCompile (World.regexp w)
        ("(?i)" ++ Flags.location fl)%string = Some re ->
  MainGo.main fuel fl w = Some (o, st) ->
  exists rep, view MainGo.MinReputation fl re st = (rep, current st).
Proof.
  intros Hre Hmain. unfold MainGo.main in Hmain.
  rewrite Hre in Hmain.
  destruct (Body.loop _ fuel init) as [s|] eqn:Hloop; [|discriminate].
  inversion Hmain as [Hfin]; clear Hmain.
  assert (Hend : at_end MainGo.MinReputation fl re s).
  { eapply loop_invariant with
      (Inv := in_step MainGo.MinReputation fl re); [| |exact Hloop].
    - intros st0 H0. pose proof (MainGo_iteration_view w H0) as H1.
      destruct (MainGo.iteration fl w re st0); exact H1.
    - apply init_view. }
  destruct (MainGo_report_keeps _ _ _ Hfin) as (Hc & Hr & Hf & _).
  assert (Hs : exists rep, view MainGo.MinReputation fl re (state_of s)
                           = (rep, current (state_of s))).
  { destruct s; cbn [at_end state_of] in *; eauto. }
  destruct Hs as [rep Hs]. exists rep.
  unfold view, current in *. rewrite Hc, Hr, Hf. exact Hs.
Qed.

(** With a limit, what one scan from an empty Result List leaves. *)
Lemma limited_result (MinReputation : Z) (location : Regexp.t) (limit : Z)
    (term : bool) (items : list Item.t) (rep : bool) (a : Filter.state) :
  0 < limit <= GoInt.int_max ->
  fst (Filter.scan items MinReputation location limit term
         {| Filter.counter := 0; Filter.ranks := [] |}) = (rep, a) ->
  Z.of_nat (length (Filter.ranks a)) <= limit /\
  (last (Expected.rank_values (Filter.ranks a)) 0 = limit <->
   limit <= Z.of_nat
              (length (Expected.qualifying MinReputation location items))) /\
  (Filter.counter a = limit -> rep = false).
Proof.
  intros [Hpos Hint] Hscan.
  rewrite scan_limited in Hscan
    by (try assumption; cbn [Filter.counter]; lia).
  cbn [Filter.counter Filter.ranks] in Hscan.
  inversion Hscan as [[Hrep Ha]]; clear Hscan. cbn [Filter.ranks Filter.counter].
  set (q := Expected.qualifying MinReputation location items) in *.
  unfold room. fold q. rewrite Z.sub_0_r.
  set (k := Nat.min (Z.to_nat limit) (length q)).
  assert (Hk : length (firstn k q) = k).
  { rewrite length_firstn. unfold k. lia. }
  rewrite numbered_length, Hk.
  split; [unfold k; lia|]. split.
  - destruct (firstn k q) as [|x l] eqn:Hf.
    + simpl in Hk. simpl. unfold k in Hk. lia.
    + rewrite numbered_last by discriminate. rewrite Hk. unfold k. lia.
  - intros Hc. apply negb_false_iff, orb_true_iff. left.
    apply Z.leb_le. unfold k in Hc. lia.
Qed.

(** C1.  When the records in front of a record are all at or above the
    minimum reputation and the record itself is below it, the rank filter
    returns false with the counter, the Result List and the console as
    the records in front left them: the record and everything after it on
    the page add nothing (this needs no assumption on the order of the
    page, so it holds for the pages sorted by non-increasing reputation).
    For a page with the reputations 900, 700 and 300, the threshold 500,
    the pattern [.*] and no limit under three, the filter accepts the
    first two records with the ranks 1 and 2 and returns false. *)
Theorem C1_filter_stops_under_threshold :
  (forall (users : SOUsers.t) MinReputation location limit term st
          pre u post,
      SOUsers.Items users = pre ++ u :: post ->
      Forall (fun x => MinReputation <= Item.Reputation x) pre ->
      Item.Reputation u < MinReputation ->
      GetUserInfo users MinReputation location limit term st
      = (false,
         snd (fst (Filter.scan pre MinReputation location limit term st)),
         snd (Filter.scan pre MinReputation location limit term st)))
  /\
  (forall library u1 u2 u3 more qmax qrem limit term,
      Item.Reputation u1 = 900 ->
      Item.Reputation u2 = 700 ->
      Item.Reputation u3 = 300 ->
      limit = 0 \/ 2 < limit ->
      exists location,
        Regexp.MustCompile library "(?i).*" = Some location /\
        fst (GetUserInfo (SOUsers.mk [u1; u2; u3] more qmax qrem) 500
               location limit term
               {| Filter.counter := 0; Filter.ranks := [] |})
        = (false,
           {| Filter.counter := 2;
              Filter.ranks :=
                [Filter.rank_of 1 u1; Filter.rank_of 2 u2] |})).
Proof.
  split.
  - intros users MinReputation location limit term st pre u post
      Hitems _ Hu.
    unfold GetUserInfo. rewrite Hitems, scan_app.
    destruct (Filter.scan pre _ _ _ _ _) as [[r s] o]. cbn [fst snd].
    destruct r; [|reflexivity].
    rewrite scan_under_threshold by exact Hu.
    rewrite app_nil_r. reflexivity.
  - intros library u1 u2 u3 more qmax qrem limit term H1 H2 H3 Hlimit.
    exists (Regexp.Star Regexp.AnyNotNL). split; [reflexivity|].
    unfold GetUserInfo. cbn [SOUsers.Items].
    rewrite !scan_cons. rewrite H1, H2, H3.
    rewrite !nullable_MatchString by reflexivity.
    unfold Filter.accept; cbn [fst snd Filter.counter Filter.ranks].
    change (GoInt.add 0 1) with 1. change (GoInt.add 1 1) with 2.
    change (900 <? 500) with false. change (700 <? 500) with false.
    change (300 <? 500) with true. cbn iota.
    assert (E1 : ((1 >=? limit) && negb (limit =? 0))%bool = false).
    { destruct Hlimit as [->|Hl]; [reflexivity|].
      apply andb_false_iff. left. rewrite Z.geb_leb. apply Z.leb_gt. lia. }
    assert (E2 : ((2 >=? limit) && negb (limit =? 0))%bool = false).
    { destruct Hlimit as [->|Hl]; [reflexivity|].
      apply andb_false_iff. left. rewrite Z.geb_leb. apply Z.leb_gt. lia. }
    rewrite E1, E2. reflexivity.
Qed.

Lemma C1_witness :
  GetUserInfo sample_page 500 (Regexp.Star Regexp.AnyNotNL) 0 false
    {| Filter.counter := 0; Filter.ranks := [] |}
  = (false,
     {| Filter.counter := 2;
        Filter.ranks :=
          [Filter.rank_of 1 (sample_user 900 "Madrid");
           Filter.rank_of 2 (sample_user 700 EmptyString)] |},
     [])
  /\
  exists location,
    Regexp.MustCompile (fun _ => None) "(?i).*" = Some location /\
    fst (GetUserInfo sample_page 500 location 20 true
           {| Filter.counter := 0; Filter.ranks := [] |})
    = (false,
       {| Filter.counter := 2;
          Filter.ranks :=
            [Filter.rank_of 1 (sample_user 900 "Madrid");
             Filter.rank_of 2 (sample_user 700 EmptyString)] |}).
Proof.
  split.
  - apply (proj1 C1_filter_stops_under_threshold sample_page 500
             (Regexp.Star Regexp.AnyNotNL) 0 false
             {| Filter.counter := 0; Filter.ranks := [] |}
             [sample_user 900 "Madrid"; sample_user 700 EmptyString]
             (sample_user 300 "Lima") []).
    + reflexivity.
    + repeat constructor; simpl; lia.
    + simpl; lia.
  - apply (proj2 C1_filter_stops_under_threshold (fun _ => None)
             (sample_user 900 "Madrid") (sample_user 700 EmptyString)
             (sample_user 300 "Lima") true 0 0 20 true);
      try reflexivity.
    right. lia.
Defined.

(** C9.  The calls of the rank filter with [term] true and with [term]
    false return the same signal and leave the same counter and the same
    Result List, for every page, threshold, pattern, limit, counter and
    list; with [term] false nothing is printed. *)
Theorem C9_term_changes_console_only :
  forall (users : SOUsers.t) MinReputation location limit st,
    fst (GetUserInfo users MinReputation location limit true st)
    = fst (GetUserInfo users MinReputation location limit false st) /\
    snd (GetUserInfo users MinReputation location limit false st) = [].
Proof.
  intros. unfold GetUserInfo. apply scan_term_irrelevant.
Qed.

(** ** One pass through the body in HTTP mode

    What both programs do in a pass that fetches over HTTP, as a relation
    between the state before and the step taken. *)

Section HttpStep.

Variable MaxPages : Z.
Variable MaxErrors : Z.
Variable APIKeyPath : string.

Lemma retry_http_step (st st0 : state) (k : string) (r : World.response) :
  fetch_failed r = true ->
  trace st0 = trace st ++ key_events APIKeyPath st ++ [StreamHTTP (currentPage st) k r] ->
  stop st0 = stop st -> streamErrors st0 = streamErrors st ->
  same_page st st0 -> counter st0 = counter st ->
  http_step MaxPages MaxErrors APIKeyPath st (Body.retry MaxErrors st0).
Proof.
  intros Hr Ht Hs He Hp Hc. exists k, r. rewrite Hr.
  unfold Body.retry. simpl_state.
  destruct (GoInt.add (streamErrors st0) 1 >=? MaxErrors) eqn:E;
    simpl_state; rewrite ?E, He; repeat split; try assumption;
    try apply Hp.
Qed.

Lemma filter_and_advance_http_step MinReputation (fl : Flags.t)
    (re : Regexp.t) (st st0 : state) (k : string) (r : World.response) :
  fetch_failed r = false ->
  trace st0 = trace st ++ key_events APIKeyPath st ++ [StreamHTTP (currentPage st) k r] ->
  stop st0 = stop st -> streamErrors st0 = streamErrors st ->
  same_page st st0 ->
  http_step MaxPages MaxErrors APIKeyPath st (Body.filter_and_advance MaxPages MinReputation fl re st0).
Proof.
  intros Hr Ht Hs He [Hl Hc]. exists k, r. rewrite Hr.
  unfold Body.filter_and_advance.
  destruct (users st0) as [u|]; [|simpl_state; repeat split; assumption].
  destruct (GetUserInfo u _ _ _ _ _) as [[rep a] out].
  destruct rep; cbn [negb].
  - unfold Body.last_page. simpl_state.
    destruct ((GoInt.add (currentPage st0) 1 >=? MaxPages)
              && negb (MaxPages =? 0))%bool eqn:E; cbn [orb].
    + simpl_state. repeat split; try assumption.
      right. split; simpl_state; congruence.
    + assert (Hnext : next_page st (advance (filter_done u a out st0))).
      { split; simpl_state; congruence. }
      destruct (negb (SOUsers.HasMore u) || stop st0)%bool eqn:E2;
        simpl_state.
      * repeat split; try assumption. right. exact Hnext.
      * apply orb_false_iff in E2. destruct E2 as [_ E2].
        repeat split; try assumption; try apply Hnext. congruence.
  - simpl_state. repeat split; try assumption. left. split; assumption.
Qed.

End HttpStep.

Lemma Command_http_step (fl : Flags.t) (w : World.t) (re : Regexp.t)
    (st : state) :
  Flags.jsonfile fl = EmptyString ->
  http_step Command.MaxPages Command.MaxErrors Command.APIKeyPath st
    (Command.iteration fl w re st).
Proof.
  intros Hj. unfold Command.iteration. rewrite Hj. cbn [String.eqb].
  unfold Command.lib_GetKey.
  destruct (lastPage st =? currentPage st) eqn:Hl;
    try destruct (World.key_file w Command.APIKeyPath);
    match goal with
    | |- context [if fetch_failed ?r then _ else _] =>
        destruct (fetch_failed r) eqn:Hr
    end;
    (eapply retry_http_step || eapply filter_and_advance_http_step);
    try exact Hr;
    unfold key_events, same_page; rewrite ?Hl;
    simpl_state; try rewrite <- app_assoc; try split; reflexivity.
Qed.

Lemma MainGo_http_step (fl : Flags.t) (w : World.t) (re : Regexp.t)
    (st : state) :
  Flags.jsonfile fl = EmptyString ->
  http_step MainGo.MaxPages MainGo.MaxErrors MainGo.APIKeyPath st
    (MainGo.iteration fl w re st).
Proof.
  intros Hj. unfold MainGo.iteration. rewrite Hj. cbn [String.eqb].
  unfold MainGo.GetKey.
  destruct (lastPage st =? currentPage st) eqn:Hl;
    try destruct (World.key_file w MainGo.APIKeyPath);
    match goal with
    | |- context [if fetch_failed ?r then _ else _] =>
        destruct (fetch_failed r) eqn:Hr
    end;
    (eapply retry_http_step || eapply filter_and_advance_http_step);
    try exact Hr;
    unfold key_events, same_page; rewrite ?Hl;
    simpl_state; try rewrite <- app_assoc; try split; reflexivity.
Qed.

(** ** Runs in HTTP mode *)

Lemma failures_app (t1 t2 : list event) :
  failures (t1 ++ t2) = (failures t1 + failures t2)%nat.
Proof. unfold failures. rewrite filter_app, length_app. reflexivity. Qed.

Lemma key_lookups_app (t1 t2 : list event) :
  key_lookups (t1 ++ t2) = (key_lookups t1 + key_lookups t2)%nat.
Proof. unfold key_lookups. rewrite filter_app, length_app. reflexivity. Qed.

Lemma no_write_app (t1 t2 : list event) :
  no_write (t1 ++ t2) <-> no_write t1 /\ no_write t2.
Proof. unfold no_write. rewrite forallb_app. apply andb_true_iff. Qed.

Lemma no_write_writes (t : list event) : no_write t <-> writes t = [].
Proof.
  unfold no_write, writes. induction t as [|e t IH]; simpl.
  - split; reflexivity.
  - destruct (is_write e); simpl; [split; discriminate|exact IH].
Qed.

Lemma key_lookups_past (rest : list event) :
  Forall past_first_page rest -> key_lookups rest = 0%nat.
Proof.
  induction 1 as [|e rest [He _] _ IH]; [reflexivity|].
  unfold key_lookups in *. simpl. rewrite He. exact IH.
Qed.

Section HttpRun.

Variable MaxPages : Z.
Variable MaxErrors : Z.
Variable APIKeyPath : string.
Variable iteration : state -> step.

Hypothesis MaxPages_int : 0 < MaxPages <= GoInt.int_max.
Hypothesis MaxErrors_int : 0 < MaxErrors <= GoInt.int_max.
Hypothesis iteration_step :
  forall st, http_step MaxPages MaxErrors APIKeyPath st (iteration st).

Lemma key_lookups_attempts (atts : list (string * World.response)) :
  key_lookups (flat_map (attempt APIKeyPath) atts) = length atts.
Proof.
  induction atts as [|a atts IH]; [reflexivity|].
  unfold key_lookups in *. simpl. rewrite IH. reflexivity.
Qed.

Lemma keyed_lookups t atts rest :
  keyed APIKeyPath t atts rest -> key_lookups t = length atts.
Proof.
  intros (-> & _ & Hrest).
  rewrite key_lookups_app, key_lookups_attempts, key_lookups_past by assumption.
  lia.
Qed.

Lemma keyed_more t atts rest e :
  keyed APIKeyPath t atts rest -> past_first_page e ->
  keyed APIKeyPath (t ++ [e]) atts (rest ++ [e]).
Proof.
  intros (-> & Hf & Hr) He. repeat split.
  - rewrite app_assoc. reflexivity.
  - exact Hf.
  - apply Forall_app. split; [exact Hr|]. constructor; [exact He|constructor].
Qed.

Lemma keyed_attempt t atts k r :
  keyed APIKeyPath t atts [] -> Forall failed atts ->
  keyed APIKeyPath (t ++ [GetKey APIKeyPath] ++ [StreamHTTP 1 k r]) (atts ++ [(k, r)]) [].
Proof.
  intros (-> & _ & _) Hf. repeat split.
  - rewrite flat_map_app. simpl. rewrite ?app_nil_r. reflexivity.
  - rewrite removelast_last. exact Hf.
  - constructor.
Qed.

Lemma key_events_quiet (st : state) :
  failures (key_events APIKeyPath st) = 0%nat /\
  no_write (key_events APIKeyPath st).
Proof.
  unfold key_events. destruct (lastPage st =? currentPage st);
    split; reflexivity.
Qed.

Lemma request_failures (p : Z) (k : string) (r : World.response) :
  failures [StreamHTTP p k r] = if fetch_failed r then 1%nat else 0%nat.
Proof. unfold failures. simpl. destruct (fetch_failed r); reflexivity. Qed.

(** The trace after one more request keeps its shape. *)
Lemma key_step (st : state) (t' : list event) (k : string)
    (r : World.response) :
  http_inv MaxPages MaxErrors APIKeyPath st ->
  t' = trace st ++ key_events APIKeyPath st ++ [StreamHTTP (currentPage st) k r] ->
  exists atts rest,
    keyed APIKeyPath t' atts rest /\
    1 <= Z.of_nat (length atts) <= streamErrors st + 1 /\
    (lastPage st = currentPage st ->
     rest = [] /\ (fetch_failed r = true -> Forall failed atts) /\
     Z.of_nat (length atts) = streamErrors st + 1).
Proof.
  intros [He Hlt Hw Hp Hs Hk] ->. unfold key_events.
  destruct Hk as [(Hl & Hc & atts & Hkeyed & Hf & Hlen)
                 |(Hl & Hc & atts & rest & Hkeyed & Hlen)].
  - rewrite Hl, Z.eqb_refl, Hc.
    exists (atts ++ [(k, r)]), []. split; [|split].
    + apply keyed_attempt; assumption.
    + rewrite length_app. simpl. lia.
    + intros _. split; [reflexivity|]. split.
      * intros Hr. apply Forall_app. split; [exact Hf|].
        constructor; [exact Hr|constructor].
      * rewrite length_app. simpl. lia.
  - replace (lastPage st =? currentPage st) with false
      by (symmetry; apply Z.eqb_neq; lia).
    cbn [app].
    exists atts, (rest ++ [StreamHTTP (currentPage st) k r]). split; [|split].
    + apply keyed_more; [exact Hkeyed|]. split; [reflexivity|].
      simpl. apply Z.eqb_neq. lia.
    + exact Hlen.
    + intros Heq. lia.
Qed.

Lemma top_int : 1 <= top MaxPages < GoInt.int_max.
Proof. unfold top, GoInt.int_max in *. lia. Qed.

(** Each pass keeps the invariant or leaves the loop in a final state. *)
Lemma http_inv_step (st : state) :
  http_inv MaxPages MaxErrors APIKeyPath st ->
  match iteration st with
  | Continue st' => http_inv MaxPages MaxErrors APIKeyPath st'
  | s => http_post MaxPages MaxErrors APIKeyPath s
  end.
Proof.
  intros Hinv.
  destruct (iteration_step st) as (k & r & Ht & Hstop & Hcase).
  destruct (@key_step st _ k r Hinv Ht)
    as (atts & rest & Hkeyed & Hlen & HphaseA).
  pose proof Hinv as [He Hlt Hw Hp Hs Hk].
  pose proof top_int as Htop.
  assert (Hfail : failures (trace (state_of (iteration st)))
                  = (failures (trace st)
                     + if fetch_failed r then 1 else 0)%nat).
  { rewrite Ht, !failures_app, request_failures.
    rewrite (proj1 (key_events_quiet st)). lia. }
  assert (Hnw : no_write (trace (state_of (iteration st)))).
  { rewrite Ht. apply no_write_app. split; [exact Hw|].
    apply no_write_app. split; [apply key_events_quiet|reflexivity]. }
  assert (Hlast1 : 1 <= lastPage st <= top MaxPages).
  { destruct Hk as [(Hl & Hc & _)|(Hl & Hc & _)]; lia. }
  remember (state_of (iteration st)) as st1 eqn:Hst1.
  destruct (fetch_failed r) eqn:Hr.
  - destruct Hcase as (Hse & [Hlp Hcp] & Hcnt & Hs').
    rewrite succ_no_wrap in Hse by lia.
    rewrite Hs'.
    destruct (streamErrors st1 >=? MaxErrors) eqn:Hge;
      rewrite Z.geb_leb in Hge.
    + apply Z.leb_le in Hge.
      constructor; cbn [state_of];
        first [lia | exact Hnw | (split; [reflexivity|lia])
              | (exists atts, rest; split; [exact Hkeyed|lia])].
    + apply Z.leb_gt in Hge.
      constructor; first [lia | exact Hnw | congruence | idtac].
      destruct (Z.eq_dec (lastPage st) (currentPage st)) as [Heq|Hne].
      * destruct (HphaseA Heq) as (Hrest & Hall & Hl1). subst rest.
        left. split; [congruence|]. split.
        -- destruct Hk as [(_ & Hc & _)|(Hl & _)]; lia.
        -- exists atts. split; [exact Hkeyed|]. split; [auto|lia].
      * right.
        destruct Hk as [(Hl & _)|(Hl & Hc & _)]; [contradiction|].
        split; [lia|]. split; [lia|].
        exists atts, rest. split; [exact Hkeyed|lia].
  - destruct Hcase as (Hse & Hcase).
    assert (Hpost : forall s,
               state_of s = st1 ->
               match s with
               | Continue _ | Exited _ _ => False
               | _ => True
               end ->
               same_page st st1 \/ next_page st st1 ->
               http_post MaxPages MaxErrors APIKeyPath s).
    { intros s Hs0 Hkind Hpage.
      assert (Hpages : 1 <= currentPage st1 <= top MaxPages + 1 /\
                       1 <= lastPage st1 <= top MaxPages).
      { destruct Hpage as [[Hlp Hcp]|[Hlp Hcp]].
        - rewrite Hlp, Hcp. lia.
        - rewrite Hlp, Hcp, succ_no_wrap by lia. lia. }
      constructor; rewrite ?Hs0;
        first [lia | exact Hnw
              | (exists atts, rest; split; [exact Hkeyed|lia]) | idtac].
      destruct s; try contradiction; cbn [state_of] in *; subst; lia. }
    destruct (iteration st) as [st'|st'|c st'|st'] eqn:Hit;
      cbn [state_of] in Hst1; subst st'.
    + destruct Hcase as ([Hlp Hcp] & Hlast & Hstop0).
      rewrite succ_no_wrap in Hcp by lia.
      assert (Hlt' : currentPage st1 < MaxPages).
      { apply andb_false_iff in Hlast. destruct Hlast as [Hlast|Hlast].
        - rewrite Z.geb_leb in Hlast. apply Z.leb_gt in Hlast. exact Hlast.
        - apply negb_false_iff, Z.eqb_eq in Hlast. lia. }
      constructor;
        first [lia | exact Hnw | congruence | (unfold top; lia) | idtac].
      right. split; [lia|]. split; [lia|].
      exists atts, rest. split; [exact Hkeyed|lia].
    + apply (Hpost (Break st1) eq_refl I). exact Hcase.
    + contradiction.
    + apply (Hpost (Panicked st1) eq_refl I). left. exact Hcase.
Qed.

Lemma init_http_inv : http_inv MaxPages MaxErrors APIKeyPath init.
Proof.
  pose proof top_int.
  constructor; simpl_state; try reflexivity; try lia.
  left. split; [reflexivity|]. split; [reflexivity|].
  exists []. repeat split; constructor.
Qed.

(** However the loop is left, it is left in a final state. *)
Lemma http_loop_post (fuel : nat) (s : step) :
  Body.loop iteration fuel init = Some s ->
  http_post MaxPages MaxErrors APIKeyPath s.
Proof.
  intros Hloop.
  eapply loop_invariant with
    (Inv := http_inv MaxPages MaxErrors APIKeyPath); [| |exact Hloop].
  - intros st Hinv. pose proof (http_inv_step Hinv) as H.
    destruct (iteration st); exact H.
  - exact init_http_inv.
Qed.

(** The loop is left within [top + MaxErrors] passes. *)
Lemma http_loop_total (fuel : nat) (st : state) :
  http_inv MaxPages MaxErrors APIKeyPath st ->
  top MaxPages - currentPage st + (MaxErrors - streamErrors st)
    <= Z.of_nat fuel ->
  exists s, Body.loop iteration fuel st = Some s.
Proof.
  revert st. induction fuel as [|fuel IH]; intros st Hinv Hfuel.
  - destruct Hinv. lia.
  - simpl. pose proof (http_inv_step Hinv) as Hstep.
    destruct (iteration_step st) as (k & r & _ & _ & Hcase).
    pose proof top_int. pose proof Hinv as [He Hlt Hw Hp Hs Hk].
    destruct (iteration st) as [st'|st'|c st'|st'] eqn:Hit;
      try (eexists; reflexivity).
    apply IH; [exact Hstep|]. cbn [state_of] in Hcase.
    destruct (fetch_failed r).
    + destruct Hcase as (Hse & [_ Hcp] & _).
      rewrite succ_no_wrap in Hse by lia. lia.
    + destruct Hcase as (Hse & [_ Hcp] & _).
      rewrite succ_no_wrap in Hcp by lia. lia.
Qed.

End HttpRun.

(** ** File mode: one pass *)

Lemma from_file_once (MaxPages MinReputation : Z) (fl : Flags.t)
    (w : World.t) (re : Regexp.t) (st : state) :
  no_write (trace st) ->
  match Body.from_file MaxPages MinReputation fl w re st with
  | Continue _ => False
  | s =>
      no_write (trace (state_of s)) /\
      failures (trace (state_of s)) = failures (trace st) /\
      key_lookups (trace (state_of s)) = key_lookups (trace st) /\
      streamErrors (state_of s) = streamErrors st /\
      match s with Exited c _ => c = 5 | _ => True end
  end.
Proof.
  intros Hw. unfold Body.from_file.
  assert (Hnw : no_write
                  (trace st
                   ++ [StreamFile (Flags.jsonfile fl)
                         (World.json_file w (Flags.jsonfile fl))])).
  { apply no_write_app. split; [exact Hw|reflexivity]. }
  assert (Hf : failures
                 (trace st
                  ++ [StreamFile (Flags.jsonfile fl)
                        (World.json_file w (Flags.jsonfile fl))])
               = failures (trace st)).
  { rewrite failures_app. unfold failures at 2. simpl. lia. }
  assert (Hk : key_lookups
                 (trace st
                  ++ [StreamFile (Flags.jsonfile fl)
                        (World.json_file w (Flags.jsonfile fl))])
               = key_lookups (trace st)).
  { rewrite key_lookups_app. unfold key_lookups at 2. simpl. lia. }
  destruct (World.json_file w (Flags.jsonfile fl)) as [partial|u];
    [simpl_state; auto|].
  unfold Body.filter_and_advance. simpl_state. cbn [World.decoded].
  destruct (GetUserInfo u _ _ _ _ _) as [[rep a] out].
  destruct rep; cbn [negb]; [|simpl_state; auto].
  unfold Body.last_page. simpl_state. rewrite !orb_true_r.
  simpl_state. auto.
Qed.

(** ** After the loop *)

Lemma failures_writes (ws : list event) :
  writes_only ws -> failures ws = 0%nat.
Proof.
  induction 1 as [|e ws He _ IH]; [reflexivity|].
  unfold failures in *. simpl. destruct e; try discriminate; exact IH.
Qed.

Lemma key_lookups_writes (ws : list event) :
  writes_only ws -> key_lookups ws = 0%nat.
Proof.
  induction 1 as [|e ws He _ IH]; [reflexivity|].
  unfold key_lookups in *. simpl. destruct e; try discriminate; exact IH.
Qed.

Lemma writes_past_first_page (ws : list event) :
  writes_only ws -> Forall past_first_page ws.
Proof.
  induction 1 as [|e ws He _ IH]; constructor; [|exact IH].
  destruct e; try discriminate; split; reflexivity.
Qed.

Lemma pages_requested_app (t1 t2 : list event) :
  pages_requested (t1 ++ t2) = pages_requested t1 ++ pages_requested t2.
Proof.
  induction t1 as [|e t1 IH]; [reflexivity|].
  destruct e; simpl; rewrite IH; reflexivity.
Qed.

Lemma pages_requested_writes (ws : list event) :
  writes_only ws -> pages_requested ws = [].
Proof.
  induction 1 as [|e ws He _ IH]; [reflexivity|].
  destruct e; try discriminate; exact IH.
Qed.

Lemma Command_finished (fl : Flags.t) (w : World.t) (s : step)
    (o : outcome) (st : state) :
  Command.finish fl w s = (o, st) -> finished s o st.
Proof.
  unfold Command.finish, Command.report, Command.lib_DumpJson,
    Command.lib_DumpMarkdown, finished, writes_only.
  intros H.
  destruct s as [st0|st0|c st0|st0]; cbn [state_of];
    try (inversion H; subst; exists []; rewrite app_nil_r;
         repeat split; constructor);
    destruct (counter st0 =? 0);
    try (inversion H; subst; exists []; simpl_state; rewrite app_nil_r;
         repeat split; (constructor || discriminate));
    destruct (Flags.jsonrsp fl =? EmptyString)%string;
    destruct (Flags.mdrsp fl =? EmptyString)%string;
    destruct (Flags.publish fl =? EmptyString)%string;
    destruct (World.creatable w (Flags.jsonrsp fl));
    destruct (World.creatable w (Flags.mdrsp fl));
    inversion H; subst; simpl_state; rewrite <- ?app_assoc;
    try (eexists; split; [reflexivity|];
         split; [repeat constructor|discriminate]);
    try (exists []; rewrite app_nil_r; split; [reflexivity|];
         split; [constructor|discriminate]).
Qed.

Lemma MainGo_finished (fl : Flags.t) (w : World.t) (s : step)
    (o : outcome) (st : state) :
  MainGo.finish fl w s = (o, st) -> finished s o st.
Proof.
  unfold MainGo.finish, MainGo.report, MainGo.DumpJson,
    MainGo.DumpMarkdown, finished, writes_only.
  intros H.
  destruct s as [st0|st0|c st0|st0]; cbn [state_of];
    try (inversion H; subst; exists []; rewrite app_nil_r;
         repeat split; constructor);
    destruct (counter st0 =? 0);
    try (inversion H; subst; exists []; simpl_state; rewrite app_nil_r;
         repeat split; (constructor || discriminate));
    destruct (Flags.jsonrsp fl =? EmptyString)%string;
    destruct (Flags.mdrsp fl =? EmptyString)%string;
    destruct (World.creatable w (Flags.jsonrsp fl));
    destruct (World.creatable w (Flags.mdrsp fl));
    inversion H; subst; simpl_state; rewrite <- ?app_assoc;
    try (eexists; split; [reflexivity|];
         split; [repeat constructor|discriminate]);
    try (exists []; rewrite app_nil_r; split; [reflexivity|];
         split; [constructor|discriminate]).
Qed.

(** ** The two programs *)

(** The flags pass the test on [publish] and [mdrsp] at the start
    of the command. *)
Lemma publish_check (fl : Flags.t) :
  Flags.publish fl = EmptyString \/ Flags.mdrsp fl <> EmptyString ->
  (negb (Flags.publish fl =? EmptyString)
   && (Flags.mdrsp fl =? EmptyString))%string%bool = false.
Proof.
  intros [Hp|Hm].
  - rewrite Hp. reflexivity.
  - apply String.eqb_neq in Hm. rewrite Hm. apply andb_false_r.
Qed.

Lemma Command_constants :
  0 < Command.MaxPages <= GoInt.int_max /\
  0 < Command.MaxErrors <= GoInt.int_max.
Proof. cbv. repeat split; discriminate. Qed.

Lemma MainGo_constants :
  0 < MainGo.MaxPages <= GoInt.int_max /\
  0 < MainGo.MaxErrors <= GoInt.int_max.
Proof. cbv. repeat split; discriminate. Qed.

Lemma Command_loop_post (fl : Flags.t) (w : World.t) (re : Regexp.t)
    (fuel : nat) (s : step) :
  Flags.jsonfile fl = EmptyString ->
  Body.loop (Command.iteration fl w re) fuel init = Some s ->
  http_post Command.MaxPages Command.MaxErrors Command.APIKeyPath s.
Proof.
  intros Hj. apply http_loop_post; try apply Command_constants.
  intros st. apply Command_http_step. exact Hj.
Qed.

Lemma MainGo_loop_post (fl : Flags.t) (w : World.t) (re : Regexp.t)
    (fuel : nat) (s : step) :
  Flags.jsonfile fl = EmptyString ->
  Body.loop (MainGo.iteration fl w re) fuel init = Some s ->
  http_post MainGo.MaxPages MainGo.MaxErrors MainGo.APIKeyPath s.
Proof.
  intros Hj. apply http_loop_post; try apply MainGo_constants.
  intros st. apply MainGo_http_step. exact Hj.
Qed.

(** The loop of the command is left within 1101 passes. *)
Lemma Command_loop_total (fl : Flags.t) (w : World.t) (re : Regexp.t)
    (fuel : nat) :
  (1101 <= fuel)%nat ->
  exists s, Body.loop (Command.iteration fl w re) fuel init = Some s.
Proof.
  intros Hfuel.
  destruct (String.eqb_spec (Flags.jsonfile fl) EmptyString) as [Hj|Hj].
  - apply http_loop_total with (MaxPages := Command.MaxPages)
      (MaxErrors := Command.MaxErrors) (APIKeyPath := Command.APIKeyPath);
      try apply Command_constants.
    + intros st. apply Command_http_step. exact Hj.
    + apply init_http_inv; apply Command_constants.
    + unfold top, Command.MaxErrors. cbn. lia.
  - destruct fuel as [|fuel]; [lia|]. simpl. unfold Command.iteration.
    apply String.eqb_neq in Hj. rewrite Hj.
    pose proof (@from_file_once Command.MaxPages Command.MinReputation
                  fl w re init eq_refl) as H.
    destruct (Body.from_file _ _ _ _ _ _); [contradiction| | |];
      eexists; reflexivity.
Qed.

(** The loop of [main.go] is left within 3 passes. *)
Lemma MainGo_loop_total (fl : Flags.t) (w : World.t) (re : Regexp.t)
    (fuel : nat) :
  (3 <= fuel)%nat ->
  exists s, Body.loop (MainGo.iteration fl w re) fuel init = Some s.
Proof.
  intros Hfuel.
  destruct (String.eqb_spec (Flags.jsonfile fl) EmptyString) as [Hj|Hj].
  - apply http_loop_total with (MaxPages := MainGo.MaxPages)
      (MaxErrors := MainGo.MaxErrors) (APIKeyPath := MainGo.APIKeyPath);
      try apply MainGo_constants.
    + intros st. apply MainGo_http_step. exact Hj.
    + apply init_http_inv; apply MainGo_constants.
    + unfold top, MainGo.MaxErrors. cbn. lia.
  - destruct fuel as [|fuel]; [lia|]. simpl. unfold MainGo.iteration.
    apply String.eqb_neq in Hj. rewrite Hj.
    pose proof (@from_file_once MainGo.MaxPages MainGo.MinReputation
                  fl w re init eq_refl) as H.
    destruct (Body.from_file _ _ _ _ _ _); [contradiction| | |];
      eexists; reflexivity.
Qed.

(** Every run of the command ends: 1101 passes are enough fuel. *)
Lemma Command_main_total (fl : Flags.t) (w : World.t) (fuel : nat) :
  (1101 <= fuel)%nat -> exists o st, Command.main fuel fl w = Some (o, st).
Proof.
  intros Hfuel. unfold Command.main.
  destruct (negb _ && _)%bool; [eexists; eexists; reflexivity|].
  destruct (Regexp.MustCompile _) as [re|]; [|eexists; eexists; reflexivity].
  destruct (Command_loop_total fl w re Hfuel) as [s ->].
  destruct (Command.finish fl w s) as [o st]. exists o, st. reflexivity.
Qed.

(** Every run of [main.go] ends: 3 passes are enough fuel. *)
Lemma MainGo_main_total (fl : Flags.t) (w : World.t) (fuel : nat) :
  (3 <= fuel)%nat -> exists o st, MainGo.main fuel fl w = Some (o, st).
Proof.
  intros Hfuel. unfold MainGo.main.
  destruct (Regexp.MustCompile _) as [re|]; [|eexists; eexists; reflexivity].
  destruct (MainGo_loop_total fl w re Hfuel) as [s ->].
  destruct (MainGo.finish fl w s) as [o st]. exists o, st. reflexivity.
Qed.

(** The loop of either program, in both modes, is left without a write
    in the trace and, when it is left by [os.Exit], with the code 5. *)
Lemma Command_loop_no_write (fl : Flags.t) (w : World.t) (re : Regexp.t)
    (fuel : nat) (s : step) :
  Body.loop (Command.iteration fl w re) fuel init = Some s ->
  no_write (trace (state_of s)) /\
  match s with Exited c _ => c = 5 | _ => True end.
Proof.
  intros Hloop.
  destruct (String.eqb_spec (Flags.jsonfile fl) EmptyString) as [Hj|Hj].
  - destruct (Command_loop_post _ _ _ _ Hj Hloop) as [_ He Hw _ _ _].
    split; [exact Hw|]. destruct s; try exact I. apply He.
  - destruct fuel as [|fuel]; [discriminate|]. simpl in Hloop.
    unfold Command.iteration in Hloop.
    apply String.eqb_neq in Hj. rewrite Hj in Hloop.
    pose proof (@from_file_once Command.MaxPages Command.MinReputation
                  fl w re init eq_refl) as H.
    destruct (Body.from_file _ _ _ _ _ _); [contradiction| | |];
      inversion Hloop; subst; destruct H as (H1 & _ & _ & _ & H5);
      split; assumption.
Qed.

Lemma MainGo_loop_no_write (fl : Flags.t) (w : World.t) (re : Regexp.t)
    (fuel : nat) (s : step) :
  Body.loop (MainGo.iteration fl w re) fuel init = Some s ->
  no_write (trace (state_of s)) /\
  match s with Exited c _ => c = 5 | _ => True end.
Proof.
  intros Hloop.
  destruct (String.eqb_spec (Flags.jsonfile fl) EmptyString) as [Hj|Hj].
  - destruct (MainGo_loop_post _ _ _ _ Hj Hloop) as [_ He Hw _ _ _].
    split; [exact Hw|]. destruct s; try exact I. apply He.
  - destruct fuel as [|fuel]; [discriminate|]. simpl in Hloop.
    unfold MainGo.iteration in Hloop.
    apply String.eqb_neq in Hj. rewrite Hj in Hloop.
    pose proof (@from_file_once MainGo.MaxPages MainGo.MinReputation
                  fl w re init eq_refl) as H.
    destruct (Body.from_file _ _ _ _ _ _); [contradiction| | |];
      inversion Hloop; subst; destruct H as (H1 & _ & _ & _ & H5);
      split; assumption.
Qed.

(** A run that ends with the exit code 5 has written nothing. *)
Lemma Command_exit_5_no_write (fuel : nat) (fl : Flags.t) (w : World.t)
    (st : state) :
  Command.main fuel fl w = Some (Exit 5, st) -> no_write (trace st).
Proof.
  unfold Command.main. intros Hmain.
  destruct (negb _ && _)%bool; [inversion Hmain; reflexivity|].
  destruct (Regexp.MustCompile _) as [re|]; [|discriminate].
  destruct (Body.loop _ fuel init) as [s|] eqn:Hloop; [|discriminate].
  inversion Hmain as [Hfin]. apply Command_finished in Hfin.
  destruct Hfin as (ws & Ht & _ & Hs).
  destruct (Command_loop_no_write _ _ _ _ Hloop) as [Hw _].
  destruct s; try (exfalso; apply Hs; reflexivity);
    destruct Hs as [_ ->]; rewrite Ht, app_nil_r; exact Hw.
Qed.

Lemma MainGo_exit_5_no_write (fuel : nat) (fl : Flags.t) (w : World.t)
    (st : state) :
  MainGo.main fuel fl w = Some (Exit 5, st) -> no_write (trace st).
Proof.
  unfold MainGo.main. intros Hmain.
  destruct (Regexp.MustCompile _) as [re|]; [|discriminate].
  destruct (Body.loop _ fuel init) as [s|] eqn:Hloop; [|discriminate].
  inversion Hmain as [Hfin]. apply MainGo_finished in Hfin.
  destruct Hfin as (ws & Ht & _ & Hs).
  destruct (MainGo_loop_no_write _ _ _ _ Hloop) as [Hw _].
  destruct s; try (exfalso; apply Hs; reflexivity);
    destruct Hs as [_ ->]; rewrite Ht, app_nil_r; exact Hw.
Qed.

(** ** [main.go] in HTTP mode

    The page that was fetched is bound to the [users] of the branch, so
    the [users] of [main] is still nil when [GetUserInfo] reads its
    [Items]. *)

Lemma MainGo_http_pass (fl : Flags.t) (w : World.t) (re : Regexp.t)
    (st : state) :
  Flags.jsonfile fl = EmptyString ->
  users st = None ->
  filtered (state_of (MainGo.iteration fl w re st)) = filtered st /\
  match MainGo.iteration fl w re st with
  | Continue st' => users st' = None
  | Break _ => False
  | Exited c _ => c = 5
  | Panicked st' => fetch_failed (MainGo_answer w st) = false
  end.
Proof.
  intros Hj Hu. unfold MainGo.iteration, MainGo_answer, MainGo_key_sent.
  rewrite Hj. cbn [String.eqb]. unfold MainGo.GetKey.
  destruct (lastPage st =? currentPage st);
    try destruct (World.key_file w MainGo.APIKeyPath);
    cbn [fst]; simpl_state;
    match goal with
    | |- context [if fetch_failed ?r then _ else _] =>
        destruct (fetch_failed r) eqn:Hr
    end;
    unfold Body.retry, Body.filter_and_advance; simpl_state;
    rewrite ?Hu;
    try match goal with
      | |- context [if ?c then Exited _ _ else Continue _] => destruct c
      end;
    simpl_state; auto.
Qed.

(** A run of [main.go] in HTTP mode ends with the exit code 5 or with the
    panic of the nil pointer, with an empty Result List and no file
    written. *)
Lemma MainGo_http_never_reports (fuel : nat) (fl : Flags.t) (w : World.t)
    (re : Regexp.t) (o : outcome) (st : state) :
  Flags.jsonfile fl = EmptyString ->
  Regexp.MustCompile (World.regexp w)
        ("(?i)" ++ Flags.location fl)%string = Some re ->
  MainGo.main fuel fl w = Some (o, st) ->
  (o = Panic \/ o = Exit 5) /\ filtered st = [] /\ writes (trace st) = [].
Proof.
  intros Hj Hre Hmain. unfold MainGo.main in Hmain. rewrite Hre in Hmain.
  destruct (Body.loop _ fuel init) as [s|] eqn:Hloop; [|discriminate].
  inversion Hmain as [Hfin]; clear Hmain.
  assert (Hs : filtered (state_of s) = [] /\
               match s with
               | Exited c _ => c = 5
               | Panicked _ => True
               | _ => False
               end).
  { pose proof (@loop_invariant (MainGo.iteration fl w re)
                  (fun st0 => users st0 = None /\ filtered st0 = [])
                  (fun s0 => filtered (state_of s0) = [] /\
                             match s0 with
                             | Exited c _ => c = 5
                             | Panicked _ => True
                             | _ => False
                             end)) as Hinv.
    eapply Hinv; [| |exact Hloop]; [|split; reflexivity].
    intros st0 [H0 Hf0].
    destruct (MainGo_http_pass fl w re st0 Hj H0) as [H1 H2].
    rewrite Hf0 in H1.
    destruct (MainGo.iteration fl w re st0); cbn [state_of] in H1; auto. }
  destruct Hs as [Hf Hs].
  pose proof (MainGo_loop_post _ _ _ _ Hj Hloop) as [_ _ Hw _ _ _].
  destruct (MainGo_report_keeps _ _ _ Hfin) as (_ & _ & Hf' & _).
  destruct (MainGo_finished _ _ _ Hfin) as (ws & Ht & _ & Ho).
  destruct s as [st0|st0|c st0|st0]; try contradiction;
    cbn [state_of] in *; destruct Ho as [-> ->];
    rewrite app_nil_r in Ht; rewrite Ht, Hf';
    (split; [subst; auto|split; [exact Hf|apply no_write_writes; exact Hw]]).
Qed.

(** ** A pass whose fetch fails *)

Lemma retry_retried (MaxErrors : Z) (st st0 : state) :
  0 <= streamErrors st < GoInt.int_max ->
  streamErrors st0 = streamErrors st ->
  currentPage st0 = currentPage st -> lastPage st0 = lastPage st ->
  requests st0 = S (requests st) ->
  pages_requested (trace st0) = pages_requested (trace st) ++ [currentPage st] ->
  writes (trace st0) = writes (trace st) ->
  counter st0 = counter st -> ranks st0 = ranks st ->
  retried MaxErrors st (Body.retry MaxErrors st0).
Proof.
  intros Hse He Hc Hl Hq Hp Hw Hn Hr. unfold retried, Body.retry.
  simpl_state. rewrite He, succ_no_wrap by exact Hse.
  destruct (streamErrors st + 1 >=? MaxErrors); simpl_state;
    rewrite ?He, ?succ_no_wrap by exact Hse; repeat split; assumption.
Qed.

Lemma Command_failed_pass (fl : Flags.t) (w : World.t) (re : Regexp.t)
    (st : state) :
  Flags.jsonfile fl = EmptyString ->
  0 <= streamErrors st < GoInt.int_max ->
  fetch_failed (Command_answer w st) = true ->
  retried Command.MaxErrors st (Command.iteration fl w re st).
Proof.
  intros Hj Hse. unfold Command_answer, Command_key_sent, Command.iteration.
  rewrite Hj. cbn [String.eqb]. unfold Command.lib_GetKey.
  destruct (lastPage st =? currentPage st);
    try destruct (World.key_file w Command.APIKeyPath);
    cbn [fst]; simpl_state; intros Hr; rewrite Hr;
    apply retry_retried; simpl_state; try reflexivity; try exact Hse;
    unfold writes; rewrite ?pages_requested_app, ?filter_app;
    simpl; rewrite ?app_nil_r; reflexivity.
Qed.

Lemma MainGo_failed_pass (fl : Flags.t) (w : World.t) (re : Regexp.t)
    (st : state) :
  Flags.jsonfile fl = EmptyString ->
  0 <= streamErrors st < GoInt.int_max ->
  fetch_failed (MainGo_answer w st) = true ->
  retried MainGo.MaxErrors st (MainGo.iteration fl w re st).
Proof.
  intros Hj Hse. unfold MainGo_answer, MainGo_key_sent, MainGo.iteration.
  rewrite Hj. cbn [String.eqb]. unfold MainGo.GetKey.
  destruct (lastPage st =? currentPage st);
    try destruct (World.key_file w MainGo.APIKeyPath);
    cbn [fst]; simpl_state; intros Hr; rewrite Hr;
    apply retry_retried; simpl_state; try reflexivity; try exact Hse;
    unfold writes; rewrite ?pages_requested_app, ?filter_app;
    simpl; rewrite ?app_nil_r; reflexivity.
Qed.

(** Three fetches in a row that fail: the loop is left by [os.Exit(5)]
    in the third pass, after three requests for page 1. *)
Lemma three_failures (iteration : state -> step) (MaxErrors : Z)
    (answer : state -> World.response) :
  MaxErrors = 3 ->
  (forall st, 0 <= streamErrors st < GoInt.int_max ->
              fetch_failed (answer st) = true ->
              retried MaxErrors st (iteration st)) ->
  (forall st, (requests st < 3)%nat -> fetch_failed (answer st) = true) ->
  forall fuel, (3 <= fuel)%nat ->
  exists st,
    Body.loop iteration fuel init = Some (Exited 5 st) /\
    streamErrors st = 3 /\
    pages_requested (trace st) = [1; 1; 1] /\
    writes (trace st) = [] /\ counter st = 0.
Proof.
  intros -> Hpass Hfail fuel Hfuel.
  assert (Hint : 3 < GoInt.int_max) by (cbv; reflexivity).
  destruct (Hpass init) as (Hs1 & He1 & Hc1 & Hl1 & Hq1 & Hp1 & Hw1 & Hn1 & _).
  { simpl_state. lia. }
  { apply Hfail. simpl_state. lia. }
  simpl_state. change (0 + 1 >=? 3) with false in Hs1. cbn iota in Hs1.
  set (st1 := state_of (iteration init)) in *.
  destruct (Hpass st1) as (Hs2 & He2 & Hc2 & Hl2 & Hq2 & Hp2 & Hw2 & Hn2 & _).
  { lia. }
  { apply Hfail. lia. }
  rewrite He1 in Hs2. change (0 + 1 + 1 >=? 3) with false in Hs2.
  cbn iota in Hs2.
  set (st2 := state_of (iteration st1)) in *.
  destruct (Hpass st2) as (Hs3 & He3 & Hc3 & Hl3 & Hq3 & Hp3 & Hw3 & Hn3 & _).
  { lia. }
  { apply Hfail. lia. }
  rewrite He2, He1 in Hs3. change (0 + 1 + 1 + 1 >=? 3) with true in Hs3.
  cbn iota in Hs3.
  set (st3 := state_of (iteration st2)) in *.
  exists st3. split.
  - apply loop_more_fuel with (fuel := 3%nat); [|exact Hfuel].
    simpl. rewrite Hs1, Hs2, Hs3. reflexivity.
  - repeat split.
    + lia.
    + rewrite Hp3, Hp2, Hp1, Hc2, Hc1. reflexivity.
    + rewrite Hw3, Hw2, Hw1. reflexivity.
    + lia.
Qed.

(** C4.  In HTTP mode, a pass of the loop whose fetch returns an error
    or a page without items adds one to the retry counter and makes no
    write; when the counter has reached 3 ([MaxErrors]) the pass ends the
    process with [os.Exit(5)], and otherwise the loop goes on with the
    page cursor ([currentPage], [lastPage]) where it was, so that the next
    request is for the same page.  This holds for the command and for
    [main.go].  A run that ends with the exit code 5 has written no
    file, and when the first three fetches fail the run ends with the
    exit code 5 after three requests for page 1. *)
Theorem C4_failed_fetch_retries_then_exits :
  Command.MaxErrors = 3 /\ MainGo.MaxErrors = 3 /\
  (forall fl w re st,
      Flags.jsonfile fl = EmptyString ->
      0 <= streamErrors st < GoInt.int_max ->
      fetch_failed (Command_answer w st) = true ->
      retried Command.MaxErrors st (Command.iteration fl w re st)) /\
  (forall fl w re st,
      Flags.jsonfile fl = EmptyString ->
      0 <= streamErrors st < GoInt.int_max ->
      fetch_failed (MainGo_answer w st) = true ->
      retried MainGo.MaxErrors st (MainGo.iteration fl w re st)) /\
  (forall fuel fl w st,
      Command.main fuel fl w = Some (Exit 5, st) -> writes (trace st) = []) /\
  (forall fuel fl w st,
      MainGo.main fuel fl w = Some (Exit 5, st) -> writes (trace st) = []) /\
  (forall fl w re fuel,
      Flags.jsonfile fl = EmptyString ->
      Flags.publish fl = EmptyString \/ Flags.mdrsp fl <> EmptyString ->
      Regexp.MustCompile (World.regexp w)
        ("(?i)" ++ Flags.location fl)%string = Some re ->
      (forall n p k, (n < 3)%nat -> fetch_failed (World.http w n p k) = true) ->
      (3 <= fuel)%nat ->
      exists st,
        Command.main fuel fl w = Some (Exit 5, st) /\
        pages_requested (trace st) = [1; 1; 1] /\
        writes (trace st) = []) /\
  (forall fl w re fuel,
      Flags.jsonfile fl = EmptyString ->
      Regexp.MustCompile (World.regexp w)
        ("(?i)" ++ Flags.location fl)%string = Some re ->
      (forall n p k, (n < 3)%nat -> fetch_failed (World.http w n p k) = true) ->
      (3 <= fuel)%nat ->
      exists st,
        MainGo.main fuel fl w = Some (Exit 5, st) /\
        pages_requested (trace st) = [1; 1; 1] /\
        writes (trace st) = []).
Proof.
  split; [reflexivity|]. split; [reflexivity|].
  split; [exact Command_failed_pass|]. split; [exact MainGo_failed_pass|].
  split; [|split; [|split]].
  - intros fuel fl w st H. apply no_write_writes.
    exact (Command_exit_5_no_write _ _ _ H).
  - intros fuel fl w st H. apply no_write_writes.
    exact (MainGo_exit_5_no_write _ _ _ H).
  - intros fl w re fuel Hj Hp Hre Hfail Hfuel.
    destruct (@three_failures (Command.iteration fl w re) Command.MaxErrors
                (Command_answer w) eq_refl) with (fuel := fuel)
      as (st & Hloop & _ & Hpages & Hw & _).
    + intros st. apply Command_failed_pass. exact Hj.
    + intros st Hn. apply Hfail. exact Hn.
    + exact Hfuel.
    + exists st. unfold Command.main.
      rewrite (publish_check fl Hp), Hre, Hloop.
      repeat split; assumption.
  - intros fl w re fuel Hj Hre Hfail Hfuel.
    destruct (@three_failures (MainGo.iteration fl w re) MainGo.MaxErrors
                (MainGo_answer w) eq_refl) with (fuel := fuel)
      as (st & Hloop & _ & Hpages & Hw & _).
    + intros st. apply MainGo_failed_pass. exact Hj.
    + intros st Hn. apply Hfail. exact Hn.
    + exact Hfuel.
    + exists st. unfold MainGo.main. rewrite Hre, Hloop.
      repeat split; assumption.
Qed.

Lemma C4_witness :
  retried Command.MaxErrors init
    (Command.iteration Flags.default failing_world Regexp.AnyNotNL init) /\
  retried MainGo.MaxErrors init
    (MainGo.iteration Flags.default failing_world Regexp.AnyNotNL init) /\
  writes (trace (snd failed_command_run)) = [] /\
  writes (trace (snd failed_run)) = [] /\
  (exists st,
      Command.main 3 Flags.default failing_world = Some (Exit 5, st) /\
      pages_requested (trace st) = [1; 1; 1] /\
      writes (trace st) = []) /\
  (exists st,
      MainGo.main 3 Flags.default failing_world = Some (Exit 5, st) /\
      pages_requested (trace st) = [1; 1; 1] /\
      writes (trace st) = []).
Proof.
  destruct C4_failed_fetch_retries_then_exits
    as (_ & _ & Hcmd & Hgo & Hcmd5 & Hgo5 & Hcmd3 & Hgo3).
  assert (Hint : 0 <= streamErrors init < GoInt.int_max)
    by (vm_compute; split; [discriminate|reflexivity]).
  split; [|split; [|split; [|split; [|split]]]].
  - apply Hcmd; [reflexivity|exact Hint|reflexivity].
  - apply Hgo; [reflexivity|exact Hint|reflexivity].
  - apply (Hcmd5 3%nat Flags.default failing_world). vm_compute. reflexivity.
  - apply (Hgo5 3%nat Flags.default failing_world). vm_compute. reflexivity.
  - apply Hcmd3 with (re := Regexp.AnyNotNL);
      [reflexivity|left; reflexivity|reflexivity
      |intros n p k _; reflexivity|lia].
  - apply Hgo3 with (re := Regexp.AnyNotNL);
      [reflexivity|reflexivity|intros n p k _; reflexivity|lia].
Defined.

(** ** The Result List at the end of a run *)

(** The state [main] starts the filter from. *)
Lemma init_ranked :
  Expected.ranked {| Filter.counter := 0; Filter.ranks := [] |}.
Proof. split; reflexivity. Qed.

Lemma view_ranked (MinReputation : Z) (fl : Flags.t) (re : Regexp.t)
    (st : state) (rep : bool) :
  view MinReputation fl re st = (rep, current st) ->
  Z.of_nat (length (ranks st)) <= GoInt.int_max ->
  Expected.ranked (current st).
Proof.
  unfold view. intros Hv Hlen.
  pose proof (@scan_ranked MinReputation re (Flags.limit fl) (Flags.term fl)
                (Expected.records (filtered st)) _ init_ranked) as H.
  destruct (Filter.scan _ _ _ _ _ _) as [[r a] o]. cbn [fst snd] in *.
  inversion Hv; subst. apply H. exact Hlen.
Qed.

(** C2.  One call of the rank filter only appends to the Result List, and
    when the ranks were 1, 2, ..., n with the counter at n before the
    call, they are 1, 2, ..., n' with the counter at n' after it (the list
    that comes out being a slice, its length is an [int]).  [main] shares
    one counter and one list between the calls for successive pages: at
    the end of every run of [main.go] and of the command the ranks are
    1, 2, ... up to the length of the list, which the counter equals.
    Every run ends: 1101 passes through the loop are enough for the
    command, 3 for [main.go]. *)
Theorem C2_ranks_count_accepted :
  (forall (users : SOUsers.t) MinReputation location limit term st,
      let st' :=
        snd (fst (GetUserInfo users MinReputation location limit term st)) in
      (exists new, Filter.ranks st' = Filter.ranks st ++ new) /\
      (Expected.ranked st ->
       Z.of_nat (length (Filter.ranks st')) <= GoInt.int_max ->
       Expected.ranked st'))
  /\
  (forall fuel fl w o st,
      Command.main fuel fl w = Some (o, st) ->
      Z.of_nat (length (ranks st)) <= GoInt.int_max ->
      Expected.ranked (current st))
  /\
  (forall fuel fl w o st,
      MainGo.main fuel fl w = Some (o, st) ->
      Z.of_nat (length (ranks st)) <= GoInt.int_max ->
      Expected.ranked (current st))
  /\
  (forall fl w fuel,
      ((1101 <= fuel)%nat ->
       exists o st, Command.main fuel fl w = Some (o, st)) /\
      ((3 <= fuel)%nat ->
       exists o st, MainGo.main fuel fl w = Some (o, st))).
Proof.
  split; [|split; [|split]];
    [| | |intros fl w fuel; split;
          [apply Command_main_total|apply MainGo_main_total]].
  - intros users MinReputation location limit term st st'. subst st'.
    unfold GetUserInfo. split.
    + apply scan_appends.
    + apply scan_ranked.
  - intros fuel fl w o st Hmain Hlen.
    destruct (Regexp.MustCompile (World.regexp w)
                ("(?i)" ++ Flags.location fl)%string) as [re|] eqn:Hre.
    + destruct (Command_main_view _ _ _ Hre Hmain) as [rep Hv].
      eapply view_ranked; eassumption.
    + unfold Command.main in Hmain. rewrite Hre in Hmain.
      destruct (negb _ && _)%bool; inversion Hmain; subst;
        exact init_ranked.
  - intros fuel fl w o st Hmain Hlen.
    destruct (Regexp.MustCompile (World.regexp w)
                ("(?i)" ++ Flags.location fl)%string) as [re|] eqn:Hre.
    + destruct (MainGo_main_view _ _ _ Hre Hmain) as [rep Hv].
      eapply view_ranked; eassumption.
    + unfold MainGo.main in Hmain. rewrite Hre in Hmain.
      inversion Hmain; subst. exact init_ranked.
Qed.

(** C3.  In every run of the command with a limit N above zero, the
    Result List has at most N entries, and the rank of its last entry is
    N exactly when the pages handed to the filter hold at least N
    qualifying records (at or above the threshold, in front of every
    record under it, with a matching location).  The same holds for
    [main.go].  A call of the filter that starts under the limit and
    leaves the counter at the limit returns false.  Every run ends: 1101
    passes through the loop are enough for the command, 3 for
    [main.go]. *)
Theorem C3_limit_bounds_result_list :
  (forall fuel fl w re o st,
      0 < Flags.limit fl <= GoInt.int_max ->
      Regexp.MustCompile (World.regexp w)
        ("(?i)" ++ Flags.location fl)%string = Some re ->
      Command.main fuel fl w = Some (o, st) ->
      Z.of_nat (length (ranks st)) <= Flags.limit fl /\
      (last (Expected.rank_values (ranks st)) 0 = Flags.limit fl <->
       Flags.limit fl
       <= Z.of_nat
            (length (Expected.qualifying Command.MinReputation re
                       (Expected.records (filtered st))))))
  /\
  (forall fuel fl w re o st,
      0 < Flags.limit fl <= GoInt.int_max ->
      Regexp.MustCompile (World.regexp w)
        ("(?i)" ++ Flags.location fl)%string = Some re ->
      MainGo.main fuel fl w = Some (o, st) ->
      Z.of_nat (length (ranks st)) <= Flags.limit fl /\
      (last (Expected.rank_values (ranks st)) 0 = Flags.limit fl <->
       Flags.limit fl
       <= Z.of_nat
            (length (Expected.qualifying MainGo.MinReputation re
                       (Expected.records (filtered st))))))
  /\
  (forall (users : SOUsers.t) MinReputation location limit term st,
      0 < limit <= GoInt.int_max ->
      0 <= Filter.counter st < limit ->
      Filter.counter
        (snd (fst (GetUserInfo users MinReputation location limit term st)))
      = limit ->
      fst (fst (GetUserInfo users MinReputation location limit term st))
      = false)
  /\
  (forall fl w fuel,
      ((1101 <= fuel)%nat ->
       exists o st, Command.main fuel fl w = Some (o, st)) /\
      ((3 <= fuel)%nat ->
       exists o st, MainGo.main fuel fl w = Some (o, st))).
Proof.
  split; [|split; [|split]];
    [| | |intros fl w fuel; split;
          [apply Command_main_total|apply MainGo_main_total]].
  - intros fuel fl w re o st Hlimit Hre Hmain.
    destruct (Command_main_view _ _ _ Hre Hmain) as [rep Hv].
    destruct (limited_result _ _ _ _ Hlimit Hv) as (H1 & H2 & _).
    split; assumption.
  - intros fuel fl w re o st Hlimit Hre Hmain.
    destruct (MainGo_main_view _ _ _ Hre Hmain) as [rep Hv].
    destruct (limited_result _ _ _ _ Hlimit Hv) as (H1 & H2 & _).
    split; assumption.
  - intros users MinReputation location limit term st [Hpos Hint] Hc.
    unfold GetUserInfo.
    pose proof (@scan_limited MinReputation location limit term Hpos Hint
                  (SOUsers.Items users) st Hc) as Hs.
    destruct (Filter.scan _ _ _ _ _ _) as [[r a] out]. cbn [fst snd] in *.
    inversion Hs as [[Hr Ha]]. cbn [Filter.counter]. intros Heq.
    apply negb_false_iff, orb_true_iff. left. apply Z.leb_le.
    unfold room in Heq. lia.
Qed.

Lemma C2_witness :
  Expected.ranked
    (snd (fst (GetUserInfo three_users 500 Regexp.AnyNotNL 0 false
                 {| Filter.counter := 0; Filter.ranks := [] |}))) /\
  Expected.ranked (current (snd limited_run)) /\
  Expected.ranked (current (snd file_run)) /\
  (exists o st, Command.main 1101 limit_two serving_world = Some (o, st)).
Proof.
  destruct C2_ranks_count_accepted as (Hcall & Hcmd & Hgo & Htotal).
  split; [|split; [|split]].
  - apply (proj2 (Hcall three_users 500 Regexp.AnyNotNL 0 false
                    {| Filter.counter := 0; Filter.ranks := [] |})).
    + split; reflexivity.
    + vm_compute. discriminate.
  - apply (Hcmd 5%nat limit_two serving_world (fst limited_run)).
    + vm_compute. reflexivity.
    + vm_compute. discriminate.
  - apply (Hgo 3%nat from_file_limit_two file_world (fst file_run)).
    + vm_compute. reflexivity.
    + vm_compute. discriminate.
  - apply (proj1 (Htotal limit_two serving_world 1101%nat)). lia.
Defined.

Lemma C3_witness :
  (Z.of_nat (length (ranks (snd limited_run))) <= 2 /\
   (last (Expected.rank_values (ranks (snd limited_run))) 0 = 2 <->
    2 <= Z.of_nat
           (length (Expected.qualifying Command.MinReputation
                      Regexp.AnyNotNL
                      (Expected.records (filtered (snd limited_run))))))) /\
  (Z.of_nat (length (ranks (snd file_run))) <= 2 /\
   (last (Expected.rank_values (ranks (snd file_run))) 0 = 2 <->
    2 <= Z.of_nat
           (length (Expected.qualifying MainGo.MinReputation
                      Regexp.AnyNotNL
                      (Expected.records (filtered (snd file_run))))))) /\
  fst (fst (GetUserInfo three_users 500 Regexp.AnyNotNL 2 false
              {| Filter.counter := 0; Filter.ranks := [] |})) = false /\
  (exists o st, MainGo.main 3 from_file_limit_two file_world = Some (o, st)).
Proof.
  destruct C3_limit_bounds_result_list as (Hcmd & Hgo & Hcall & Htotal).
  split; [|split; [|split]].
  - apply (Hcmd 5%nat limit_two serving_world Regexp.AnyNotNL
             (fst limited_run) (snd limited_run)).
    + vm_compute. split; [reflexivity|discriminate].
    + reflexivity.
    + vm_compute. reflexivity.
  - apply (Hgo 3%nat from_file_limit_two file_world Regexp.AnyNotNL
             (fst file_run) (snd file_run)).
    + vm_compute. split; [reflexivity|discriminate].
    + reflexivity.
    + vm_compute. reflexivity.
  - apply (Hcall three_users 500 Regexp.AnyNotNL 2 false
             {| Filter.counter := 0; Filter.ranks := [] |}).
    + vm_compute. split; [reflexivity|discriminate].
    + vm_compute. split; [discriminate|reflexivity].
    + vm_compute. reflexivity.
  - apply (proj2 (Htotal from_file_limit_two file_world 3%nat)). lia.
Defined.

(** ** The retry counter over a whole run *)

Lemma post_errors_counted (MaxPages MaxErrors : Z) (path : string)
    (s : step) (o : outcome) (st : state) :
  http_post MaxPages MaxErrors path s ->
  finished s o st ->
  streamErrors st = streamErrors (state_of s) ->
  errors_counted MaxErrors o st.
Proof.
  intros [He Hx Hw _ _ _] (ws & Ht & Hws & Hs) Hse. unfold errors_counted.
  assert (Hf : failures (trace st) = failures (trace (state_of s))).
  { rewrite Ht, failures_app, (failures_writes Hws). lia. }
  rewrite Hf, Hse.
  destruct s as [st0|st0|c st0|st0]; cbn [state_of] in *.
  - contradiction.
  - repeat split; try lia; try congruence.
  - destruct Hx as [-> Hx]. destruct Hs as [-> ->].
    repeat split; try lia; try congruence.
    intros _. rewrite Ht, app_nil_r. apply no_write_writes. exact Hw.
  - destruct Hs as [-> ->]. repeat split; try lia; try congruence;
      discriminate.
Qed.

Lemma Command_errors_counted (fuel : nat) (fl : Flags.t) (w : World.t)
    (re : Regexp.t) (o : outcome) (st : state) :
  Flags.jsonfile fl = EmptyString ->
  Flags.publish fl = EmptyString \/ Flags.mdrsp fl <> EmptyString ->
  Regexp.MustCompile (World.regexp w)
        ("(?i)" ++ Flags.location fl)%string = Some re ->
  Command.main fuel fl w = Some (o, st) ->
  errors_counted Command.MaxErrors o st.
Proof.
  intros Hj Hp Hre Hmain. unfold Command.main in Hmain.
  rewrite (publish_check fl Hp), Hre in Hmain.
  destruct (Body.loop _ fuel init) as [s|] eqn:Hloop; [|discriminate].
  inversion Hmain as [Hfin].
  eapply post_errors_counted.
  - exact (Command_loop_post _ _ _ _ Hj Hloop).
  - exact (Command_finished _ _ _ Hfin).
  - apply (Command_report_keeps _ _ _ Hfin).
Qed.

Lemma MainGo_errors_counted (fuel : nat) (fl : Flags.t) (w : World.t)
    (re : Regexp.t) (o : outcome) (st : state) :
  Flags.jsonfile fl = EmptyString ->
  Regexp.MustCompile (World.regexp w)
        ("(?i)" ++ Flags.location fl)%string = Some re ->
  MainGo.main fuel fl w = Some (o, st) ->
  errors_counted MainGo.MaxErrors o st.
Proof.
  intros Hj Hre Hmain. unfold MainGo.main in Hmain.
  rewrite Hre in Hmain.
  destruct (Body.loop _ fuel init) as [s|] eqn:Hloop; [|discriminate].
  inversion Hmain as [Hfin].
  eapply post_errors_counted.
  - exact (MainGo_loop_post _ _ _ _ Hj Hloop).
  - exact (MainGo_finished _ _ _ Hfin).
  - apply (MainGo_report_keeps _ _ _ Hfin).
Qed.

(** C10.  [streamErrors] counts the failed fetches of the whole run: at
    the end of a run in HTTP mode it is the number of requests in the
    trace that were answered with an error or an empty page, whatever
    pages they were for and whatever fetches succeeded in between; the
    number never exceeds 3, and it is 3 exactly when the run ends with
    the exit code 5 (and then no file was written).  So a run survives
    at most two failed fetches.  A run of the command where the fetches
    of the pages 1, 2 and 3 each fail once, with a successful fetch of
    the pages 1 and 2 in between, ends with the exit code 5 at the third
    failure.  Every run ends: 1101 passes through the loop are enough for
    the command, 3 for [main.go]. *)
Theorem C10_retry_counter_is_per_run :
  (forall fuel fl w re o st,
      Flags.jsonfile fl = EmptyString ->
      Flags.publish fl = EmptyString \/ Flags.mdrsp fl <> EmptyString ->
      Regexp.MustCompile (World.regexp w)
        ("(?i)" ++ Flags.location fl)%string = Some re ->
      Command.main fuel fl w = Some (o, st) ->
      errors_counted 3 o st) /\
  (forall fuel fl w re o st,
      Flags.jsonfile fl = EmptyString ->
      Regexp.MustCompile (World.regexp w)
        ("(?i)" ++ Flags.location fl)%string = Some re ->
      MainGo.main fuel fl w = Some (o, st) ->
      errors_counted 3 o st) /\
  (exists st,
      Command.main 5 location_nowhere flaky_world = Some (Exit 5, st) /\
      fetches (trace st)
      = [(1, true); (1, false); (2, true); (2, false); (3, true)] /\
      streamErrors st = 3 /\ writes (trace st) = []) /\
  (forall fl w fuel,
      ((1101 <= fuel)%nat ->
       exists o st, Command.main fuel fl w = Some (o, st)) /\
      ((3 <= fuel)%nat ->
       exists o st, MainGo.main fuel fl w = Some (o, st))).
Proof.
  split; [|split; [|split]];
    [| | |intros fl w fuel; split;
          [apply Command_main_total|apply MainGo_main_total]].
  - exact Command_errors_counted.
  - exact MainGo_errors_counted.
  - eexists. split; [vm_compute; reflexivity|].
    repeat split; vm_compute; reflexivity.
Qed.

Lemma C10_witness :
  errors_counted 3 (fst limited_run) (snd limited_run) /\
  errors_counted 3 (fst failed_run) (snd failed_run) /\
  (exists o st, Command.main 1101 Flags.default flaky_world = Some (o, st)).
Proof.
  destruct C10_retry_counter_is_per_run as (Hcmd & Hgo & _ & Htotal).
  split; [|split].
  - apply (Hcmd 5%nat limit_two serving_world Regexp.AnyNotNL);
      [reflexivity|left; reflexivity|reflexivity|vm_compute; reflexivity].
  - apply (Hgo 3%nat Flags.default failing_world Regexp.AnyNotNL);
      [reflexivity|reflexivity|vm_compute; reflexivity].
  - apply (proj1 (Htotal Flags.default flaky_world 1101%nat)). lia.
Defined.

(** ** Key lookups *)

Lemma post_key_per_attempt (MaxPages : Z) (path : string) (s : step)
    (o : outcome) (st : state) :
  http_post MaxPages 3 path s ->
  finished s o st ->
  key_per_attempt path st.
Proof.
  intros [_ _ _ _ _ (atts & rest & Hkeyed & Hlen)] (ws & Ht & Hws & _).
  assert (Hk : keyed path (trace st) atts (rest ++ ws)).
  { destruct Hkeyed as (Ht0 & Hf & Hr). repeat split.
    - rewrite Ht, Ht0, app_assoc. reflexivity.
    - exact Hf.
    - apply Forall_app. split; [exact Hr|].
      apply writes_past_first_page. exact Hws. }
  pose proof (keyed_lookups Hk) as Hn.
  exists atts, (rest ++ ws). destruct Hk as (H1 & H2 & H3).
  repeat split; try assumption; lia.
Qed.

(** C6, as stated, fails: in a run whose first fetch fails, the key is
    looked up again for the retry of page 1. *)
Lemma C6_counterexample :
  exists st,
    Command.main 10 Flags.default retry_world = Some (Return, st) /\
    firstn 2 (fetches (trace st)) = [(1, true); (1, false)] /\
    key_lookups (trace st) = 2%nat /\
    key_lookups (trace st) <> 1%nat.
Proof.
  eexists. split; [vm_compute; reflexivity|].
  repeat split; try (vm_compute; reflexivity). vm_compute. discriminate.
Qed.

(** C6, amended.  In HTTP mode the key is looked up in the passes where
    [lastPage == currentPage], which are the attempts at page 1: once
    before the first fetch and once more before each retry of page 1,
    so between one and three times in a run; once the page cursor has
    advanced it is not looked up again, neither for a new page nor for a
    retry.  This holds for the command and for [main.go], whose runs all
    end (1101 and 3 passes through the loop are enough). *)
Theorem C6_key_lookup_per_attempt_at_page_1 :
  (forall fuel fl w re o st,
      Flags.jsonfile fl = EmptyString ->
      Flags.publish fl = EmptyString \/ Flags.mdrsp fl <> EmptyString ->
      Regexp.MustCompile (World.regexp w)
        ("(?i)" ++ Flags.location fl)%string = Some re ->
      Command.main fuel fl w = Some (o, st) ->
      key_per_attempt Command.APIKeyPath st) /\
  (forall fuel fl w re o st,
      Flags.jsonfile fl = EmptyString ->
      Regexp.MustCompile (World.regexp w)
        ("(?i)" ++ Flags.location fl)%string = Some re ->
      MainGo.main fuel fl w = Some (o, st) ->
      key_per_attempt MainGo.APIKeyPath st) /\
  (forall fl w fuel,
      ((1101 <= fuel)%nat ->
       exists o st, Command.main fuel fl w = Some (o, st)) /\
      ((3 <= fuel)%nat ->
       exists o st, MainGo.main fuel fl w = Some (o, st))).
Proof.
  split; [|split];
    [| |intros fl w fuel; split;
        [apply Command_main_total|apply MainGo_main_total]].
  - intros fuel fl w re o st Hj Hp Hre Hmain. unfold Command.main in Hmain.
    rewrite (publish_check fl Hp), Hre in Hmain.
    destruct (Body.loop _ fuel init) as [s|] eqn:Hloop; [|discriminate].
    inversion Hmain as [Hfin].
    eapply post_key_per_attempt.
    + exact (Command_loop_post _ _ _ _ Hj Hloop).
    + exact (Command_finished _ _ _ Hfin).
  - intros fuel fl w re o st Hj Hre Hmain. unfold MainGo.main in Hmain.
    rewrite Hre in Hmain.
    destruct (Body.loop _ fuel init) as [s|] eqn:Hloop; [|discriminate].
    inversion Hmain as [Hfin].
    eapply post_key_per_attempt.
    + exact (MainGo_loop_post _ _ _ _ Hj Hloop).
    + exact (MainGo_finished _ _ _ Hfin).
Qed.

Lemma C6_witness :
  key_per_attempt Command.APIKeyPath (snd retried_run) /\
  key_per_attempt MainGo.APIKeyPath (snd failed_run) /\
  (exists o st, Command.main 1101 Flags.default retry_world = Some (o, st)).
Proof.
  destruct C6_key_lookup_per_attempt_at_page_1 as (Hcmd & Hgo & Htotal).
  split; [|split].
  - apply (Hcmd 10%nat Flags.default retry_world Regexp.AnyNotNL
             (fst retried_run));
      [reflexivity|left; reflexivity|reflexivity|vm_compute; reflexivity].
  - apply (Hgo 3%nat Flags.default failing_world Regexp.AnyNotNL
             (fst failed_run));
      [reflexivity|reflexivity|vm_compute; reflexivity].
  - apply (proj1 (Htotal Flags.default retry_world 1101%nat)). lia.
Defined.

(** ** The page limit *)

(** C5, on the code.  After a page that the filter lets pass, the body
    sets [lastPage] to [currentPage], adds one to [currentPage] and
    leaves the loop when the new [currentPage] is at or above [MaxPages]
    (for a [MaxPages] that is not zero), when the page has no more pages
    after it, or when the stop flag is set.  With the [MaxPages] of the
    command, 1100, and a source that always has more pages, the run asks
    for the pages 1 to 1099 and never for page 1100.  In [main.go] these
    lines are not reached in HTTP mode at all: its [users] is nil when
    the filter reads it, and every run ends with the exit code 5 or a
    panic, no page filtered. *)
Theorem C5_loop_leaves_before_page_MaxPages :
  (forall MaxPages MinReputation fl re st u a out,
      users st = Some u ->
      GetUserInfo u MinReputation re (Flags.limit fl) (Flags.term fl)
        {| Filter.counter := counter st; Filter.ranks := ranks st |}
      = (true, a, out) ->
      let st' := advance (filter_done u a out st) in
      lastPage st' = currentPage st /\
      currentPage st' = GoInt.add (currentPage st) 1 /\
      Body.filter_and_advance MaxPages MinReputation fl re st
      = if ((currentPage st' >=? MaxPages) && negb (MaxPages =? 0)
            || negb (SOUsers.HasMore u) || stop st)%bool
        then Break st' else Continue st') /\
  Command.MaxPages = 1100 /\
  (exists st,
      Command.main 1101 no_limit endless_world = Some (Return, st) /\
      pages_requested (trace st) = map Z.of_nat (seq 1 1099) /\
      lastPage st = 1099 /\ currentPage st = 1100 /\
      ~ In Command.MaxPages (pages_requested (trace st))) /\
  (forall fuel fl w re o st,
      Flags.jsonfile fl = EmptyString ->
      Regexp.MustCompile (World.regexp w)
        ("(?i)" ++ Flags.location fl)%string = Some re ->
      MainGo.main fuel fl w = Some (o, st) ->
      (o = Panic \/ o = Exit 5) /\ filtered st = [] /\
      writes (trace st) = []).
Proof.
  split; [|split; [reflexivity|split; [|exact MainGo_http_never_reports]]].
  - intros MaxPages MinReputation fl re st u a out Hu Hf st'.
    unfold Body.filter_and_advance. rewrite Hu, Hf. cbn [negb].
    repeat split.
  - exists (snd endless_run).
    assert (Hpages : pages_requested (trace (snd endless_run))
                     = map Z.of_nat (seq 1 1099))
      by (vm_compute; reflexivity).
    split; [vm_compute; reflexivity|].
    split; [exact Hpages|].
    split; [vm_compute; reflexivity|].
    split; [vm_compute; reflexivity|].
    rewrite Hpages. intros Hin.
    apply in_map_iff in Hin. destruct Hin as (n & Hn & Hin).
    apply in_seq in Hin. unfold Command.MaxPages in Hn. lia.
Qed.

Lemma C5_witness :
  (let st' := advance (filter_done one_user
                         {| Filter.counter := 1;
                            Filter.ranks :=
                              [Filter.rank_of 1 (sample_user 900 "Madrid")] |}
                         [] (set_users (Some one_user) init)) in
   lastPage st' = 1 /\ currentPage st' = GoInt.add 1 1 /\
   Body.filter_and_advance 1100 500 no_limit Regexp.AnyNotNL
     (set_users (Some one_user) init)
   = Continue st') /\
  ((fst served_run = Panic \/ fst served_run = Exit 5) /\
   filtered (snd served_run) = [] /\ writes (trace (snd served_run)) = []).
Proof.
  destruct C5_loop_leaves_before_page_MaxPages as (Hstep & _ & _ & Hgo).
  split.
  - apply (Hstep 1100 500 no_limit Regexp.AnyNotNL
             (set_users (Some one_user) init) one_user
             {| Filter.counter := 1;
                Filter.ranks :=
                  [Filter.rank_of 1 (sample_user 900 "Madrid")] |} []);
      reflexivity.
  - apply (Hgo 3%nat Flags.default serving_world Regexp.AnyNotNL);
      [reflexivity|reflexivity|vm_compute; reflexivity].
Defined.

(** ** The default location *)

(** C7, as stated, fails: the default pattern is not found in the empty
    string, and a record without a location is not accepted. *)
Lemma C7_counterexample :
  exists re,
    Regexp.MustCompile (fun _ => None)
      ("(?i)" ++ Flags.location Flags.default)%string
    = Some re /\
    Regexp.MatchString re EmptyString = false /\
    GetUserInfo nameless_page Command.MinReputation re
      (Flags.limit Flags.default) false
      {| Filter.counter := 0; Filter.ranks := [] |}
    = (true, {| Filter.counter := 0; Filter.ranks := [] |}, []).
Proof.
  exists Regexp.AnyNotNL. repeat split.
Qed.

Lemma scan_accepts (MinReputation : Z) (location : Regexp.t) (limit : Z)
    (term : bool) (u : Item.t) (rest : list Item.t) (st : Filter.state) :
  MinReputation <= Item.Reputation u ->
  Regexp.MatchString location (Item.Location u) = true ->
  exists new,
    Filter.ranks
      (snd (fst (Filter.scan (u :: rest) MinReputation location limit term
                   st)))
    = Filter.ranks st
      ++ Filter.rank_of (GoInt.add (Filter.counter st) 1) u :: new.
Proof.
  intros Hrep Hm. rewrite scan_cons, Hm.
  replace (Item.Reputation u <? MinReputation) with false
    by (symmetry; apply Z.ltb_ge; exact Hrep).
  destruct ((Filter.counter (fst (Filter.accept term u st)) >=? limit)
            && negb (limit =? 0))%bool.
  - exists []. reflexivity.
  - destruct (scan_appends MinReputation location limit term rest
                (fst (Filter.accept term u st))) as [new Hnew].
    destruct (Filter.scan rest _ _ _ _ _) as [[r s] o]. cbn [fst snd] in *.
    exists new. rewrite Hnew. unfold Filter.accept. cbn [fst Filter.ranks].
    rewrite <- app_assoc. reflexivity.
Qed.

Lemma scan_skips (MinReputation : Z) (location : Regexp.t) (limit : Z)
    (term : bool) (u : Item.t) (rest : list Item.t) (st : Filter.state) :
  MinReputation <= Item.Reputation u ->
  Regexp.MatchString location (Item.Location u) = false ->
  Filter.scan (u :: rest) MinReputation location limit term st
  = Filter.scan rest MinReputation location limit term st.
Proof.
  intros Hrep Hm. rewrite scan_cons, Hm.
  replace (Item.Reputation u <? MinReputation) with false
    by (symmetry; apply Z.ltb_ge; exact Hrep).
  reflexivity.
Qed.

(** C7, amended.  The default of the location flag is [.], which is not
    found in every string: compiled after [(?i)], it is found exactly in
    the strings that hold a byte other than the newline.  So with the
    default, a record at or above the threshold is accepted when its
    location is such a string, and a record whose location is empty (or
    only newlines) is passed over, the scan going on with the next
    record. *)
Theorem C7_default_location_needs_a_character :
  Flags.location Flags.default = "." /\
  exists re,
    (forall library,
        Regexp.MustCompile library
          ("(?i)" ++ Flags.location Flags.default)%string
        = Some re) /\
    (forall s, Regexp.MatchString re s = has_non_newline s) /\
    (forall MinReputation limit term u rest st,
        MinReputation <= Item.Reputation u ->
        has_non_newline (Item.Location u) = true ->
        exists new,
          Filter.ranks
            (snd (fst (Filter.scan (u :: rest) MinReputation re limit term
                         st)))
          = Filter.ranks st
            ++ Filter.rank_of (GoInt.add (Filter.counter st) 1) u :: new) /\
    (forall MinReputation limit term u rest st,
        MinReputation <= Item.Reputation u ->
        has_non_newline (Item.Location u) = false ->
        Filter.scan (u :: rest) MinReputation re limit term st
        = Filter.scan rest MinReputation re limit term st).
Proof.
  split; [reflexivity|]. exists Regexp.AnyNotNL.
  split; [reflexivity|]. split; [exact MatchString_dot|]. split.
  - intros MinReputation limit term u rest st Hrep Hloc.
    apply scan_accepts; [exact Hrep|]. rewrite MatchString_dot. exact Hloc.
  - intros MinReputation limit term u rest st Hrep Hloc.
    apply scan_skips; [exact Hrep|]. rewrite MatchString_dot. exact Hloc.
Qed.

Lemma C7_witness :
  exists re,
    Regexp.MustCompile (fun _ => None)
      ("(?i)" ++ Flags.location Flags.default)%string
    = Some re /\
    (exists new,
        Filter.ranks
          (snd (fst (Filter.scan
                       [sample_user 900 "Madrid"; sample_user 800 EmptyString]
                       500 re 20 false
                       {| Filter.counter := 0; Filter.ranks := [] |})))
        = [] ++ Filter.rank_of (GoInt.add 0 1) (sample_user 900 "Madrid")
             :: new) /\
    Filter.scan [sample_user 800 EmptyString; sample_user 700 "Rome"]
      500 re 20 false {| Filter.counter := 0; Filter.ranks := [] |}
    = Filter.scan [sample_user 700 "Rome"]
        500 re 20 false {| Filter.counter := 0; Filter.ranks := [] |}.
Proof.
  destruct (proj2 C7_default_location_needs_a_character)
    as (re & Hre & Hdot & Hacc & Hskip).
  exists re. split; [exact (Hre (fun _ => None))|]. split.
  - apply (Hacc 500 20 false (sample_user 900 "Madrid")
             [sample_user 800 EmptyString]
             {| Filter.counter := 0; Filter.ranks := [] |}).
    + simpl. lia.
    + reflexivity.
  - apply (Hskip 500 20 false (sample_user 800 EmptyString)
             [sample_user 700 "Rome"]
             {| Filter.counter := 0; Filter.ranks := [] |}).
    + simpl. lia.
    + reflexivity.
Defined.

(** ** The JSON report read back *)

Lemma in_int_range (z : Z) : GoInt.in_range z -> Codec.in_int z = true.
Proof.
  unfold GoInt.in_range, Codec.in_int. intros [H1 H2].
  apply andb_true_iff. split; apply Z.leb_le; assumption.
Qed.

Lemma unmarshal_marshal_rank (r : SOUserRank.t) :
  Codec.rank_ok r -> Codec.unmarshal_rank (Codec.marshal_rank r) = Some r.
Proof.
  destruct r as [rk ac dn rp lo wu li pi].
  unfold Codec.rank_ok, UTF8.well_formed.
  cbn [SOUserRank.Rank SOUserRank.AccountID SOUserRank.Reputation
       SOUserRank.DisplayName SOUserRank.Location SOUserRank.WebsiteURL
       SOUserRank.Link SOUserRank.ProfileImage].
  intros (Hrk & Hac & Hrp & Hdn & Hlo' & Hwu' & Hli & Hpi).
  apply in_int_range in Hrk, Hac, Hrp.
  unfold Codec.marshal_rank, Codec.omitempty.
  cbn [SOUserRank.Rank SOUserRank.AccountID SOUserRank.DisplayName
       SOUserRank.Reputation SOUserRank.Location SOUserRank.WebsiteURL
       SOUserRank.Link SOUserRank.ProfileImage].
  rewrite Hdn, Hlo', Hwu', Hli, Hpi.
  cbn [SOUserRank.Rank SOUserRank.AccountID SOUserRank.DisplayName
       SOUserRank.Reputation SOUserRank.Location SOUserRank.WebsiteURL
       SOUserRank.Link SOUserRank.ProfileImage].
  destruct (String.eqb_spec lo EmptyString) as [->|Hlo];
    destruct (String.eqb_spec wu EmptyString) as [->|Hwu];
    cbn [app Codec.unmarshal_rank Codec.unmarshal_members];
    repeat (match goal with
            | |- context [Codec.field_of ?n] =>
                let f := eval vm_compute in (Codec.field_of n) in
                change (Codec.field_of n) with f
            end);
    cbn [Codec.store Codec.zero Codec.set_int Codec.set_string
         Codec.unmarshal_members];
    rewrite ?Hrk, ?Hac, ?Hrp;
    cbn [Codec.store Codec.zero Codec.set_int Codec.set_string
         Codec.unmarshal_members];
    rewrite ?Hrk, ?Hac, ?Hrp;
    cbn [Codec.store Codec.zero Codec.set_int Codec.set_string
         Codec.unmarshal_members];
    rewrite ?Hrk, ?Hac, ?Hrp; reflexivity.
Qed.

Lemma unmarshal_marshal_elems (ranks : Ranks) :
  Forall Codec.rank_ok ranks ->
  Codec.unmarshal_elems (map Codec.marshal_rank ranks) = Some ranks.
Proof.
  induction 1 as [|r ranks Hr _ IH]; [reflexivity|].
  cbn [map Codec.unmarshal_elems].
  rewrite (unmarshal_marshal_rank Hr), IH. reflexivity.
Qed.

(** C8.  Encoding a Result List as the JSON writer does and decoding the
    document into a fresh [Ranks] gives the list back, entry by entry and
    field by field, the entries whose location or website is empty (and
    so left out of the document) included.  The entries are those the
    program builds from decoded pages: integers of Go's [int] and strings
    of well-formed UTF-8. *)
Theorem C8_json_round_trip :
  forall ranks : Ranks,
    Forall Codec.rank_ok ranks ->
    Codec.Unmarshal (Codec.Marshal ranks) = Some ranks.
Proof.
  intros ranks Hok. destruct ranks as [|r ranks]; [reflexivity|].
  unfold Codec.Marshal, Codec.Unmarshal.
  apply unmarshal_marshal_elems. exact Hok.
Qed.

Lemma C8_witness :
  Codec.Unmarshal (Codec.Marshal sample_ranks) = Some sample_ranks.
Proof.
  apply (@C8_json_round_trip sample_ranks).
  repeat constructor; vm_compute; (reflexivity || discriminate).
Defined.

(** ** The rank filter, case by case *)

Section FilterCases.
Variable MinReputation : Z.
Variable location : Regexp.t.
#[local] Arguments Filter.accept : simpl never.

Lemma scan_at_limit (limit : Z) (term : bool) (items : list Item.t) (st : Filter.state) :
  limit <> 0 -> limit <= Filter.counter st < GoInt.int_max -> 0 <= Filter.counter st ->
  fst (Filter.scan items MinReputation location limit term st)
  = match Expected.qualifying MinReputation location items with
    | [] => (negb (Expected.under_threshold MinReputation items), st)
    | u :: _ =>
        (false,
         {| Filter.counter := Filter.counter st + 1;
            Filter.ranks :=
              Filter.ranks st ++ [Filter.rank_of (Filter.counter st + 1) u] |})
    end.
Proof.
  intros Hl Hc H0. induction items as [|u items IH].
  - reflexivity.
  - rewrite scan_cons. unfold Expected.qualifying in *.
    simpl Expected.before_threshold. simpl Expected.under_threshold.
    destruct (Item.Reputation u <? MinReputation) eqn:Hu; [reflexivity|].
    simpl filter.
    destruct (Regexp.MatchString location (Item.Location u)) eqn:Hm.
    + unfold Filter.accept; cbn [fst snd Filter.counter Filter.ranks].
      rewrite succ_no_wrap by lia.
      replace (Filter.counter st + 1 >=? limit) with true
        by (symmetry; rewrite Z.geb_leb; apply Z.leb_le; lia).
      replace (negb (limit =? 0)) with true
        by (symmetry; apply negb_true_iff, Z.eqb_neq; lia).
      reflexivity.
    + rewrite IH. cbn [orb]. reflexivity.
Qed.

Lemma sorted_bound (u : Item.t) (rest : list Item.t) :
  non_increasing (u :: rest) = true ->
  Forall (fun v => Item.Reputation v <= Item.Reputation u) rest.
Proof.
  revert u. induction rest as [|v rest IH]; intros u H; constructor.
  - cbn in H. apply andb_true_iff in H. destruct H as [H _].
    apply Z.leb_le in H. exact H.
  - cbn [non_increasing] in H. apply andb_true_iff in H. destruct H as [H1 H2].
    apply Z.leb_le in H1.
    specialize (IH v H2). eapply Forall_impl; [|exact IH].
    cbn. intros. lia.
Qed.

Lemma sorted_tail (u : Item.t) (rest : list Item.t) :
  non_increasing (u :: rest) = true -> non_increasing rest = true.
Proof.
  destruct rest as [|v rest]; [reflexivity|].
  cbn [non_increasing]. intros H. apply andb_true_iff in H. apply H.
Qed.

Lemma filter_none (A : Type) (f : A -> bool) (l : list A) :
  Forall (fun x => f x = false) l -> filter f l = [].
Proof.
  induction 1 as [|x l Hx _ IH]; [reflexivity|].
  simpl. rewrite Hx. exact IH.
Qed.

Lemma sorted_qualifying (items : list Item.t) :
  non_increasing items = true ->
  Expected.qualifying MinReputation location items
  = filter (wanted MinReputation location) items /\
  Expected.under_threshold MinReputation items
  = negb (forallb (fun u => MinReputation <=? Item.Reputation u) items).
Proof.
  induction items as [|u items IH]; intros Hs; [split; reflexivity|].
  pose proof (@sorted_bound u items Hs) as Hb.
  specialize (IH (@sorted_tail u items Hs)). destruct IH as [IH1 IH2].
  unfold Expected.qualifying in *. simpl Expected.before_threshold.
  simpl Expected.under_threshold. simpl filter. simpl forallb.
  unfold wanted at 1.
  destruct (Item.Reputation u <? MinReputation) eqn:Hu.
  - apply Z.ltb_lt in Hu.
    replace (MinReputation <=? Item.Reputation u) with false
      by (symmetry; apply Z.leb_gt; lia).
    split; [|reflexivity]. cbn [andb filter]. symmetry.
    apply filter_none. eapply Forall_impl; [|exact Hb].
    cbn. intros v Hv. unfold wanted.
    replace (MinReputation <=? Item.Reputation v) with false
      by (symmetry; apply Z.leb_gt; lia).
    reflexivity.
  - apply Z.ltb_ge in Hu.
    replace (MinReputation <=? Item.Reputation u) with true
      by (symmetry; apply Z.leb_le; lia).
    cbn [andb orb]. split; [|exact IH2].
    simpl filter. rewrite IH1. reflexivity.
Qed.



(** What a call appends are projections of wanted records of the page;
    a call that appends nothing leaves the counter and prints nothing. *)
Lemma scan_new (limit : Z) (term : bool) (items : list Item.t)
    (st : Filter.state) :
  exists new,
    Filter.ranks
      (snd (fst (Filter.scan items MinReputation location limit term st)))
    = Filter.ranks st ++ new /\
    Forall (taken_from MinReputation location items) new /\
    (new = [] ->
     Filter.counter
       (snd (fst (Filter.scan items MinReputation location limit term st)))
     = Filter.counter st).
Proof.
  revert st. induction items as [|u items IH]; intros st.
  - exists []. cbn. rewrite app_nil_r. auto.
  - assert (Hmono : forall new,
               Forall (taken_from MinReputation location items) new ->
               Forall (taken_from MinReputation location (u :: items)) new).
    { intros new. apply Forall_impl. intros r (v & Hin & Hr & Hw).
      exists v. split; [right; exact Hin|auto]. }
    rewrite scan_cons.
    destruct (Item.Reputation u <? MinReputation) eqn:Hu.
    { exists []. cbn. rewrite app_nil_r. auto. }
    destruct (Regexp.MatchString location (Item.Location u)) eqn:Hm.
    2:{ destruct (IH st) as (new & H1 & H2 & H3).
        exists new. repeat split; auto. }
    assert (Htaken : taken_from MinReputation location (u :: items)
                       (Filter.rank_of (GoInt.add (Filter.counter st) 1) u)).
    { exists u. split; [left; reflexivity|]. split; [reflexivity|].
      unfold wanted. rewrite Hm, andb_true_r.
      apply Z.ltb_ge in Hu. apply Z.leb_le. exact Hu. }
    unfold Filter.accept; cbn [fst snd Filter.counter Filter.ranks].
    destruct ((GoInt.add (Filter.counter st) 1 >=? limit)
              && negb (limit =? 0))%bool.
    { eexists. cbn [fst snd Filter.ranks]. split; [reflexivity|].
      split; [repeat constructor; exact Htaken|discriminate]. }
    destruct (IH {| Filter.counter := GoInt.add (Filter.counter st) 1;
                    Filter.ranks :=
                      Filter.ranks st
                      ++ [Filter.rank_of (GoInt.add (Filter.counter st) 1) u] |})
      as (new & H1 & H2 & H3); cbn [Filter.counter Filter.ranks] in *.
    destruct (Filter.scan items _ _ _ _ _) as [[r s] o]. cbn [fst snd] in *.
    exists (Filter.rank_of (GoInt.add (Filter.counter st) 1) u :: new).
    rewrite H1, <- app_assoc. split; [reflexivity|].
    split; [constructor; [exact Htaken|apply Hmono; exact H2]|discriminate].
Qed.

End FilterCases.

(** X1.  Without a limit ([limit] 0), a call of the rank filter appends
    exactly the qualifying records of the page (at or above the
    threshold, in front of every record under it, with a location the
    pattern is found in), in the order of the page, numbered from the
    counter on; it adds their number to the counter and returns true
    exactly when no record of the page is under the threshold.  The
    counter stays an [int]. *)
Theorem X1_no_limit_takes_every_qualifying_record :
  forall (users : SOUsers.t) MinReputation location term st,
    0 <= Filter.counter st ->
    Filter.counter st
    + Z.of_nat (length (Expected.qualifying MinReputation location
                          (SOUsers.Items users)))
      <= GoInt.int_max ->
    fst (GetUserInfo users MinReputation location 0 term st)
    = (negb (Expected.under_threshold MinReputation (SOUsers.Items users)),
       {| Filter.counter :=
            Filter.counter st
            + Z.of_nat (length (Expected.qualifying MinReputation location
                                  (SOUsers.Items users)));
          Filter.ranks :=
            Filter.ranks st
            ++ Expected.numbered (Filter.counter st)
                 (Expected.qualifying MinReputation location
                    (SOUsers.Items users)) |}).
Proof.
  intros users MinReputation location term st H0 Hmax.
  unfold GetUserInfo. apply scan_unlimited; assumption.
Qed.

Lemma X1_witness :
  fst (GetUserInfo sample_page 500 Regexp.AnyNotNL 0 true
         {| Filter.counter := 0; Filter.ranks := [] |})
  = (negb (Expected.under_threshold 500 (SOUsers.Items sample_page)),
     {| Filter.counter :=
          0 + Z.of_nat (length (Expected.qualifying 500 Regexp.AnyNotNL
                                  (SOUsers.Items sample_page)));
        Filter.ranks :=
          [] ++ Expected.numbered 0
                  (Expected.qualifying 500 Regexp.AnyNotNL
                     (SOUsers.Items sample_page)) |}).
Proof.
  apply (X1_no_limit_takes_every_qualifying_record sample_page 500
           Regexp.AnyNotNL true {| Filter.counter := 0; Filter.ranks := [] |}).
  - simpl. lia.
  - vm_compute. discriminate.
Defined.

(** X2.  With a limit above the counter, a call of the rank filter
    appends the first qualifying records of the page, as many as fit
    under the limit, numbered from the counter on; it returns true
    exactly when the page has no record under the threshold and its
    qualifying records leave the counter under the limit. *)
Theorem X2_limit_takes_the_first_qualifying_records :
  forall (users : SOUsers.t) MinReputation location limit term st,
    0 <= Filter.counter st < limit ->
    limit <= GoInt.int_max ->
    fst (GetUserInfo users MinReputation location limit term st)
    = (negb ((limit <=? Filter.counter st
                        + Z.of_nat
                            (length (Expected.qualifying MinReputation
                                       location (SOUsers.Items users))))
             || Expected.under_threshold MinReputation (SOUsers.Items users)),
       {| Filter.counter :=
            Filter.counter st
            + Z.of_nat (room MinReputation location limit (Filter.counter st)
                          (SOUsers.Items users));
          Filter.ranks :=
            Filter.ranks st
            ++ Expected.numbered (Filter.counter st)
                 (firstn (room MinReputation location limit
                            (Filter.counter st) (SOUsers.Items users))
                    (Expected.qualifying MinReputation location
                       (SOUsers.Items users))) |}).
Proof.
  intros users MinReputation location limit term st Hc Hmax.
  unfold GetUserInfo. apply scan_limited; [lia|assumption|assumption].
Qed.

Lemma X2_witness :
  fst (GetUserInfo three_users 500 Regexp.AnyNotNL 2 false
         {| Filter.counter := 0; Filter.ranks := [] |})
  = (negb ((2 <=? 0 + Z.of_nat
                        (length (Expected.qualifying 500 Regexp.AnyNotNL
                                   (SOUsers.Items three_users))))
           || Expected.under_threshold 500 (SOUsers.Items three_users)),
     {| Filter.counter :=
          0 + Z.of_nat (room 500 Regexp.AnyNotNL 2 0
                          (SOUsers.Items three_users));
        Filter.ranks :=
          [] ++ Expected.numbered 0
                  (firstn (room 500 Regexp.AnyNotNL 2 0
                             (SOUsers.Items three_users))
                     (Expected.qualifying 500 Regexp.AnyNotNL
                        (SOUsers.Items three_users))) |}).
Proof.
  apply (X2_limit_takes_the_first_qualifying_records three_users 500
           Regexp.AnyNotNL false
           {| Filter.counter := 0; Filter.ranks := [] |}).
  - simpl. lia.
  - vm_compute. discriminate.
Defined.

(** X3.  The limit is tested after a record has been accepted.  A call
    with a limit other than 0 that the counter has already reached, as
    with every negative limit, still accepts the first qualifying record
    of the page and returns false right after it; when the page has no
    qualifying record it leaves the state as it was and returns true
    exactly when no record is under the threshold. *)
Theorem X3_limit_already_reached_takes_one_record :
  forall (users : SOUsers.t) MinReputation location limit term st,
    limit <> 0 ->
    limit <= Filter.counter st ->
    0 <= Filter.counter st < GoInt.int_max ->
    fst (GetUserInfo users MinReputation location limit term st)
    = match Expected.qualifying MinReputation location
              (SOUsers.Items users) with
      | [] =>
          (negb (Expected.under_threshold MinReputation
                   (SOUsers.Items users)), st)
      | u :: _ =>
          (false,
           {| Filter.counter := Filter.counter st + 1;
              Filter.ranks :=
                Filter.ranks st
                ++ [Filter.rank_of (Filter.counter st + 1) u] |})
      end.
Proof.
  intros users MinReputation location limit term st Hl Hc H0.
  unfold GetUserInfo. apply scan_at_limit; lia.
Qed.

Lemma X3_witness :
  fst (GetUserInfo three_users 500 Regexp.AnyNotNL (-1) false
         {| Filter.counter := 0; Filter.ranks := [] |})
  = match Expected.qualifying 500 Regexp.AnyNotNL
            (SOUsers.Items three_users) with
    | [] =>
        (negb (Expected.under_threshold 500 (SOUsers.Items three_users)),
         {| Filter.counter := 0; Filter.ranks := [] |})
    | u :: _ =>
        (false,
         {| Filter.counter := 0 + 1;
            Filter.ranks := [] ++ [Filter.rank_of (0 + 1) u] |})
    end.
Proof.
  apply (X3_limit_already_reached_takes_one_record three_users 500
           Regexp.AnyNotNL false
           {| Filter.counter := 0; Filter.ranks := [] |}).
  - discriminate.
  - simpl. lia.
  - vm_compute. split; [discriminate|reflexivity].
Defined.

(** X4.  On a page whose reputations do not go up, stopping at the first
    record under the threshold loses nothing: without a limit, a call
    appends every record of the page that is at or above the threshold
    and whose location the pattern is found in, and returns true exactly
    when every record of the page is at or above the threshold. *)
Theorem X4_sorted_page_loses_no_record :
  forall (users : SOUsers.t) MinReputation location term st,
    non_increasing (SOUsers.Items users) = true ->
    0 <= Filter.counter st ->
    Filter.counter st + Z.of_nat (length (SOUsers.Items users))
      <= GoInt.int_max ->
    fst (GetUserInfo users MinReputation location 0 term st)
    = (forallb (fun u => MinReputation <=? Item.Reputation u)
         (SOUsers.Items users),
       {| Filter.counter :=
            Filter.counter st
            + Z.of_nat (length (filter (wanted MinReputation location)
                                  (SOUsers.Items users)));
          Filter.ranks :=
            Filter.ranks st
            ++ Expected.numbered (Filter.counter st)
                 (filter (wanted MinReputation location)
                    (SOUsers.Items users)) |}).
Proof.
  intros users MinReputation location term st Hs H0 Hmax.
  destruct (@sorted_qualifying MinReputation location (SOUsers.Items users) Hs)
    as [Hq Hu].
  unfold GetUserInfo. rewrite scan_unlimited.
  - rewrite Hq, Hu, negb_involutive. reflexivity.
  - exact H0.
  - rewrite Hq.
    pose proof (filter_length_le (wanted MinReputation location)
                  (SOUsers.Items users)).
    lia.
Qed.

Lemma X4_witness :
  fst (GetUserInfo sample_page 500 Regexp.AnyNotNL 0 false
         {| Filter.counter := 0; Filter.ranks := [] |})
  = (forallb (fun u => 500 <=? Item.Reputation u) (SOUsers.Items sample_page),
     {| Filter.counter :=
          0 + Z.of_nat (length (filter (wanted 500 Regexp.AnyNotNL)
                                  (SOUsers.Items sample_page)));
        Filter.ranks :=
          [] ++ Expected.numbered 0
                  (filter (wanted 500 Regexp.AnyNotNL)
                     (SOUsers.Items sample_page)) |}).
Proof.
  apply (X4_sorted_page_loses_no_record sample_page 500 Regexp.AnyNotNL
           false {| Filter.counter := 0; Filter.ranks := [] |}).
  - reflexivity.
  - simpl. lia.
  - vm_compute. discriminate.
Defined.



(** X6.  At the end of every run of the command and of [main.go], each
    entry of the Result List is the projection of a record of a page
    that was handed to the rank filter, a record at or above the minimum
    reputation of the program (500 and 400) whose location the compiled
    pattern is found in: nothing else gets into the list. *)
Theorem X6_every_entry_is_a_wanted_record :
  (forall fuel fl w re o st,
      Regexp.MustCompile (World.regexp w)
        ("(?i)" ++ Flags.location fl)%string = Some re ->
      Command.main fuel fl w = Some (o, st) ->
      Forall (taken_from 500 re (Expected.records (filtered st)))
        (ranks st)) /\
  (forall fuel fl w re o st,
      Regexp.MustCompile (World.regexp w)
        ("(?i)" ++ Flags.location fl)%string = Some re ->
      MainGo.main fuel fl w = Some (o, st) ->
      Forall (taken_from 400 re (Expected.records (filtered st)))
        (ranks st)).
Proof.
  split; intros fuel fl w re o st Hre Hmain.
  - destruct (Command_main_view _ _ _ Hre Hmain) as [rep Hv].
    unfold view, current in Hv.
    destruct (@scan_new Command.MinReputation re (Flags.limit fl)
                (Flags.term fl) (Expected.records (filtered st))
                {| Filter.counter := 0; Filter.ranks := [] |})
      as (new & Hr & Hall & _).
    rewrite Hv in Hr. cbn [fst snd Filter.ranks app] in Hr.
    rewrite Hr. exact Hall.
  - destruct (MainGo_main_view _ _ _ Hre Hmain) as [rep Hv].
    unfold view, current in Hv.
    destruct (@scan_new MainGo.MinReputation re (Flags.limit fl)
                (Flags.term fl) (Expected.records (filtered st))
                {| Filter.counter := 0; Filter.ranks := [] |})
      as (new & Hr & Hall & _).
    rewrite Hv in Hr. cbn [fst snd Filter.ranks app] in Hr.
    rewrite Hr. exact Hall.
Qed.

Lemma X6_witness :
  Forall (taken_from 500 Regexp.AnyNotNL
            (Expected.records (filtered (snd limited_run))))
    (ranks (snd limited_run)) /\
  Forall (taken_from 400 Regexp.AnyNotNL
            (Expected.records (filtered (snd file_run))))
    (ranks (snd file_run)).
Proof.
  split.
  - apply (proj1 X6_every_entry_is_a_wanted_record 5%nat limit_two
             serving_world Regexp.AnyNotNL (fst limited_run)
             (snd limited_run)).
    + reflexivity.
    + vm_compute. reflexivity.
  - apply (proj2 X6_every_entry_is_a_wanted_record 3%nat from_file_limit_two
             file_world Regexp.AnyNotNL (fst file_run) (snd file_run)).
    + reflexivity.
    + vm_compute. reflexivity.
Defined.

(** ** How a run ends *)

Lemma Command_main_cases (fuel : nat) (fl : Flags.t) (w : World.t)
    (o : outcome) (st : state) :
  Command.main fuel fl w = Some (o, st) ->
  (o = Exit 5 /\
   st = say (Console.Error "Publish requires mdrsp!!") init) \/
  (o = Panic /\ st = init) \/
  exists re s,
    Regexp.MustCompile (World.regexp w)
      ("(?i)" ++ Flags.location fl)%string = Some re /\
    Body.loop (Command.iteration fl w re) fuel init = Some s /\
    Command.finish fl w s = (o, st).
Proof.
  unfold Command.main. intros H.
  destruct (negb _ && _)%bool.
  { left. inversion H; subst. split; reflexivity. }
  destruct (Regexp.MustCompile _ _) as [re|].
  2:{ right. left. inversion H; subst. split; reflexivity. }
  destruct (Body.loop _ fuel init) as [s|] eqn:Hloop; [|discriminate].
  right. right. exists re, s. inversion H. auto.
Qed.

Lemma MainGo_main_cases (fuel : nat) (fl : Flags.t) (w : World.t)
    (o : outcome) (st : state) :
  MainGo.main fuel fl w = Some (o, st) ->
  (o = Panic /\ st = init) \/
  exists re s,
    Regexp.MustCompile (World.regexp w)
      ("(?i)" ++ Flags.location fl)%string = Some re /\
    Body.loop (MainGo.iteration fl w re) fuel init = Some s /\
    MainGo.finish fl w s = (o, st).
Proof.
  unfold MainGo.main. intros H.
  destruct (Regexp.MustCompile _ _) as [re|].
  2:{ left. inversion H; subst. split; reflexivity. }
  destruct (Body.loop _ fuel init) as [s|] eqn:Hloop; [|discriminate].
  right. exists re, s. inversion H. auto.
Qed.

(** What the lines after the loop do, from the state [st0] the loop was
    left in. *)
Lemma Command_report_writes (fl : Flags.t) (w : World.t) (st0 : state)
    (o : outcome) (st : state) :
  Command.report fl w st0 = (o, st) ->
  exists done more,
    trace st = trace st0 ++ done /\
    Command_reports fl (ranks st0) = done ++ more /\
    (o = Return -> more = [] /\ counter st0 <> 0 /\
       console st
       = console st0 ++ [Console.PagesRequested (lastPage st0);
                         Console.UsersFound (counter st0)]) /\
    (forall c, o = Exit c ->
       c = 0 /\ counter st0 = 0 /\ done = [] /\
       console st = console st0 ++ [Console.Warning "No results found."]).
Proof.
  unfold Command.report, Command.lib_DumpJson, Command.lib_DumpMarkdown,
    Command_reports.
  intros H.
  destruct (Z.eqb_spec (counter st0) 0) as [Hc|Hc].
  { inversion H; subst. exists [], (Command_reports fl (ranks st0)).
    simpl_state. rewrite app_nil_r.
    split; [reflexivity|]. split; [reflexivity|].
    split; [discriminate|]. intros c Hx. inversion Hx. auto. }
  destruct (Flags.jsonrsp fl =? EmptyString)%string;
    destruct (Flags.mdrsp fl =? EmptyString)%string;
    destruct (Flags.publish fl =? EmptyString)%string;
    destruct (World.creatable w (Flags.jsonrsp fl));
    destruct (World.creatable w (Flags.mdrsp fl));
    inversion H; subst; simpl_state; rewrite <- ?app_assoc;
    cbn [app];
    first
      [ (eexists; exists [];
         split; [first [reflexivity|symmetry; apply app_nil_r]|];
         split; [first [reflexivity|symmetry; apply app_nil_r]|];
         split; [intros _; split; [reflexivity|split; [exact Hc|reflexivity]]|discriminate])
      | (exists []; eexists;
         split; [symmetry; apply app_nil_r|]; split; [reflexivity|];
         split; discriminate)
      | (eexists; eexists;
         split; [reflexivity|]; split; [cbn [app]; reflexivity|];
         split; discriminate) ].
Qed.

Lemma MainGo_report_writes (fl : Flags.t) (w : World.t) (st0 : state)
    (o : outcome) (st : state) :
  MainGo.report fl w st0 = (o, st) ->
  exists done more,
    trace st = trace st0 ++ done /\
    MainGo_reports fl (ranks st0) = done ++ more /\
    (o = Return -> more = [] /\ counter st0 <> 0 /\
       console st
       = console st0 ++ [Console.PagesRequested (lastPage st0);
                         Console.UsersFound (counter st0)]) /\
    (forall c, o = Exit c ->
       c = 0 /\ counter st0 = 0 /\ done = [] /\
       console st = console st0 ++ [Console.Warning "No results found."]).
Proof.
  unfold MainGo.report, MainGo.DumpJson, MainGo.DumpMarkdown,
    MainGo_reports.
  intros H.
  destruct (Z.eqb_spec (counter st0) 0) as [Hc|Hc].
  { inversion H; subst. exists [], (MainGo_reports fl (ranks st0)).
    simpl_state. rewrite app_nil_r.
    split; [reflexivity|]. split; [reflexivity|].
    split; [discriminate|]. intros c Hx. inversion Hx. auto. }
  destruct (Flags.jsonrsp fl =? EmptyString)%string;
    destruct (Flags.mdrsp fl =? EmptyString)%string;
    destruct (World.creatable w (Flags.jsonrsp fl));
    destruct (World.creatable w (Flags.mdrsp fl));
    inversion H; subst; simpl_state; rewrite <- ?app_assoc;
    cbn [app];
    first
      [ (eexists; exists [];
         split; [first [reflexivity|symmetry; apply app_nil_r]|];
         split; [first [reflexivity|symmetry; apply app_nil_r]|];
         split; [intros _; split; [reflexivity|split; [exact Hc|reflexivity]]|discriminate])
      | (exists []; eexists;
         split; [symmetry; apply app_nil_r|]; split; [reflexivity|];
         split; discriminate)
      | (eexists; eexists;
         split; [reflexivity|]; split; [cbn [app]; reflexivity|];
         split; discriminate) ].
Qed.

Lemma writes_app (t1 t2 : list event) :
  writes (t1 ++ t2) = writes t1 ++ writes t2.
Proof. apply filter_app. Qed.

Lemma writes_only_writes (ws : list event) :
  writes_only ws -> writes ws = ws.
Proof.
  induction 1 as [|e ws He _ IH]; [reflexivity|].
  unfold writes in *. simpl. rewrite He, IH. reflexivity.
Qed.

Lemma Command_reports_writes_only (fl : Flags.t) (rs : Ranks) :
  writes_only (Command_reports fl rs).
Proof.
  unfold Command_reports, writes_only.
  destruct (Flags.jsonrsp fl =? EmptyString)%string;
    destruct (Flags.mdrsp fl =? EmptyString)%string;
    destruct (Flags.publish fl =? EmptyString)%string;
    repeat constructor.
Qed.

Lemma MainGo_reports_writes_only (fl : Flags.t) (rs : Ranks) :
  writes_only (MainGo_reports fl rs).
Proof.
  unfold MainGo_reports, writes_only.
  destruct (Flags.jsonrsp fl =? EmptyString)%string;
    destruct (Flags.mdrsp fl =? EmptyString)%string;
    repeat constructor.
Qed.

Section Finish.

Variable report : state -> outcome * state.
Variable reports : Ranks -> list event.

Hypothesis report_keeps :
  forall st0 o st, report st0 = (o, st) ->
    counter st = counter st0 /\ ranks st = ranks st0 /\
    lastPage st = lastPage st0.
Hypothesis report_writes :
  forall st0 o st, report st0 = (o, st) ->
    exists done more,
      trace st = trace st0 ++ done /\
      reports (ranks st0) = done ++ more /\
      (o = Return -> more = [] /\ counter st0 <> 0 /\
         console st
         = console st0 ++ [Console.PagesRequested (lastPage st0);
                           Console.UsersFound (counter st0)]) /\
      (forall c, o = Exit c ->
         c = 0 /\ counter st0 = 0 /\ done = [] /\
         console st = console st0 ++ [Console.Warning "No results found."]).
Hypothesis reports_writes_only : forall rs, writes_only (reports rs).

(** What the lines after the loop do, after a loop that left no write in
    the trace. *)
Lemma finish_reported (s : step) (o : outcome) (st : state) :
  writes (trace (state_of s)) = [] ->
  match s with Exited c _ => c = 5 | _ => True end ->
  match s with
  | Exited c st0 => (Exit c, st0)
  | Panicked st0 => (Panic, st0)
  | Break st0 | Continue st0 => report st0
  end = (o, st) ->
  reported reports o st.
Proof.
  intros Hw Hc Hfin. unfold reported.
  assert (Hquiet : st = state_of s -> o <> Return -> o <> Exit 0 ->
                   reported reports o st).
  { intros -> H1 H2. unfold reported. rewrite Hw. eexists.
    split; [reflexivity|]. split; intros; contradiction. }
  assert (Hreport : forall st0, state_of s = st0 ->
            report st0 = (o, st) -> reported reports o st).
  { intros st0 Hs0 Hrep. rewrite Hs0 in *.
    destruct (report_keeps Hrep) as (Hcnt & Hr & Hl).
    destruct (report_writes Hrep)
      as (done & more & Ht & Hreps & Hret & Hexit).
    assert (Hdone : writes done = done).
    { apply writes_only_writes.
      pose proof (reports_writes_only (ranks st0)) as Hall.
      rewrite Hreps in Hall. unfold writes_only in *.
      apply Forall_app in Hall. apply Hall. }
    exists more. rewrite Ht, writes_app, Hw, Hdone, Hr, Hcnt, Hl. cbn [app].
    split; [exact Hreps|]. split.
    - intros Ho. destruct (Hret Ho) as (H1 & H2 & H3).
      split; [exact H1|]. split; [exact H2|]. eexists. exact H3.
    - intros Ho. destruct (Hexit 0 Ho) as (_ & H2 & H3 & H4).
      split; [exact H2|]. split; [exact H3|]. eexists. exact H4. }
  destruct s as [st0|st0|c st0|st0]; cbn [state_of] in *.
  - apply (Hreport st0 eq_refl Hfin).
  - apply (Hreport st0 eq_refl Hfin).
  - inversion Hfin; subst. apply Hquiet; [reflexivity|discriminate|discriminate].
  - inversion Hfin; subst. apply Hquiet; [reflexivity|discriminate|discriminate].
Qed.

End Finish.

Lemma Command_report_same (fl : Flags.t) (w : World.t) (st0 : state)
    (o : outcome) (st : state) :
  Command.report fl w st0 = (o, st) ->
  counter st = counter st0 /\ ranks st = ranks st0 /\
  lastPage st = lastPage st0.
Proof.
  intros H.
  destruct (@Command_report_keeps fl w (Break st0) o st H)
    as (H1 & H2 & _ & _ & H3 & _).
  auto.
Qed.

Lemma MainGo_report_same (fl : Flags.t) (w : World.t) (st0 : state)
    (o : outcome) (st : state) :
  MainGo.report fl w st0 = (o, st) ->
  counter st = counter st0 /\ ranks st = ranks st0 /\
  lastPage st = lastPage st0.
Proof.
  intros H.
  destruct (@MainGo_report_keeps fl w (Break st0) o st H)
    as (H1 & H2 & _ & _ & H3 & _).
  auto.
Qed.

(** Every run of the command ends as [reported] says. *)
Lemma Command_reported (fuel : nat) (fl : Flags.t) (w : World.t)
    (o : outcome) (st : state) :
  Command.main fuel fl w = Some (o, st) ->
  reported (Command_reports fl) o st.
Proof.
  intros Hmain.
  destruct (Command_main_cases _ _ _ Hmain)
    as [(Ho & Hst)|[(Ho & Hst)|(re & s & _ & Hloop & Hfin)]].
  - unfold reported. rewrite Hst, Ho. eexists. split; [reflexivity|].
    split; discriminate.
  - unfold reported. rewrite Hst, Ho. eexists. split; [reflexivity|].
    split; discriminate.
  - destruct (Command_loop_no_write _ _ _ _ Hloop) as [Hw Hc].
    apply no_write_writes in Hw.
    eapply finish_reported with (report := Command.report fl w) (s := s);
      try eassumption.
    + apply Command_report_same.
    + apply Command_report_writes.
    + apply Command_reports_writes_only.
Qed.

Lemma MainGo_reported (fuel : nat) (fl : Flags.t) (w : World.t)
    (o : outcome) (st : state) :
  MainGo.main fuel fl w = Some (o, st) ->
  reported (MainGo_reports fl) o st.
Proof.
  intros Hmain.
  destruct (MainGo_main_cases _ _ _ Hmain)
    as [(Ho & Hst)|(re & s & _ & Hloop & Hfin)].
  - unfold reported. rewrite Hst, Ho. eexists. split; [reflexivity|].
    split; discriminate.
  - destruct (MainGo_loop_no_write _ _ _ _ Hloop) as [Hw Hc].
    apply no_write_writes in Hw.
    eapply finish_reported with (report := MainGo.report fl w) (s := s);
      try eassumption.
    + apply MainGo_report_same.
    + apply MainGo_report_writes.
    + apply MainGo_reports_writes_only.
Qed.

(** X7.  A run of the command or of [main.go] ends by [os.Exit(0)] only
    through the test [counter == 0] after the loop: the counter is 0,
    the last line on the console is the warning that nothing was found,
    no report was written, and the Result List is empty (its length
    being an [int]).  A run that returns from [main] has a Result List
    that is not empty, so the JSON report is an array with one object
    for each entry, never [null]. *)
Theorem X7_exit_code_0_means_nothing_found :
  (forall fuel fl w o st,
      Command.main fuel fl w = Some (o, st) ->
      (o = Exit 0 ->
       counter st = 0 /\ writes (trace st) = [] /\
       (exists c, console st = c ++ [Console.Warning "No results found."]) /\
       (Z.of_nat (length (ranks st)) <= GoInt.int_max -> ranks st = [])) /\
      (o = Return ->
       ranks st <> [] /\
       Codec.Marshal (ranks st)
       = JSON.Arr (map Codec.marshal_rank (ranks st)))) /\
  (forall fuel fl w o st,
      MainGo.main fuel fl w = Some (o, st) ->
      (o = Exit 0 ->
       counter st = 0 /\ writes (trace st) = [] /\
       (exists c, console st = c ++ [Console.Warning "No results found."]) /\
       (Z.of_nat (length (ranks st)) <= GoInt.int_max -> ranks st = [])) /\
      (o = Return ->
       ranks st <> [] /\
       Codec.Marshal (ranks st)
       = JSON.Arr (map Codec.marshal_rank (ranks st)))).
Proof.
  assert (Hgen : forall MinReputation fl re o st,
            (exists rep, view MinReputation fl re st = (rep, current st)) ->
            forall reports, reported reports o st ->
            (o = Exit 0 ->
             counter st = 0 /\ writes (trace st) = [] /\
             (exists c,
                 console st = c ++ [Console.Warning "No results found."]) /\
             (Z.of_nat (length (ranks st)) <= GoInt.int_max ->
              ranks st = [])) /\
            (o = Return ->
             ranks st <> [] /\
             Codec.Marshal (ranks st)
             = JSON.Arr (map Codec.marshal_rank (ranks st)))).
  { intros MinReputation fl re o st [rep Hv] reports (more & _ & Hret & Hexit).
    split.
    - intros Ho. destruct (Hexit Ho) as (Hc & Hw & Hcons).
      split; [exact Hc|]. split; [exact Hw|]. split; [exact Hcons|].
      intros Hlen.
      destruct (@view_ranked MinReputation fl re st rep Hv Hlen) as [Hcnt _].
      cbn [current Filter.counter Filter.ranks] in Hcnt.
      rewrite Hc in Hcnt. destruct (ranks st); [reflexivity|].
      simpl length in Hcnt. lia.
    - intros Ho. destruct (Hret Ho) as (_ & Hc & _).
      assert (Hne : ranks st <> []).
      { intros Hnil. apply Hc.
        destruct (@scan_new MinReputation re (Flags.limit fl)
                    (Flags.term fl) (Expected.records (filtered st))
                    {| Filter.counter := 0; Filter.ranks := [] |})
          as (new & Hr & _ & Hsame).
        unfold view in Hv. rewrite Hv in Hr, Hsame.
        cbn [fst snd current Filter.counter Filter.ranks app] in Hr, Hsame.
        apply Hsame. rewrite <- Hr. exact Hnil. }
      split; [exact Hne|].
      destruct (ranks st); [contradiction|reflexivity]. }
  split; intros fuel fl w o st Hmain.
  - destruct (Command_main_cases _ _ _ Hmain)
      as [(Ho & _)|[(Ho & _)|(re & s & Hre & _)]];
      try (subst o; split; discriminate).
    apply (Hgen Command.MinReputation fl re o st
             (Command_main_view _ _ _ Hre Hmain)
             (Command_reports fl)).
    apply (Command_reported _ _ _ Hmain).
  - destruct (MainGo_main_cases _ _ _ Hmain)
      as [(Ho & _)|(re & s & Hre & _)];
      try (subst o; split; discriminate).
    apply (Hgen MainGo.MinReputation fl re o st
             (MainGo_main_view _ _ _ Hre Hmain)
             (MainGo_reports fl)).
    apply (MainGo_reported _ _ _ Hmain).
Qed.

Lemma X7_witness :
  (counter (snd empty_run) = 0 /\ writes (trace (snd empty_run)) = [] /\
   (exists c,
       console (snd empty_run)
       = c ++ [Console.Warning "No results found."]) /\
   (Z.of_nat (length (ranks (snd empty_run))) <= GoInt.int_max ->
    ranks (snd empty_run) = [])) /\
  (ranks (snd file_run) <> [] /\
   Codec.Marshal (ranks (snd file_run))
   = JSON.Arr (map Codec.marshal_rank (ranks (snd file_run)))).
Proof.
  split.
  - apply (proj1 (proj1 X7_exit_code_0_means_nothing_found 1%nat
                    nowhere_from_file file_world (fst empty_run)
                    (snd empty_run) eq_refl)).
    reflexivity.
  - apply (proj2 (proj2 X7_exit_code_0_means_nothing_found 3%nat
                    from_file_limit_two file_world (fst file_run)
                    (snd file_run) eq_refl)).
    reflexivity.
Defined.

(** X8.  After the loop the command writes the JSON report, then the
    Markdown report, then publishes the Markdown report, each when its
    flag is set and the publication only inside the branch of the
    Markdown report; [main.go] writes the Markdown report, then the JSON
    report.  In every run the writes of the trace are the front part of
    this sequence, each with the final Result List, and a run that
    returns from [main] has made all of them: a run that panics on a
    file it cannot create keeps the report written before. *)
Theorem X8_reports_are_written_in_order :
  (forall fuel fl w o st,
      Command.main fuel fl w = Some (o, st) ->
      exists more,
        Command_reports fl (ranks st) = writes (trace st) ++ more /\
        (o = Return -> more = [])) /\
  (forall fuel fl w o st,
      MainGo.main fuel fl w = Some (o, st) ->
      exists more,
        MainGo_reports fl (ranks st) = writes (trace st) ++ more /\
        (o = Return -> more = [])).
Proof.
  split; intros fuel fl w o st Hmain.
  - destruct (Command_reported _ _ _ Hmain) as (more & Hr & Hret & _).
    exists more. split; [exact Hr|]. intros Ho. apply (Hret Ho).
  - destruct (MainGo_reported _ _ _ Hmain) as (more & Hr & Hret & _).
    exists more. split; [exact Hr|]. intros Ho. apply (Hret Ho).
Qed.

Lemma X8_witness :
  (exists more,
      Command_reports publishing (ranks (snd published_run))
      = writes (trace (snd published_run)) ++ more /\
      (fst published_run = Return -> more = [])) /\
  (exists more,
      MainGo_reports from_file_limit_two (ranks (snd file_run))
      = writes (trace (snd file_run)) ++ more /\
      (fst file_run = Return -> more = [])).
Proof.
  split.
  - apply (proj1 X8_reports_are_written_in_order 1%nat publishing
             file_world (fst published_run) (snd published_run)).
    reflexivity.
  - apply (proj2 X8_reports_are_written_in_order 3%nat from_file_limit_two
             file_world (fst file_run) (snd file_run)).
    reflexivity.
Defined.

(** ** File mode: the whole run *)

(** The pass that reads the source file, from the start of [main]. *)
Lemma from_file_pass (MaxPages MinReputation : Z) (fl : Flags.t)
    (w : World.t) (re : Regexp.t) :
  trace (state_of (Body.from_file MaxPages MinReputation fl w re init))
  = [StreamFile (Flags.jsonfile fl) (World.json_file w (Flags.jsonfile fl))]
  /\
  lastPage (state_of (Body.from_file MaxPages MinReputation fl w re init))
  = 1 /\
  match World.json_file w (Flags.jsonfile fl) with
  | World.Failed _ =>
      (exists st, Body.from_file MaxPages MinReputation fl w re init
                  = Exited 5 st) /\
      filtered (state_of (Body.from_file MaxPages MinReputation fl w re init))
      = []
  | World.Page u =>
      (exists st, Body.from_file MaxPages MinReputation fl w re init
                  = Break st) /\
      filtered (state_of (Body.from_file MaxPages MinReputation fl w re init))
      = [u] /\
      current (state_of (Body.from_file MaxPages MinReputation fl w re init))
      = snd (fst (GetUserInfo u MinReputation re (Flags.limit fl)
                    (Flags.term fl)
                    {| Filter.counter := 0; Filter.ranks := [] |}))
  end.
Proof.
  unfold Body.from_file.
  destruct (World.json_file w (Flags.jsonfile fl)) as [partial|u].
  { simpl_state. split; [reflexivity|]. split; [reflexivity|].
    split; [eexists; reflexivity|reflexivity]. }
  unfold Body.filter_and_advance. simpl_state. cbn [World.decoded].
  destruct (GetUserInfo u _ _ _ _ _) as [[rep a] out].
  destruct rep; cbn [negb].
  - unfold Body.last_page. simpl_state. rewrite !orb_true_r.
    simpl_state. unfold current. simpl_state. destruct a.
    split; [reflexivity|]. split; [reflexivity|].
    split; [eexists; reflexivity|]. split; reflexivity.
  - simpl_state. unfold current. simpl_state. destruct a.
    split; [reflexivity|]. split; [reflexivity|].
    split; [eexists; reflexivity|]. split; reflexivity.
Qed.

Section FileRun.

Variable iteration : state -> step.
Variable finish : step -> outcome * state.
Variable MaxPages MinReputation : Z.
Variable fl : Flags.t.
Variable w : World.t.
Variable re : Regexp.t.

Hypothesis iteration_file :
  iteration init = Body.from_file MaxPages MinReputation fl w re init.
Hypothesis finish_finished :
  forall s o st, finish s = (o, st) -> finished s o st.
Hypothesis finish_keeps :
  forall s o st, finish s = (o, st) ->
    counter st = counter (state_of s) /\ ranks st = ranks (state_of s) /\
    filtered st = filtered (state_of s) /\
    streamErrors st = streamErrors (state_of s) /\
    lastPage st = lastPage (state_of s) /\
    currentPage st = currentPage (state_of s).

Lemma file_run_once (fuel : nat) :
  (1 <= fuel)%nat ->
  exists s o st,
    Body.loop iteration fuel init = Some s /\ finish s = (o, st) /\
    read_once MinReputation fl w re o st.
Proof.
  intros Hfuel. destruct fuel as [|fuel]; [lia|]. cbn [Body.loop].
  rewrite iteration_file.
  destruct (from_file_pass MaxPages MinReputation fl w re)
    as (Ht & Hl & Hcase).
  set (s := Body.from_file MaxPages MinReputation fl w re init) in *.
  assert (Hs : exists st0, s = Exited 5 st0 \/ s = Break st0).
  { destruct (World.json_file w (Flags.jsonfile fl));
      destruct Hcase as [[st0 Hs] _]; exists st0; auto. }
  destruct (finish s) as [o st] eqn:Hfin.
  exists s, o, st.
  split; [destruct Hs as [st0 [Hs|Hs]]; rewrite Hs; reflexivity|].
  split; [exact Hfin|].
  destruct (finish_finished Hfin) as (ws & Htr & Hws & Hout).
  destruct (finish_keeps Hfin) as (Hc & Hr & Hf & _ & Hlp & _).
  unfold read_once. exists ws. rewrite Htr, Ht, Hlp, Hl.
  split; [reflexivity|]. split; [exact Hws|]. split; [reflexivity|].
  destruct (World.json_file w (Flags.jsonfile fl)) as [partial|u].
  - destruct Hcase as [[st0 Hs0] Hfil]. rewrite Hf, Hfil.
    rewrite Hs0 in Hout. destruct Hout as [Ho Hnil].
    split; [exact Ho|]. split; [exact Hnil|reflexivity].
  - destruct Hcase as [[st0 Hs0] [Hfil Hcur]]. rewrite Hf, Hfil.
    split; [reflexivity|]. split.
    + rewrite Hs0 in Hout. exact Hout.
    + rewrite <- Hcur. unfold current. rewrite Hc, Hr. reflexivity.
Qed.

End FileRun.

(** X9.  With the flag [json] set, a run reads the source file once and
    makes no HTTP request and no key lookup: one pass through the loop
    is enough, the trace is the read of the file followed by the writes
    of the reports, and the summary counts one page.  A file that cannot
    be decoded ends the run with the exit code 5 before the rank filter
    is called and before any write; a decoded file is the only page the
    filter is called on, whatever its [has_more] says, and the counter
    and the Result List at the end are those of that one call from the
    empty list.  This holds for the command and for [main.go]. *)
Theorem X9_file_mode_reads_the_file_once :
  (forall fl w re fuel,
      Flags.jsonfile fl <> EmptyString ->
      Flags.publish fl = EmptyString \/ Flags.mdrsp fl <> EmptyString ->
      Regexp.MustCompile (World.regexp w)
        ("(?i)" ++ Flags.location fl)%string = Some re ->
      (1 <= fuel)%nat ->
      exists o st,
        Command.main fuel fl w = Some (o, st) /\
        read_once Command.MinReputation fl w re o st) /\
  (forall fl w re fuel,
      Flags.jsonfile fl <> EmptyString ->
      Regexp.MustCompile (World.regexp w)
        ("(?i)" ++ Flags.location fl)%string = Some re ->
      (1 <= fuel)%nat ->
      exists o st,
        MainGo.main fuel fl w = Some (o, st) /\
        read_once MainGo.MinReputation fl w re o st).
Proof.
  split.
  - intros fl w re fuel Hj Hp Hre Hfuel.
    unfold Command.main. rewrite (publish_check fl Hp), Hre.
    destruct (@file_run_once (Command.iteration fl w re)
                (Command.finish fl w) Command.MaxPages
                Command.MinReputation fl w re)
      with (fuel := fuel) as (s & o & st & Hloop & Hfin & Hread).
    + unfold Command.iteration.
      apply String.eqb_neq in Hj. rewrite Hj. reflexivity.
    + apply Command_finished.
    + apply Command_report_keeps.
    + exact Hfuel.
    + exists o, st. rewrite Hloop, Hfin. split; [reflexivity|exact Hread].
  - intros fl w re fuel Hj Hre Hfuel.
    unfold MainGo.main. rewrite Hre.
    destruct (@file_run_once (MainGo.iteration fl w re)
                (MainGo.finish fl w) MainGo.MaxPages
                MainGo.MinReputation fl w re)
      with (fuel := fuel) as (s & o & st & Hloop & Hfin & Hread).
    + unfold MainGo.iteration.
      apply String.eqb_neq in Hj. rewrite Hj. reflexivity.
    + apply MainGo_finished.
    + apply MainGo_report_keeps.
    + exact Hfuel.
    + exists o, st. rewrite Hloop, Hfin. split; [reflexivity|exact Hread].
Qed.

Lemma X9_witness :
  (exists o st,
      Command.main 1 publishing file_world = Some (o, st) /\
      read_once Command.MinReputation publishing file_world
        Regexp.AnyNotNL o st) /\
  (exists o st,
      MainGo.main 1 from_file_limit_two failing_world = Some (o, st) /\
      read_once MainGo.MinReputation from_file_limit_two failing_world
        Regexp.AnyNotNL o st).
Proof.
  split.
  - apply (proj1 X9_file_mode_reads_the_file_once publishing file_world
             Regexp.AnyNotNL 1%nat).
    + discriminate.
    + right. discriminate.
    + reflexivity.
    + lia.
  - apply (proj2 X9_file_mode_reads_the_file_once from_file_limit_two
             failing_world Regexp.AnyNotNL 1%nat).
    + discriminate.
    + reflexivity.
    + lia.
Defined.

(** ** The pages of a run in HTTP mode *)

Lemma fetches_app (t1 t2 : list event) :
  fetches (t1 ++ t2) = fetches t1 ++ fetches t2.
Proof.
  induction t1 as [|e t1 IH]; [reflexivity|].
  destruct e; simpl; rewrite IH; reflexivity.
Qed.

Lemma fetches_writes (ws : list event) :
  writes_only ws -> fetches ws = [].
Proof.
  induction 1 as [|e ws He _ IH]; [reflexivity|].
  destruct e; try discriminate; exact IH.
Qed.

Lemma fetches_key_events (path : string) (st : state) :
  fetches (key_events path st) = [].
Proof. unfold key_events. destruct (_ =? _); reflexivity. Qed.

Lemma successes_app (t1 t2 : list event) :
  successes (t1 ++ t2) = (successes t1 + successes t2)%nat.
Proof.
  unfold successes. rewrite fetches_app, filter_app, length_app. reflexivity.
Qed.

Lemma fetches_count (t : list event) :
  length (fetches t) = (successes t + failures t)%nat.
Proof.
  unfold successes, failures.
  induction t as [|e t IH]; [reflexivity|].
  destruct e; simpl; try exact IH.
  destruct (fetch_failed r); simpl; lia.
Qed.

Lemma in_order_app (p : Z) (l1 l2 : list (Z * bool)) :
  in_order p (l1 ++ l2)
  = in_order p l1
    && in_order
         (p + Z.of_nat (length (filter (fun f => negb (snd f)) l1))) l2.
Proof.
  revert p. induction l1 as [|[q f] l1 IH]; intros p.
  - simpl. rewrite Z.add_0_r. reflexivity.
  - cbn [app in_order filter snd]. rewrite IH, andb_assoc.
    destruct f; cbn [negb]; [reflexivity|].
    simpl length. rewrite Nat2Z.inj_succ.
    replace (p + Z.succ (Z.of_nat (length (filter (fun f => negb (snd f)) l1))))
      with (p + 1 + Z.of_nat (length (filter (fun f => negb (snd f)) l1)))
      by lia.
    reflexivity.
Qed.

Section PagesRun.

Variable MaxPages : Z.
Variable MaxErrors : Z.
Variable APIKeyPath : string.
Variable iteration : state -> step.

Hypothesis MaxPages_int : 0 < MaxPages <= GoInt.int_max.
Hypothesis MaxErrors_int : 0 < MaxErrors <= GoInt.int_max.
Hypothesis iteration_step :
  forall st, http_step MaxPages MaxErrors APIKeyPath st (iteration st).

Lemma pages_inv_step (st : state) :
  pages_inv MaxPages MaxErrors APIKeyPath st ->
  match iteration st with
  | Continue st' => pages_inv MaxPages MaxErrors APIKeyPath st'
  | s =>
      pages_post MaxPages MaxErrors (trace (state_of s))
        (lastPage (state_of s))
  end.
Proof.
  intros [Hinv Ho Hc Hl].
  pose proof (@http_inv_step MaxPages MaxErrors APIKeyPath iteration
                MaxPages_int MaxErrors_int iteration_step st Hinv) as Hnext.
  destruct (iteration_step st) as (k & r & Ht & _ & Hcase).
  pose proof Hinv as [He Hlt Hw Hp Hs Hk].
  pose proof (top_int MaxPages_int) as Htop.
  remember (state_of (iteration st)) as st1 eqn:Hst1.
  assert (Hf : fetches (trace st1)
               = fetches (trace st) ++ [(currentPage st, fetch_failed r)]).
  { rewrite Ht, !fetches_app, fetches_key_events. reflexivity. }
  assert (Hsucc : successes (trace st1)
                  = (successes (trace st)
                     + if fetch_failed r then 0 else 1)%nat).
  { unfold successes. rewrite Hf, filter_app, length_app. simpl.
    destruct (fetch_failed r); reflexivity. }
  assert (Hord : in_order 1 (fetches (trace st1)) = true).
  { rewrite Hf, in_order_app, Ho. cbn [andb in_order].
    fold (successes (trace st)). rewrite <- Hc, Z.eqb_refl. reflexivity. }
  assert (Hcount : length (fetches (trace st1))
                   = (successes (trace st1) + failures (trace st1))%nat)
    by apply fetches_count.
  assert (Hpost : forall s,
             state_of s = st1 ->
             http_post MaxPages MaxErrors APIKeyPath s ->
             match s with
             | Continue _ => False
             | Exited _ _ => fetch_failed r = true /\ same_page st st1
             | _ => fetch_failed r = false /\
                    (same_page st st1 \/ next_page st st1)
             end ->
             pages_post MaxPages MaxErrors (trace st1) (lastPage st1)).
  { intros s Hs0 [Hpe Hpx _ _ _ _] Hkind. rewrite Hs0 in Hpe.
    assert (Hbound :
              Z.of_nat (successes (trace st1)) <= top MaxPages /\
              Z.of_nat (successes (trace st1)) + streamErrors st1
                <= top MaxPages + MaxErrors - 1 /\
              Z.max 1 (Z.of_nat (successes (trace st1)) - 1) <= lastPage st1
                <= Z.max 1 (Z.of_nat (successes (trace st1)))).
    { destruct s as [st'|st'|c st'|st']; cbn [state_of] in Hs0; subst st'.
      - contradiction.
      - destruct Hkind as [Hr [[Hlp Hcp]|[Hlp Hcp]]];
          rewrite Hr in Hsucc; rewrite Hsucc, Hlp; lia.
      - destruct Hkind as [Hr [Hlp Hcp]]. destruct Hpx as [_ Hx].
        rewrite Hr in Hsucc. rewrite Hsucc, Hlp. lia.
      - destruct Hkind as [Hr [[Hlp Hcp]|[Hlp Hcp]]];
          rewrite Hr in Hsucc; rewrite Hsucc, Hlp; lia. }
    destruct Hbound as (B1 & B2 & B3).
    constructor; [exact Hord|exact B1| |exact B3].
    rewrite Hcount, Nat2Z.inj_add, <- Hpe. exact B2. }
  destruct (fetch_failed r) eqn:Hr.
  - destruct Hcase as (Hse & [Hlp Hcp] & _ & Hs').
    destruct (iteration st) as [st'|st'|c st'|st'] eqn:Hit;
      cbn [state_of] in Hst1; subst st'.
    + constructor; [exact Hnext|exact Hord| |].
      * rewrite Hcp, Hsucc. lia.
      * rewrite Hlp, Hsucc. rewrite Hl. lia.
    + destruct (streamErrors st1 >=? MaxErrors); discriminate.
    + apply (Hpost (Exited c st1) eq_refl Hnext). split; [reflexivity|].
      split; assumption.
    + destruct (streamErrors st1 >=? MaxErrors); discriminate.
  - destruct Hcase as (Hse & Hcase).
    destruct (iteration st) as [st'|st'|c st'|st'] eqn:Hit;
      cbn [state_of] in Hst1; subst st'.
    + destruct Hcase as ([Hlp Hcp] & _).
      rewrite succ_no_wrap in Hcp by lia.
      constructor; [exact Hnext|exact Hord| |].
      * rewrite Hcp, Hsucc. lia.
      * rewrite Hlp, Hsucc. lia.
    + apply (Hpost (Break st1) eq_refl Hnext). split; [reflexivity|].
      destruct Hcase as [Hsame|[Hlp Hcp]]; [left; exact Hsame|].
      right. split; [exact Hlp|exact Hcp].
    + contradiction.
    + apply (Hpost (Panicked st1) eq_refl Hnext). split; [reflexivity|].
      left. exact Hcase.
Qed.

Lemma init_pages_inv : pages_inv MaxPages MaxErrors APIKeyPath init.
Proof.
  constructor; try reflexivity.
  apply init_http_inv; assumption.
Qed.

(** However the loop is left in HTTP mode, the pages were asked for in
    order. *)
Lemma pages_loop_post (fuel : nat) (s : step) :
  Body.loop iteration fuel init = Some s ->
  pages_post MaxPages MaxErrors (trace (state_of s)) (lastPage (state_of s)).
Proof.
  intros Hloop.
  pose proof (@loop_invariant iteration
                (pages_inv MaxPages MaxErrors APIKeyPath)
                (fun s0 => pages_post MaxPages MaxErrors (trace (state_of s0))
                             (lastPage (state_of s0)))) as Hinv.
  eapply Hinv; [|exact init_pages_inv|exact Hloop].
  intros st Hst. pose proof (pages_inv_step Hst) as H.
  destruct (iteration st); exact H.
Qed.

End PagesRun.

Lemma pages_post_finished (MaxPages MaxErrors : Z) (s : step) (o : outcome)
    (st : state) :
  pages_post MaxPages MaxErrors (trace (state_of s)) (lastPage (state_of s)) ->
  finished s o st ->
  lastPage st = lastPage (state_of s) ->
  pages_post MaxPages MaxErrors (trace st) (lastPage st).
Proof.
  intros [H1 H2 H3 H4] (ws & Ht & Hws & _) Hl.
  assert (Hf : fetches (trace st) = fetches (trace (state_of s))).
  { rewrite Ht, fetches_app, (fetches_writes Hws), app_nil_r. reflexivity. }
  assert (Hs : successes (trace st) = successes (trace (state_of s))).
  { unfold successes. rewrite Hf. reflexivity. }
  constructor; rewrite ?Hf, ?Hs, ?Hl; assumption.
Qed.

Lemma pages_post_nil (MaxPages MaxErrors : Z) :
  0 < MaxPages <= GoInt.int_max -> 0 < MaxErrors ->
  pages_post MaxPages MaxErrors [] 1.
Proof.
  intros HP HE. pose proof (top_int HP).
  constructor; cbn; try reflexivity; lia.
Qed.

(** The pages of a run of the command in HTTP mode. *)
Lemma Command_pages (fuel : nat) (fl : Flags.t) (w : World.t) (o : outcome)
    (st : state) :
  Flags.jsonfile fl = EmptyString ->
  Command.main fuel fl w = Some (o, st) ->
  pages_post Command.MaxPages Command.MaxErrors (trace st) (lastPage st).
Proof.
  intros Hj Hmain.
  destruct (Command_main_cases _ _ _ Hmain)
    as [(_ & Hst)|[(_ & Hst)|(re & s & _ & Hloop & Hfin)]].
  - subst st. apply pages_post_nil; [apply Command_constants|reflexivity].
  - subst st. apply pages_post_nil; [apply Command_constants|reflexivity].
  - apply pages_post_finished with (s := s) (o := o).
    + apply pages_loop_post with (APIKeyPath := Command.APIKeyPath)
        (iteration := Command.iteration fl w re) (fuel := fuel);
        try apply Command_constants; [|exact Hloop].
      intros st0. apply Command_http_step. exact Hj.
    + apply (Command_finished _ _ _ Hfin).
    + apply (Command_report_keeps _ _ _ Hfin).
Qed.

(** The pages of a run of [main.go] in HTTP mode. *)
Lemma MainGo_pages (fuel : nat) (fl : Flags.t) (w : World.t) (o : outcome)
    (st : state) :
  Flags.jsonfile fl = EmptyString ->
  MainGo.main fuel fl w = Some (o, st) ->
  pages_post MainGo.MaxPages MainGo.MaxErrors (trace st) (lastPage st).
Proof.
  intros Hj Hmain.
  destruct (MainGo_main_cases _ _ _ Hmain)
    as [(_ & Hst)|(re & s & _ & Hloop & Hfin)].
  - subst st. apply pages_post_nil; [apply MainGo_constants|reflexivity].
  - apply pages_post_finished with (s := s) (o := o).
    + apply pages_loop_post with (APIKeyPath := MainGo.APIKeyPath)
        (iteration := MainGo.iteration fl w re) (fuel := fuel);
        try apply MainGo_constants; [|exact Hloop].
      intros st0. apply MainGo_http_step. exact Hj.
    + apply (MainGo_finished _ _ _ Hfin).
    + apply (MainGo_report_keeps _ _ _ Hfin).
Qed.

(** X10.  In HTTP mode the pages are asked for in order: the first
    request is for page 1, a request after a failed fetch is for the
    same page, and a request after a fetch that succeeded is for the
    next page; no page is skipped and none is asked for again once it
    was fetched.  A run of the command makes at most 1099 fetches that
    succeed and at most 1101 requests in all; a run of [main.go] at most
    1 and 3. *)
Theorem X10_pages_are_requested_in_order :
  (forall fuel fl w o st,
      Flags.jsonfile fl = EmptyString ->
      Command.main fuel fl w = Some (o, st) ->
      in_order 1 (fetches (trace st)) = true /\
      (successes (trace st) <= 1099)%nat /\
      (length (fetches (trace st)) <= 1101)%nat) /\
  (forall fuel fl w o st,
      Flags.jsonfile fl = EmptyString ->
      MainGo.main fuel fl w = Some (o, st) ->
      in_order 1 (fetches (trace st)) = true /\
      (successes (trace st) <= 1)%nat /\
      (length (fetches (trace st)) <= 3)%nat).
Proof.
  split; intros fuel fl w o st Hj Hmain.
  - destruct (Command_pages _ _ _ Hj Hmain) as [H1 H2 H3 _].
    unfold top, Command.MaxPages, Command.MaxErrors in *.
    split; [exact H1|]. split; lia.
  - destruct (MainGo_pages _ _ _ Hj Hmain) as [H1 H2 H3 _].
    unfold top, MainGo.MaxPages, MainGo.MaxErrors in *.
    split; [exact H1|]. split; lia.
Qed.

Lemma X10_witness :
  (in_order 1 (fetches (trace (snd retried_run))) = true /\
   (successes (trace (snd retried_run)) <= 1099)%nat /\
   (length (fetches (trace (snd retried_run))) <= 1101)%nat) /\
  (in_order 1 (fetches (trace (snd failed_run))) = true /\
   (successes (trace (snd failed_run)) <= 1)%nat /\
   (length (fetches (trace (snd failed_run))) <= 3)%nat).
Proof.
  split.
  - apply (proj1 X10_pages_are_requested_in_order 10%nat Flags.default
             retry_world (fst retried_run) (snd retried_run)).
    + reflexivity.
    + vm_compute. reflexivity.
  - apply (proj2 X10_pages_are_requested_in_order 3%nat Flags.default
             failing_world (fst failed_run) (snd failed_run)).
    + reflexivity.
    + vm_compute. reflexivity.
Defined.



(** ** The key of the command *)

Lemma retry_keeps (MaxErrors : Z) (st : state) :
  key (state_of (Body.retry MaxErrors st)) = key st /\
  trace (state_of (Body.retry MaxErrors st)) = trace st.
Proof.
  unfold Body.retry. destruct (_ >=? MaxErrors); split; reflexivity.
Qed.

Lemma filter_and_advance_keeps (MaxPages MinReputation : Z) (fl : Flags.t)
    (re : Regexp.t) (st : state) :
  key (state_of (Body.filter_and_advance MaxPages MinReputation fl re st))
  = key st /\
  trace (state_of (Body.filter_and_advance MaxPages MinReputation fl re st))
  = trace st.
Proof.
  unfold Body.filter_and_advance.
  destruct (users st) as [u|]; [|split; reflexivity].
  destruct (GetUserInfo u _ _ _ _ _) as [[rep a] out].
  destruct rep; cbn [negb]; [|split; reflexivity].
  destruct (Body.last_page MaxPages u _); split; reflexivity.
Qed.

Lemma from_file_keeps (MaxPages MinReputation : Z) (fl : Flags.t)
    (w : World.t) (re : Regexp.t) (st : state) :
  trace (state_of (Body.from_file MaxPages MinReputation fl w re st))
  = trace st
    ++ [StreamFile (Flags.jsonfile fl) (World.json_file w (Flags.jsonfile fl))].
Proof.
  unfold Body.from_file.
  destruct (World.json_file w (Flags.jsonfile fl)); [reflexivity|].
  rewrite (proj2 (filter_and_advance_keeps _ _ _ _ _)). reflexivity.
Qed.

Section CommandKey.

Variable fl : Flags.t.
Variable w : World.t.
Variable re : Regexp.t.

Lemma Command_key_step (st : state) :
  keyed_requests fl w st ->
  keyed_requests fl w (state_of (Command.iteration fl w re st)).
Proof.
  intros [Hall Hkey]. unfold Command.iteration.
  destruct (String.eqb_spec (Flags.jsonfile fl) EmptyString) as [Hj|Hj].
  2:{ split; [|contradiction].
      rewrite from_file_keeps. apply Forall_app. split; [exact Hall|].
      repeat constructor. }
  specialize (Hkey Hj).
  match goal with
  | |- context [if fetch_failed ?r then Body.retry _ ?s
                else Body.filter_and_advance _ _ _ _ _] =>
      set (s0 := s); set (r0 := r)
  end.
  assert (Hs : key s0 = Command_key w /\
               exists p r1,
                 trace s0 = trace st ++ [StreamHTTP p (Command_key w) r1]
                 \/ trace s0
                    = trace st
                      ++ [GetKey Command.APIKeyPath;
                          StreamHTTP p (Command_key w) r1]).
  { subst s0 r0. unfold Command_key, Command.lib_GetKey.
    destruct (Z.eqb_spec (lastPage st) (currentPage st)) as [Heq|Hne].
    - destruct (World.key_file w Command.APIKeyPath); simpl_state; cbn [fst];
        (split; [reflexivity|]); eexists; eexists; right;
        rewrite <- app_assoc; reflexivity.
    - destruct Hkey as [Hkey|Hkey]; [contradiction|].
      simpl_state. split; [exact Hkey|]. eexists; eexists; left.
      rewrite Hkey. unfold Command_key, Command.lib_GetKey. reflexivity. }
  clearbody s0 r0. unfold keyed_requests.
  destruct Hs as (Hs1 & p & r1 & Hs2).
  assert (Hall' : Forall (carries (Command_key w)) (trace s0)).
  { destruct Hs2 as [Hs2|Hs2]; rewrite Hs2; apply Forall_app;
      (split; [exact Hall|repeat constructor]). }
  destruct (fetch_failed r0);
    [destruct (retry_keeps Command.MaxErrors s0) as [Hk Ht]
    |destruct (filter_and_advance_keeps Command.MaxPages
                 Command.MinReputation fl re s0) as [Hk Ht]];
    rewrite Hk, Ht; (split; [exact Hall'|intros _; right; exact Hs1]).
Qed.

(** However the loop of the command is left, every request carried the
    key parameter. *)
Lemma Command_key_loop (fuel : nat) (s : step) :
  Body.loop (Command.iteration fl w re) fuel init = Some s ->
  Forall (carries (Command_key w)) (trace (state_of s)).
Proof.
  intros Hloop.
  pose proof (@loop_invariant (Command.iteration fl w re)
                (keyed_requests fl w)
                (fun s0 => Forall (carries (Command_key w))
                             (trace (state_of s0)))) as Hinv.
  eapply Hinv; [| |exact Hloop].
  - intros st Hst. pose proof (Command_key_step Hst) as H.
    destruct (Command.iteration fl w re st); cbn [state_of] in H;
      [exact H|apply H..].
  - split; [constructor|]. intros _. left. reflexivity.
Qed.

End CommandKey.

Lemma carries_writes (k : string) (ws : list event) :
  writes_only ws -> Forall (carries k) ws.
Proof.
  induction 1 as [|e ws He _ IH]; constructor; [|exact IH].
  destruct e; try discriminate; exact I.
Qed.

(** X12.  In every run of the command each HTTP request carries the same
    key parameter, [&key=] followed by what the key loader returned: the
    retries and the requests for the pages after the first carry it too,
    since [key] is a variable of [main] that keeps its value from the
    pass in which it was set.  The parameter is there even when the
    loader returns no key, with an empty value. *)
Theorem X12_command_sends_the_key_with_every_request :
  forall fuel fl w o st,
    Command.main fuel fl w = Some (o, st) ->
    Forall (carries (Command_key w)) (trace st) /\
    String.prefix "&key=" (Command_key w) = true.
Proof.
  intros fuel fl w o st Hmain.
  split; [|unfold Command_key; destruct (fst _); reflexivity].
  destruct (Command_main_cases _ _ _ Hmain)
    as [(_ & Hst)|[(_ & Hst)|(re & s & _ & Hloop & Hfin)]];
    try (subst st; constructor).
  destruct (Command_finished _ _ _ Hfin) as (ws & Ht & Hws & _).
  rewrite Ht. apply Forall_app. split.
  - apply (Command_key_loop _ _ _ _ Hloop).
  - apply carries_writes. exact Hws.
Qed.

Lemma X12_witness :
  Forall (carries (Command_key serving_world)) (trace (snd two_page_run)) /\
  String.prefix "&key=" (Command_key serving_world) = true.
Proof.
  apply (@X12_command_sends_the_key_with_every_request 5%nat limit_five
           serving_world (fst two_page_run) (snd two_page_run)).
  vm_compute. reflexivity.
Defined.

(** ** The key file *)

(** [strings.TrimRight(s, "\n")] takes the newlines at the end of [s]
    away, all of them and nothing else. *)
Lemma TrimRight_nl_spec (s : string) :
  ends_with_newline (TrimRight_nl s) = false /\
  exists n, s = (TrimRight_nl s ++ newlines n)%string.
Proof.
  induction s as [|c s [IH1 [n IH2]]].
  - split; [reflexivity|]. exists 0%nat. reflexivity.
  - cbn [TrimRight_nl]. destruct (TrimRight_nl s) as [|a t] eqn:Ht.
    + cbn [append] in IH2. subst s.
      destruct (Ascii.eqb_spec c "010"%char) as [->|Hc].
      * split; [reflexivity|]. exists (S n). reflexivity.
      * split.
        -- cbn. apply Ascii.eqb_neq. exact Hc.
        -- exists n. reflexivity.
    + split; [exact IH1|]. exists n. cbn [append]. f_equal. exact IH2.
Qed.

(** X13.  [GetKey] of [main.go] looks the key file up once.  When the
    file is there and can be read, the key parameter is [&key=] followed
    by the content of the file with the newlines at its end taken away,
    all of them and nothing else, so the parameter never ends in a
    newline, and nothing is printed.  When the file is missing or cannot
    be read, the result is the empty string, so that the URL carries no
    key parameter at all, and one warning is printed. *)
Theorem X13_GetKey_strips_the_trailing_newlines :
  forall (w : World.t) (st : state),
    trace (snd (MainGo.GetKey w st))
    = trace st ++ [GetKey MainGo.APIKeyPath] /\
    match World.key_file w MainGo.APIKeyPath with
    | World.Content strkey =>
        exists k n,
          fst (MainGo.GetKey w st) = ("&key=" ++ k)%string /\
          strkey = (k ++ newlines n)%string /\
          ends_with_newline k = false /\
          ends_with_newline (fst (MainGo.GetKey w st)) = false /\
          console (snd (MainGo.GetKey w st)) = console st
    | World.NoFile | World.Unreadable =>
        fst (MainGo.GetKey w st) = EmptyString /\
        exists msg,
          console (snd (MainGo.GetKey w st))
          = console st ++ [Console.Warning msg]
    end.
Proof.
  intros w st. unfold MainGo.GetKey.
  destruct (World.key_file w MainGo.APIKeyPath) as [| |strkey];
    cbn [fst snd]; simpl_state.
  - split; [reflexivity|]. split; [reflexivity|]. eexists. reflexivity.
  - split; [reflexivity|]. split; [reflexivity|]. eexists. reflexivity.
  - split; [reflexivity|].
    destruct (TrimRight_nl_spec strkey) as [Hend [n Hn]].
    exists (TrimRight_nl strkey), n.
    split; [reflexivity|]. split; [exact Hn|]. split; [exact Hend|].
    split; [|reflexivity].
    destruct (TrimRight_nl strkey); [reflexivity|exact Hend].
Qed.

(** ** Decimal numbers and the URL of a request *)

Lemma append_assoc (a b c : string) :
  ((a ++ b) ++ c = a ++ b ++ c)%string.
Proof. induction a as [|x a IH]; [reflexivity|]. cbn. rewrite IH. reflexivity. Qed.

Lemma append_inj_l (a b b' : string) :
  (a ++ b = a ++ b')%string -> b = b'.
Proof.
  induction a as [|x a IH]; [auto|]. cbn. intros H. injection H as H. auto.
Qed.

Lemma has_char_app (c : ascii) (a b : string) :
  has_char c (a ++ b) = has_char c a || has_char c b.
Proof.
  induction a as [|x a IH]; [reflexivity|].
  cbn. rewrite IH, orb_assoc. reflexivity.
Qed.

Lemma digits_numeric (c : ascii) (d : Decimal.uint) :
  numeric c = false -> has_char c (NilEmpty.string_of_uint d) = false.
Proof.
  unfold numeric. cbn [list_ascii_of_string existsb]. intros H.
  repeat (apply orb_false_iff in H; destruct H as [? H]).
  induction d; cbn [NilEmpty.string_of_uint has_char];
    rewrite ?IHd; try reflexivity;
    match goal with
    | Hx : Ascii.eqb ?a c = false |- Ascii.eqb ?a c || false = false =>
        rewrite Hx; reflexivity
    end.
Qed.

(** A decimal number holds digits and [-] only. *)
Lemma decimal_numeric (c : ascii) (z : Z) :
  numeric c = false -> has_char c (decimal z) = false.
Proof.
  intros H. pose proof (digits_numeric) as Hd.
  assert (Hz : has_char c "0" = false /\ Ascii.eqb "-" c = false).
  { unfold numeric in H. cbn [list_ascii_of_string existsb] in H.
    repeat (apply orb_false_iff in H; destruct H as [? H]).
    split; [cbn; rewrite orb_false_r|]; assumption. }
  destruct Hz as [H0 Hm].
  assert (Hu : forall d, has_char c (NilZero.string_of_uint d) = false).
  { intros d. destruct d; try apply (Hd c _ H). exact H0. }
  unfold decimal. destruct (Z.to_int z) as [d|d]; cbn [NilZero.string_of_int].
  - apply Hu.
  - cbn [has_char]. rewrite Hm. apply Hu.
Qed.

(** The number can be read back from its digits. *)
Lemma decimal_inj (z z' : Z) : decimal z = decimal z' -> z = z'.
Proof.
  unfold decimal. intros H.
  assert (Hok : forall x, Z.to_int x <> Decimal.Pos Decimal.Nil /\
                          Z.to_int x <> Decimal.Neg Decimal.Nil).
  { intros [|p|p]; cbn; split; try discriminate;
      intros E; injection E as E;
      apply (DecimalPos.Unsigned.to_uint_nonnil p E). }
  apply DecimalZ.to_int_inj.
  assert (E : Some (Z.to_int z) = Some (Z.to_int z')).
  { rewrite <- (NilZero.isi _ (proj1 (Hok z)) (proj2 (Hok z))).
    rewrite <- (NilZero.isi _ (proj1 (Hok z')) (proj2 (Hok z'))).
    rewrite H. reflexivity. }
  injection E as E. exact E.
Qed.

(** Two strings cut at the first [c] are equal part by part. *)
Lemma cut_inj (c : ascii) (a a' b b' : string) :
  has_char c a = false -> has_char c a' = false ->
  (a ++ String c b = a' ++ String c b')%string ->
  a = a' /\ b = b'.
Proof.
  revert a'. induction a as [|x a IH]; intros [|x' a'] Ha Ha' H;
    cbn [append has_char] in *.
  - injection H as H. auto.
  - injection H as Hx _. subst x'. rewrite Ascii.eqb_refl in Ha'.
    discriminate.
  - injection H as Hx _. subst x. rewrite Ascii.eqb_refl in Ha.
    discriminate.
  - injection H as Hx H. subst x'.
    apply orb_false_iff in Ha, Ha'.
    destruct (IH a' (proj2 Ha) (proj2 Ha') H) as [-> ->]. auto.
Qed.

(** X14.  [main.go] and the command build the same URL for a page and a
    key parameter, though from different constants and formats, and the
    URL tells the page and the key parameter: two requests with the same
    URL are for the same page with the same key. *)
Theorem X14_the_url_tells_page_and_key :
  (forall page key, Url.main_go page key = Url.command page key) /\
  (forall page key page' key',
      Url.main_go page key = Url.main_go page' key' ->
      page = page' /\ key = key').
Proof.
  split.
  - intros page key. unfold Url.main_go, Url.command, Url.SOUsersQuery.
    rewrite !append_assoc. reflexivity.
  - intros page key page' key' H. unfold Url.main_go in H.
    apply append_inj_l in H.
    change (("&" ++ Url.CQuery ++ key)%string)
      with (String "&" (Url.CQuery ++ key)%string) in H.
    change (("&" ++ Url.CQuery ++ key')%string)
      with (String "&" (Url.CQuery ++ key')%string) in H.
    apply cut_inj in H; try (apply decimal_numeric; reflexivity).
    destruct H as [Hp Hk]. split.
    + apply decimal_inj. exact Hp.
    + apply append_inj_l in Hk. exact Hk.
Qed.

Lemma X14_witness :
  Url.main_go 7 "&key=k" = Url.command 7 "&key=k" /\
  (7 = 7 /\ "&key=k" = "&key=k").
Proof.
  split.
  - apply (proj1 X14_the_url_tells_page_and_key 7 "&key=k").
  - apply (proj2 X14_the_url_tells_page_and_key 7 "&key=k" 7 "&key=k").
    reflexivity.
Defined.

(** ** The Markdown report *)

Lemma lines_line (a b : string) :
  has_char "010" a = false ->
  lines (a ++ String "010" b) = a :: lines b.
Proof.
  induction a as [|c a IH]; intros Ha; [reflexivity|].
  cbn [has_char] in Ha. apply orb_false_iff in Ha. destruct Ha as [Hc Ha].
  cbn [append lines]. rewrite Hc, (IH Ha). reflexivity.
Qed.

Lemma lines_empty (b : string) :
  lines (String "010" b) = EmptyString :: lines b.
Proof. reflexivity. Qed.

Lemma row_one_line (r : SOUserRank.t) :
  one_line r -> has_char "010" (Markdown.row r) = false.
Proof.
  intros (H1 & H2 & H3 & H4 & H5). unfold Markdown.row.
  rewrite !has_char_app, !decimal_numeric, H1, H2, H3, H4, H5
    by reflexivity.
  reflexivity.
Qed.

Lemma lines_rows (ranks : Ranks) :
  Forall one_line ranks ->
  lines (Markdown.rows ranks) = map Markdown.row ranks.
Proof.
  induction 1 as [|r l Hr _ IH]; [reflexivity|].
  cbn [Markdown.rows map]. unfold Markdown.userfmt, Markdown.nl.
  rewrite append_assoc.
  change (String "010" EmptyString ++ Markdown.rows l)%string
    with (String "010" (Markdown.rows l)).
  rewrite lines_line by (apply row_one_line; exact Hr).
  rewrite IH. reflexivity.
Qed.

(** X15.  The Markdown report of [main.go] is the nine lines of the
    header, the fifth of them naming the area ([: WorldWide] for the
    location [.], the pattern otherwise), followed by one line for each
    entry of the Result List, in the order of the list, with the rank,
    the name linked to the profile, the reputation, the location, the
    website and the avatar between bars.  This holds when the location
    flag and the strings of the entries hold no newline. *)
Theorem X15_markdown_has_a_line_per_entry :
  forall (location : string) (ranks : Ranks),
    has_char "010" location = false ->
    Forall one_line ranks ->
    lines (Markdown.text location ranks)
    = ["# soranks"; EmptyString;
       "[Stackoverflow](http://stackoverflow.com/) rankings by **location**.";
       EmptyString;
       ("### Area" ++ Markdown.fmtLocation location)%string;
       EmptyString; EmptyString;
       "Rank|Name|Rep|Location|Web|Avatar";
       "----|----|---|--------|---|------"]
      ++ map Markdown.row ranks.
Proof.
  intros location ranks Hloc Hall.
  assert (Hfmt : has_char "010" ("### Area" ++ Markdown.fmtLocation location)
                 = false).
  { rewrite has_char_app. unfold Markdown.fmtLocation.
    destruct (location =? ".")%string; [reflexivity|].
    rewrite has_char_app, Hloc. reflexivity. }
  unfold Markdown.text, Markdown.head, Markdown.nl.
  rewrite !append_assoc.
  repeat match goal with
    | |- context [(String "010" EmptyString ++ ?x)%string] =>
        change (String "010" EmptyString ++ x)%string with (String "010" x)
    end.
  rewrite (@lines_line "# soranks") by reflexivity.
  rewrite lines_empty.
  rewrite (@lines_line
             "[Stackoverflow](http://stackoverflow.com/) rankings by **location**.")
    by reflexivity.
  rewrite lines_empty.
  rewrite <- (append_assoc "### Area").
  rewrite (@lines_line ("### Area" ++ Markdown.fmtLocation location)%string)
    by exact Hfmt.
  rewrite lines_empty.
  rewrite lines_empty.
  rewrite (@lines_line "Rank|Name|Rep|Location|Web|Avatar") by reflexivity.
  rewrite (@lines_line "----|----|---|--------|---|------") by reflexivity.
  rewrite (lines_rows Hall). reflexivity.
Qed.

Lemma X15_witness :
  lines (Markdown.text "." sample_ranks)
  = ["# soranks"; EmptyString;
     "[Stackoverflow](http://stackoverflow.com/) rankings by **location**.";
     EmptyString;
     ("### Area" ++ Markdown.fmtLocation ".")%string;
     EmptyString; EmptyString;
     "Rank|Name|Rep|Location|Web|Avatar";
     "----|----|---|--------|---|------"]
    ++ map Markdown.row sample_ranks.
Proof.
  apply (@X15_markdown_has_a_line_per_entry "." sample_ranks).
  - reflexivity.
  - repeat constructor.
Defined.

(** ** Matching under [(?i)] *)

Lemma lit_upper (c x : N) :
  Regexp.lit_matches true c (upper_rune x) = Regexp.lit_matches true c x.
Proof.
  unfold Regexp.lit_matches, Regexp.fold_class, upper_rune, UTF8.between.
  destruct (N.leb_spec 97 c); destruct (N.leb_spec c 122); cbn [andb];
    destruct (N.leb_spec 97 x); destruct (N.leb_spec x 122); cbn [andb];
    repeat match goal with
      | |- context [(?a <=? ?b)%N] => destruct (N.leb_spec a b); cbn [andb]
      end;
    repeat match goal with
      | |- context [if (?a =? ?b)%N then _ else _] =>
          destruct (N.eqb_spec a b)
      end;
    cbn [existsb];
    repeat match goal with
      | |- context [(?a =? ?b)%N] => destruct (N.eqb_spec a b)
      end;
    cbn [orb]; try reflexivity; try lia.
Qed.

Lemma newline_upper (x : N) :
  (upper_rune x =? Regexp.newline)%N = (x =? Regexp.newline)%N.
Proof.
  unfold upper_rune, UTF8.between, Regexp.newline.
  destruct (N.leb_spec 97 x); destruct (N.leb_spec x 122); cbn [andb];
    try reflexivity.
  destruct (N.eqb_spec (x - 32) 10); destruct (N.eqb_spec x 10);
    try reflexivity; lia.
Qed.

Lemma deriv_upper (x : N) (r : Regexp.t) :
  case_blind r = true ->
  Regexp.deriv (upper_rune x) r = Regexp.deriv x r.
Proof.
  induction r as [| |fold c| |r1 IH1 r2 IH2|r1 IH1 r2 IH2|r1 IH1|f];
    cbn [case_blind Regexp.deriv]; intros H; try reflexivity.
  - subst fold. rewrite lit_upper. reflexivity.
  - rewrite newline_upper. reflexivity.
  - apply andb_true_iff in H. destruct H as [H1 H2].
    rewrite (IH1 H1), (IH2 H2). reflexivity.
  - apply andb_true_iff in H. destruct H as [H1 H2].
    rewrite (IH1 H1), (IH2 H2). reflexivity.
  - rewrite (IH1 H). reflexivity.
Qed.

Lemma deriv_case_blind (x : N) (r : Regexp.t) :
  case_blind r = true -> case_blind (Regexp.deriv x r) = true.
Proof.
  induction r as [| |fold c| |r1 IH1 r2 IH2|r1 IH1 r2 IH2|r1 IH1|f];
    cbn [case_blind Regexp.deriv]; intros H; try reflexivity.
  - destruct (Regexp.lit_matches fold c x); reflexivity.
  - destruct (_ =? _)%N; reflexivity.
  - apply andb_true_iff in H. destruct H as [H1 H2].
    destruct (Regexp.nullable r1); cbn [case_blind];
      rewrite (IH1 H1), ?(IH2 H2), H2; reflexivity.
  - apply andb_true_iff in H. destruct H as [H1 H2].
    rewrite (IH1 H1), (IH2 H2). reflexivity.
  - rewrite (IH1 H), H. reflexivity.
Qed.

Lemma match_prefix_upper (w : list N) (r : Regexp.t) :
  case_blind r = true ->
  Regexp.match_prefix r (map upper_rune w) = Regexp.match_prefix r w.
Proof.
  revert r. induction w as [|x w IH]; intros r H; [reflexivity|].
  cbn [map Regexp.match_prefix]. rewrite (@deriv_upper x r H).
  rewrite IH by (apply deriv_case_blind; exact H). reflexivity.
Qed.

Lemma search_upper (w : list N) (r : Regexp.t) :
  case_blind r = true ->
  Regexp.search r (map upper_rune w) = Regexp.search r w.
Proof.
  intros H. induction w as [|x w IH]; [reflexivity|].
  cbn [map Regexp.search]. rewrite IH.
  change (upper_rune x :: map upper_rune w) with (map upper_rune (x :: w)).
  rewrite (@match_prefix_upper (x :: w) r H). reflexivity.
Qed.

Lemma atom_case_blind (c : ascii) (a : Regexp.t) :
  Regexp.atom true c = Some a -> case_blind a = true.
Proof.
  unfold Regexp.atom. destruct (Ascii.eqb c "."%char).
  - intros H. inversion H. reflexivity.
  - destruct (_ || _)%bool; [discriminate|].
    intros H. inversion H. reflexivity.
Qed.

Lemma postfix_case_blind (op : ascii) (a ra : Regexp.t) :
  case_blind a = true -> Regexp.postfix op a = Some ra ->
  case_blind ra = true.
Proof.
  unfold Regexp.postfix. intros Ha.
  destruct (Ascii.eqb op "*"%char); [intros H; inversion H; exact Ha|].
  destruct (Ascii.eqb op "+"%char);
    [intros H; inversion H; cbn; rewrite Ha; reflexivity|].
  destruct (Ascii.eqb op "?"%char);
    [intros H; inversion H; cbn; rewrite Ha; reflexivity|discriminate].
Qed.

Lemma cat_opt_case_blind (a : Regexp.t) (rest : option Regexp.t)
    (r : Regexp.t) :
  case_blind a = true ->
  (forall r', rest = Some r' -> case_blind r' = true) ->
  Regexp.cat_opt a rest = Some r -> case_blind r = true.
Proof.
  intros Ha Hrest. destruct rest as [r'|]; [|discriminate].
  intros H. inversion H. cbn. rewrite Ha, (Hrest r' eq_refl). reflexivity.
Qed.

(** A pattern of the fragment after [(?i)] folds case in every
    literal. *)
Lemma parse_case_blind (s : string) (r : Regexp.t) :
  Regexp.parse true s = Some r -> case_blind r = true.
Proof.
  assert (H : forall n s r, (String.length s <= n)%nat ->
                Regexp.parse true s = Some r -> case_blind r = true).
  { clear s r. induction n as [|n IH]; intros s r Hn.
    - destruct s; [|cbn in Hn; lia]. intros H. inversion H. reflexivity.
    - destruct s as [|c rest]; [intros H; inversion H; reflexivity|].
      cbn [Regexp.parse].
      destruct (Regexp.atom true c) as [a|] eqn:Ha; [|discriminate].
      pose proof (@atom_case_blind c a Ha) as Hblind.
      destruct rest as [|op rest'];
        [intros H; inversion H; subst; exact Hblind|].
      cbn [String.length] in Hn.
      destruct (Regexp.postfix op a) as [ra|] eqn:Hp.
      + pose proof (@postfix_case_blind op a ra Hblind Hp) as Hra.
        destruct rest' as [|c' rest''];
          [intros H; inversion H; subst; exact Hra|].
        apply cat_opt_case_blind; [exact Hra|].
        intros r'. apply IH. cbn [String.length] in *. lia.
      + apply cat_opt_case_blind; [exact Hblind|].
        intros r'. apply IH. cbn [String.length] in *. lia. }
  apply (H (String.length s) s r). lia.
Qed.

Lemma upper_rune_high (x : N) : (128 <= x)%N -> upper_rune x = x.
Proof.
  unfold upper_rune, UTF8.between. intros H.
  destruct (N.leb_spec 97 x); destruct (N.leb_spec x 122); cbn [andb];
    try reflexivity; lia.
Qed.

Lemma upper_rune_le (x : N) : (upper_rune x <= x)%N.
Proof. unfold upper_rune. destruct (UTF8.between 97 122 x); lia. Qed.

Lemma byte_upper (c : ascii) :
  UTF8.byte (upper_byte c) = upper_rune (UTF8.byte c).
Proof.
  unfold upper_byte, UTF8.char, UTF8.byte. apply N_ascii_embedding.
  pose proof (N_ascii_bounded c). pose proof (upper_rune_le (N_of_ascii c)).
  lia.
Qed.

Lemma upper_byte_high (c : ascii) :
  (UTF8.byte c <? 128)%N = false -> upper_byte c = c.
Proof.
  intros H. apply N.ltb_ge in H. unfold upper_byte.
  rewrite upper_rune_high by exact H. apply ascii_N_embedding.
Qed.

Lemma between_upper (lo hi x : N) :
  (128 <= lo)%N ->
  UTF8.between lo hi (upper_rune x) = UTF8.between lo hi x.
Proof.
  intros Hlo. destruct (N.le_gt_cases 128 x) as [Hx|Hx].
  - rewrite upper_rune_high by exact Hx. reflexivity.
  - pose proof (upper_rune_le x). unfold UTF8.between.
    replace (lo <=? upper_rune x)%N with false
      by (symmetry; apply N.leb_gt; lia).
    replace (lo <=? x)%N with false by (symmetry; apply N.leb_gt; lia).
    reflexivity.
Qed.

Lemma cont_upper (x : N) : UTF8.cont (upper_rune x) = UTF8.cont x.
Proof. unfold UTF8.cont. apply between_upper. lia. Qed.

Lemma second_ok_upper (b0 x : N) :
  UTF8.second_ok b0 (upper_rune x) = UTF8.second_ok b0 x.
Proof.
  unfold UTF8.second_ok.
  repeat match goal with
    | |- context [if (?a =? ?b)%N then _ else _] => destruct (a =? b)%N
    end;
    try apply cont_upper; apply between_upper; lia.
Qed.

Lemma cont_high (x : N) : UTF8.cont x = true -> (128 <= x)%N.
Proof. intros H. bounds. lia. Qed.

Lemma second_ok_high (b0 x : N) :
  UTF8.second_ok b0 x = true -> (128 <= x)%N.
Proof.
  unfold UTF8.second_ok.
  repeat match goal with
    | |- context [if (?a =? ?b)%N then _ else _] => destruct (a =? b)%N
    end;
    intros H; bounds; lia.
Qed.

(** Turning the ASCII small letters of a string into capitals does so to
    its runes: the bytes of a sequence of several bytes are no letters. *)
Lemma runes_upper (s : string) :
  UTF8.runes (ascii_upper s) = map upper_rune (UTF8.runes s).
Proof.
  assert (H : forall n s, (String.length s <= n)%nat ->
                UTF8.runes (ascii_upper s) = map upper_rune (UTF8.runes s)).
  { clear s. induction n as [|n IH]; intros s Hn.
    { destruct s; [reflexivity|cbn in Hn; lia]. }
    destruct s as [|c0 s1]; [reflexivity|].
    cbn [String.length] in Hn.
    assert (IH1 : UTF8.runes (ascii_upper s1)
                  = map upper_rune (UTF8.runes s1)) by (apply IH; lia).
    destruct (UTF8.byte c0 <? 128)%N eqn:Hb.
    { cbn [ascii_upper UTF8.runes]. rewrite byte_upper.
      assert (Hu : (upper_rune (UTF8.byte c0) <? 128)%N = true).
      { apply N.ltb_lt. apply N.ltb_lt in Hb.
        pose proof (upper_rune_le (UTF8.byte c0)). lia. }
      unfold UTF8.width. rewrite Hb, Hu. cbn [map]. rewrite IH1.
      reflexivity. }
    cbn [ascii_upper]. rewrite (upper_byte_high _ Hb).
    assert (Herr : UTF8.RuneError :: UTF8.runes (ascii_upper s1)
                   = map upper_rune (UTF8.RuneError :: UTF8.runes s1)).
    { cbn [map]. rewrite IH1. reflexivity. }
    cbn [UTF8.runes]. unfold UTF8.width. rewrite Hb.
    set (b0 := UTF8.byte c0) in *.
    destruct (UTF8.between 194 223 b0) eqn:H2.
    { destruct s1 as [|c1 s2]; [exact Herr|].
      cbn [ascii_upper]. rewrite byte_upper, second_ok_upper.
      destruct (UTF8.second_ok b0 (UTF8.byte c1)) eqn:Hs; [|exact Herr].
      pose proof (second_ok_high _ _ Hs) as H1.
      rewrite (upper_rune_high H1). cbn [map].
      rewrite upper_rune_high
        by (unfold UTF8.rune2; unfold UTF8.second_ok in Hs; bounds; lia).
      rewrite IH by (cbn [String.length] in Hn; lia). reflexivity. }
    destruct (UTF8.between 224 239 b0) eqn:H3.
    { destruct s1 as [|c1 [|c2 s3]]; try exact Herr.
      cbn [ascii_upper]. rewrite !byte_upper, second_ok_upper, cont_upper.
      destruct (UTF8.second_ok b0 (UTF8.byte c1)
                && UTF8.cont (UTF8.byte c2))%bool eqn:Hs; [|exact Herr].
      apply andb_true_iff in Hs. destruct Hs as [Hs1 Hs2].
      pose proof (second_ok_high _ _ Hs1) as H1.
      pose proof (cont_high _ Hs2) as H1'.
      rewrite (upper_rune_high H1), (upper_rune_high H1'). cbn [map].
      rewrite upper_rune_high.
      - rewrite IH by (cbn [String.length] in Hn; lia). reflexivity.
      - unfold UTF8.rune3. unfold UTF8.second_ok in Hs1.
        destruct (b0 =? 224)%N eqn:E; bounds; [subst b0|].
        + rewrite E in *. lia.
        + lia. }
    destruct (UTF8.between 240 244 b0) eqn:H4; [|exact Herr].
    destruct s1 as [|c1 [|c2 [|c3 s4]]]; try exact Herr.
    cbn [ascii_upper]. rewrite !byte_upper, second_ok_upper, !cont_upper.
    destruct (UTF8.second_ok b0 (UTF8.byte c1)
              && UTF8.cont (UTF8.byte c2)
              && UTF8.cont (UTF8.byte c3))%bool eqn:Hs; [|exact Herr].
    apply andb_true_iff in Hs. destruct Hs as [Hs Hs3].
    apply andb_true_iff in Hs. destruct Hs as [Hs1 Hs2].
    pose proof (second_ok_high _ _ Hs1) as H1.
    pose proof (cont_high _ Hs2) as H1'.
    pose proof (cont_high _ Hs3) as H1''.
    rewrite (upper_rune_high H1), (upper_rune_high H1'),
      (upper_rune_high H1''). cbn [map].
    rewrite upper_rune_high.
    - rewrite IH by (cbn [String.length] in Hn; lia). reflexivity.
    - unfold UTF8.rune4. unfold UTF8.second_ok in Hs1.
      destruct (b0 =? 224)%N eqn:E1; [bounds; lia|].
      destruct (b0 =? 237)%N eqn:E2; [bounds; lia|].
      destruct (b0 =? 240)%N eqn:E3; bounds; lia. }
  apply (H (String.length s) s). lia.
Qed.

Lemma substring_all (s : string) : substring 0 (String.length s) s = s.
Proof. induction s as [|c s IH]; [reflexivity|]. cbn. rewrite IH. reflexivity. Qed.

Lemma strip_case_prefix (location : string) :
  Regexp.strip_prefix "(?i)" ("(?i)" ++ location) = Some location.
Proof.
  unfold Regexp.strip_prefix.
  assert (Hp : String.prefix "(?i)" ("(?i)" ++ location) = true)
    by (destruct location; reflexivity).
  rewrite Hp. cbn [append String.length Nat.sub substring].
  rewrite Nat.sub_0_r, substring_all. reflexivity.
Qed.

(** X16.  [main] compiles the location flag after [(?i)], so the match
    does not tell the case of ASCII letters.  For a location flag of the
    fragment (ASCII literals and [.], each with at most one of [*], [+],
    [?]) the pattern compiles, whatever the library makes of other
    patterns, and it is found in a string exactly when it is found in
    the string with its ASCII small letters turned into capitals; the
    string is any sequence of bytes, read rune by rune. *)
Theorem X16_location_match_ignores_case :
  forall library location re,
    Regexp.parse true location = Some re ->
    Regexp.MustCompile library ("(?i)" ++ location)%string = Some re /\
    forall s,
      Regexp.MatchString re (ascii_upper s) = Regexp.MatchString re s.
Proof.
  intros library location re Hparse. split.
  - unfold Regexp.MustCompile, Regexp.in_fragment.
    rewrite strip_case_prefix, Hparse. reflexivity.
  - intros s. pose proof (parse_case_blind _ Hparse) as Hblind.
    assert (Hm : forall x, Regexp.MatchString re x
                           = Regexp.search re (UTF8.runes x)).
    { intros x. destruct re; try reflexivity. discriminate. }
    rewrite !Hm, runes_upper. apply search_upper. exact Hblind.
Qed.

Lemma X16_witness :
  exists re,
    Regexp.MustCompile (fun _ => None) ("(?i)" ++ "madrid")%string = Some re /\
    forall s,
      Regexp.MatchString re (ascii_upper s) = Regexp.MatchString re s.
Proof.
  eexists.
  apply (@X16_location_match_ignores_case (fun _ => None) "madrid").
  reflexivity.
Defined.

(** ** The Result List of a whole run *)

Lemma firstn_min_length (A : Type) (n : nat) (l : list A) :
  firstn (Nat.min n (length l)) l = firstn n l.
Proof.
  destruct (Nat.le_ge_cases n (length l)) as [H|H].
  - rewrite Nat.min_l by exact H. reflexivity.
  - rewrite Nat.min_r by exact H. rewrite firstn_all, firstn_all2 by exact H.
    reflexivity.
Qed.

(** What the single scan of all the records leaves is the qualifying
    records, up to the limit. *)
Lemma view_result (MinReputation : Z) (fl : Flags.t) (re : Regexp.t)
    (st : state) (rep : bool) :
  view MinReputation fl re st = (rep, current st) ->
  (Flags.limit fl = 0 ->
   Z.of_nat (length (Expected.qualifying MinReputation re
                       (Expected.records (filtered st)))) <= GoInt.int_max ->
   ranks st
   = Expected.numbered 0
       (Expected.qualifying MinReputation re
          (Expected.records (filtered st)))) /\
  (0 < Flags.limit fl <= GoInt.int_max ->
   ranks st
   = Expected.numbered 0
       (firstn (Z.to_nat (Flags.limit fl))
          (Expected.qualifying MinReputation re
             (Expected.records (filtered st))))).
Proof.
  unfold view, current. intros Hv. split.
  - intros Hl Hmax. rewrite Hl in Hv.
    rewrite scan_unlimited in Hv; cbn [Filter.counter]; try lia.
    apply (f_equal snd) in Hv. apply (f_equal Filter.ranks) in Hv.
    cbn [snd Filter.ranks Filter.counter app] in Hv.
    symmetry. exact Hv.
  - intros Hl.
    rewrite scan_limited in Hv; cbn [Filter.counter]; try lia.
    apply (f_equal snd) in Hv. apply (f_equal Filter.ranks) in Hv.
    cbn [snd Filter.ranks Filter.counter app] in Hv.
    rewrite <- Hv. unfold room. rewrite Z.sub_0_r, firstn_min_length.
    reflexivity.
Qed.

(** X17.  At the end of every run of the command and of [main.go], the
    Result List is the qualifying records of the pages handed to the
    rank filter, taken as one sequence in the order they were read (the
    records at or above the minimum reputation of the program, in front
    of the first record under it, whose location the pattern is found
    in), numbered from 1: all of them without a limit, and the first
    [limit] of them with a limit above 0. *)
Theorem X17_result_list_of_a_run :
  (forall fuel fl w re o st,
      Regexp.MustCompile (World.regexp w)
        ("(?i)" ++ Flags.location fl)%string = Some re ->
      Command.main fuel fl w = Some (o, st) ->
      (Flags.limit fl = 0 ->
       Z.of_nat (length (Expected.qualifying Command.MinReputation re
                           (Expected.records (filtered st))))
         <= GoInt.int_max ->
       ranks st
       = Expected.numbered 0
           (Expected.qualifying Command.MinReputation re
              (Expected.records (filtered st)))) /\
      (0 < Flags.limit fl <= GoInt.int_max ->
       ranks st
       = Expected.numbered 0
           (firstn (Z.to_nat (Flags.limit fl))
              (Expected.qualifying Command.MinReputation re
                 (Expected.records (filtered st)))))) /\
  (forall fuel fl w re o st,
      Regexp.MustCompile (World.regexp w)
        ("(?i)" ++ Flags.location fl)%string = Some re ->
      MainGo.main fuel fl w = Some (o, st) ->
      (Flags.limit fl = 0 ->
       Z.of_nat (length (Expected.qualifying MainGo.MinReputation re
                           (Expected.records (filtered st))))
         <= GoInt.int_max ->
       ranks st
       = Expected.numbered 0
           (Expected.qualifying MainGo.MinReputation re
              (Expected.records (filtered st)))) /\
      (0 < Flags.limit fl <= GoInt.int_max ->
       ranks st
       = Expected.numbered 0
           (firstn (Z.to_nat (Flags.limit fl))
              (Expected.qualifying MainGo.MinReputation re
                 (Expected.records (filtered st)))))).
Proof.
  split; intros fuel fl w re o st Hre Hmain.
  - destruct (Command_main_view _ _ _ Hre Hmain) as [rep Hv].
    apply (@view_result _ fl re st rep Hv).
  - destruct (MainGo_main_view _ _ _ Hre Hmain) as [rep Hv].
    apply (@view_result _ fl re st rep Hv).
Qed.

Lemma X17_witness :
  ranks (snd two_page_run)
  = Expected.numbered 0
      (firstn (Z.to_nat (Flags.limit limit_five))
         (Expected.qualifying Command.MinReputation Regexp.AnyNotNL
            (Expected.records (filtered (snd two_page_run))))) /\
  ranks (snd file_run)
  = Expected.numbered 0
      (firstn (Z.to_nat (Flags.limit from_file_limit_two))
         (Expected.qualifying MainGo.MinReputation Regexp.AnyNotNL
            (Expected.records (filtered (snd file_run))))).
Proof.
  split.
  - apply (proj1 X17_result_list_of_a_run 5%nat limit_five serving_world
             Regexp.AnyNotNL (fst two_page_run) (snd two_page_run)).
    + reflexivity.
    + vm_compute. reflexivity.
    + vm_compute. split; [reflexivity|discriminate].
  - apply (proj2 X17_result_list_of_a_run 3%nat from_file_limit_two
             file_world Regexp.AnyNotNL (fst file_run) (snd file_run)).
    + reflexivity.
    + vm_compute. reflexivity.
    + vm_compute. split; [reflexivity|discriminate].
Defined.

(** ** Panics of the command *)

Lemma filter_and_advance_no_panic (MaxPages MinReputation : Z)
    (fl : Flags.t) (re : Regexp.t) (st : state) :
  users st <> None ->
  match Body.filter_and_advance MaxPages MinReputation fl re st with
  | Panicked _ => False
  | _ => True
  end.
Proof.
  unfold Body.filter_and_advance. intros Hu.
  destruct (users st) as [u|]; [|contradiction].
  destruct (GetUserInfo u _ _ _ _ _) as [[rep a] out].
  destruct rep; cbn [negb]; [|exact I].
  destruct (Body.last_page MaxPages u _); exact I.
Qed.

(** No pass of the command's loop reads [users] through a nil pointer:
    it is assigned in both branches before the rank filter is called. *)
Lemma Command_iteration_no_panic (fl : Flags.t) (w : World.t)
    (re : Regexp.t) (st : state) :
  match Command.iteration fl w re st with
  | Panicked _ => False
  | _ => True
  end.
Proof.
  unfold Command.iteration.
  destruct (Flags.jsonfile fl =? EmptyString)%string.
  - match goal with
    | |- context [if fetch_failed ?r then _ else _] =>
        destruct (fetch_failed r)
    end.
    + unfold Body.retry. destruct (_ >=? _); exact I.
    + apply filter_and_advance_no_panic. simpl_state. discriminate.
  - unfold Body.from_file.
    destruct (World.json_file w (Flags.jsonfile fl)); [exact I|].
    apply filter_and_advance_no_panic. simpl_state. discriminate.
Qed.

Lemma Command_loop_no_panic (fl : Flags.t) (w : World.t) (re : Regexp.t)
    (fuel : nat) (s : step) :
  Body.loop (Command.iteration fl w re) fuel init = Some s ->
  match s with Panicked _ => False | _ => True end.
Proof.
  intros Hloop.
  pose proof (@loop_invariant (Command.iteration fl w re)
                (fun _ => True)
                (fun s0 => match s0 with Panicked _ => False | _ => True end))
    as Hinv.
  eapply Hinv; [|exact I|exact Hloop].
  intros st _. pose proof (Command_iteration_no_panic fl w re st) as H.
  destruct (Command.iteration fl w re st); exact H.
Qed.

Lemma Command_report_panic (fl : Flags.t) (w : World.t) (st0 st : state) :
  Command.report fl w st0 = (Panic, st) ->
  (Flags.jsonrsp fl <> EmptyString /\
   World.creatable w (Flags.jsonrsp fl) = false) \/
  (Flags.mdrsp fl <> EmptyString /\
   World.creatable w (Flags.mdrsp fl) = false).
Proof.
  unfold Command.report, Command.lib_DumpJson, Command.lib_DumpMarkdown.
  destruct (counter st0 =? 0); [discriminate|].
  destruct (String.eqb_spec (Flags.jsonrsp fl) EmptyString) as [Hj|Hj];
    destruct (String.eqb_spec (Flags.mdrsp fl) EmptyString) as [Hm|Hm];
    destruct (Flags.publish fl =? EmptyString)%string;
    destruct (World.creatable w (Flags.jsonrsp fl)) eqn:Cj;
    destruct (World.creatable w (Flags.mdrsp fl)) eqn:Cm;
    intros H; try discriminate; auto.
Qed.

(** X18.  The command does not panic inside its loop: [users] is
    assigned in both branches before the rank filter reads it, in HTTP
    mode to a fresh [SOUsers] before each request.  A run of the command
    that panics does so when the pattern does not compile, or after the
    loop on a report that cannot be created. *)
Theorem X18_command_panics_outside_the_loop_only :
  forall fuel fl w st,
    Command.main fuel fl w = Some (Panic, st) ->
    Regexp.MustCompile (World.regexp w)
      ("(?i)" ++ Flags.location fl)%string = None \/
    (Flags.jsonrsp fl <> EmptyString /\
     World.creatable w (Flags.jsonrsp fl) = false) \/
    (Flags.mdrsp fl <> EmptyString /\
     World.creatable w (Flags.mdrsp fl) = false).
Proof.
  intros fuel fl w st Hmain. unfold Command.main in Hmain.
  destruct (negb _ && _)%bool; [discriminate|].
  destruct (Regexp.MustCompile _ _) as [re|]; [|left; reflexivity].
  right.
  destruct (Body.loop _ fuel init) as [s|] eqn:Hloop; [|discriminate].
  pose proof (Command_loop_no_panic _ _ _ _ Hloop) as Hs.
  inversion Hmain as [Hfin]. unfold Command.finish in Hfin.
  destruct s as [st0|st0|c st0|st0]; try contradiction; try discriminate;
    apply (Command_report_panic _ _ _ Hfin).
Qed.

Lemma X18_witness :
  Regexp.MustCompile (World.regexp read_only_world)
    ("(?i)" ++ Flags.location publishing)%string = None \/
  (Flags.jsonrsp publishing <> EmptyString /\
   World.creatable read_only_world (Flags.jsonrsp publishing) = false) \/
  (Flags.mdrsp publishing <> EmptyString /\
   World.creatable read_only_world (Flags.mdrsp publishing) = false).
Proof.
  apply (@X18_command_panics_outside_the_loop_only 1%nat publishing
           read_only_world (snd read_only_run)).
  vm_compute. reflexivity.
Defined.

(** ** Pages in sequence *)

(** X19.  Calling the rank filter on a page and then, when it returned
    true, on the next page with the counter and the Result List the
    first call left, does what one call on the records of both pages
    does: the same result, counter, list and lines printed.  When the
    call on the first page returns false, the call on both is the call
    on the first. *)
Theorem X19_two_pages_are_one_scan :
  forall (p q : SOUsers.t) has_more quota_max quota_remaining
         MinReputation location limit term st,
    GetUserInfo
      (SOUsers.mk (SOUsers.Items p ++ SOUsers.Items q) has_more quota_max
         quota_remaining)
      MinReputation location limit term st
    = if fst (fst (GetUserInfo p MinReputation location limit term st))
      then
        (fst (fst (GetUserInfo q MinReputation location limit term
                     (snd (fst (GetUserInfo p MinReputation location limit
                                  term st))))),
         snd (fst (GetUserInfo q MinReputation location limit term
                     (snd (fst (GetUserInfo p MinReputation location limit
                                  term st))))),
         snd (GetUserInfo p MinReputation location limit term st)
         ++ snd (GetUserInfo q MinReputation location limit term
                   (snd (fst (GetUserInfo p MinReputation location limit
                                term st)))))
      else GetUserInfo p MinReputation location limit term st.
Proof.
  intros p q has_more quota_max quota_remaining MinReputation location limit
    term st.
  unfold GetUserInfo. cbn [SOUsers.Items]. rewrite scan_app.
  destruct (Filter.scan (SOUsers.Items p) _ _ _ _ _) as [[rep st1] out].
  cbn [fst snd]. destruct rep.
  - destruct (Filter.scan (SOUsers.Items q) _ _ _ _ _) as [[rep' st2] out'].
    reflexivity.
  - reflexivity.
Qed.
